(** * generate_readme.py: the README regeneration engine, embedded in Rocq

    The Python script reads the [README.md] beside it, recovers the bullet
    list of plugin URLs stored in the "All Plugins" disclosure block, asks
    GitHub about every URL, and writes the document again.

    Python [str] values are modelled as Rocq strings, one [ascii] for each
    character (code points below 256).  The document is taken for the text
    it holds, positions in it counted in characters, so that reading it as
    bytes and decoding a part of it is the identity; the files downloaded
    from GitHub are bytes, decoded when they are read.  Exceptions are an
    explicit [result], side effects an explicit [World] threaded through
    the run. *)

From Stdlib Require Import ZArith Ascii String DecimalString.
From stdpp Require Import base tactics option list sorting strings gmap fin_maps.

Local Open Scope Z_scope.

(** ** Characters and strings as Python has them *)

Module Py.

Definition newline : ascii := "010"%char.
Definition quote : ascii := "034"%char.
Definition nl : string := String newline "".
Definition dq : string := String quote "".

(** [str.isspace] on one character, which is also what [\s] matches in a
    [str] pattern. *)
Definition isspace (c : ascii) : bool :=
  let n := N_of_ascii c in
  ((9 <=? n)%N && (n <=? 13)%N) || ((28 <=? n)%N && (n <=? 32)%N)
  || (n =? 133)%N || (n =? 160)%N.

Fixpoint all_space (s : string) : bool :=
  match s with
  | "" => true
  | String c s' => isspace c && all_space s'
  end.

Fixpoint lstrip (s : string) : string :=
  match s with
  | "" => ""
  | String c s' => if isspace c then lstrip s' else s
  end.

Fixpoint rstrip (s : string) : string :=
  match s with
  | "" => ""
  | String c s' =>
      match rstrip s' with
      | "" => if isspace c then "" else String c ""
      | r => String c r
      end
  end.

(** [s.strip()] *)
Definition strip (s : string) : string := lstrip (rstrip s).

(** [len(s)] *)
Definition len (s : string) : Z := Z.of_nat (String.length s).

Fixpoint take (n : nat) (s : string) : string :=
  match n, s with
  | S n', String c s' => String c (take n' s')
  | _, _ => ""
  end.

Fixpoint drop (n : nat) (s : string) : string :=
  match n, s with
  | S n', String _ s' => drop n' s'
  | _, _ => s
  end.

(** [s[:stop]]: a negative [stop] counts from the end. *)
Definition slice_to (s : string) (stop : Z) : string :=
  if 0 <=? stop then take (Z.to_nat stop) s
  else take (Z.to_nat (len s + stop)) s.

(** [s.split(sep)] for a one-character separator *)
Fixpoint split (sep : ascii) (s : string) : list string :=
  match s with
  | "" => [""]
  | String c s' =>
      if Ascii.eqb c sep then "" :: split sep s'
      else match split sep s' with
           | l :: ls => String c l :: ls
           | [] => [String c ""]
           end
  end.

(** [s.split("\n")] *)
Definition split_lines (s : string) : list string := split newline s.

(** [sep.join(parts)] *)
Definition join (sep : string) (parts : list string) : string :=
  String.concat sep parts.

(** [s.startswith(p)] *)
Definition startswith (p s : string) : bool := String.prefix p s.

(** [s.replace(old, "")] for a non-empty [old]: occurrences are found
    from the left and do not overlap.  [skip] counts the characters of
    the occurrence being removed that are still ahead. *)
Fixpoint remove_from (old : string) (skip : nat) (s : string) : string :=
  match s with
  | "" => ""
  | String c s' =>
      match skip with
      | S k => remove_from old k s'
      | O =>
          if String.prefix old s
          then remove_from old (Nat.pred (String.length old)) s'
          else String c (remove_from old 0 s')
      end
  end.

Definition remove_all (old s : string) : string := remove_from old 0 s.

(** [needle in s] *)
Fixpoint contains (needle s : string) : bool :=
  String.prefix needle s
  || match s with
     | "" => false
     | String _ s' => contains needle s'
     end.

(** [str.lower] and [str.upper] on one character.  Three characters below
    code point 256 have no capital there: the sharp s, whose capital is
    two letters, and the micro sign and the y with diaeresis, whose
    capitals lie beyond; [upper_char] leaves the three as they are. *)
Definition lower_char (c : ascii) : ascii :=
  let n := N_of_ascii c in
  if ((65 <=? n)%N && (n <=? 90)%N)
     || ((192 <=? n)%N && (n <=? 222)%N && negb (n =? 215)%N)
  then ascii_of_N (n + 32) else c.

Definition upper_char (c : ascii) : ascii :=
  let n := N_of_ascii c in
  if ((97 <=? n)%N && (n <=? 122)%N)
     || ((224 <=? n)%N && (n <=? 254)%N && negb (n =? 247)%N)
  then ascii_of_N (n - 32) else c.

(** [s.lower()] *)
Fixpoint lower (s : string) : string :=
  match s with
  | "" => ""
  | String c s' => String (lower_char c) (lower s')
  end.

(** [s.replace("\r\n", "\n").replace("\r", "\n")], the translation of
    line ends that reading a file in text mode makes. *)
Fixpoint universal_newlines (s : string) : string :=
  match s with
  | "" => ""
  | String c s' =>
      if Ascii.eqb c "013" then
        match s' with
        | String d s'' =>
            if Ascii.eqb d newline then String newline (universal_newlines s'')
            else String newline (universal_newlines s')
        | "" => String newline ""
        end
      else String c (universal_newlines s')
  end.

(** The title case of a first character, as [str.capitalize] takes it: the
    sharp s becomes [Ss]. *)
Definition title_char (c : ascii) : string :=
  if Ascii.eqb c "223" then "Ss" else String (upper_char c) "".

(** Whether the capital of the first character of [s] lies below code
    point 256: it does unless [s] starts with the micro sign or with the y
    with diaeresis.  Only then is [capitalize] what Python gives. *)
Definition capital_in_range (s : string) : bool :=
  match s with
  | "" => true
  | String c _ => negb (Ascii.eqb c "181" || Ascii.eqb c "255")
  end.

(** [s.capitalize()], for [s] with [capital_in_range s] *)
Definition capitalize (s : string) : string :=
  match s with
  | "" => ""
  | String c s' => title_char c +:+ lower s'
  end.

(** [c * n] for a one-character string *)
Fixpoint repeat_char (c : ascii) (n : nat) : string :=
  match n with
  | O => ""
  | S n' => String c (repeat_char c n')
  end.

(** [str(n)] for an [int] *)
Definition str_of_int (n : Z) : string :=
  NilZero.string_of_int (Z.to_int n).

(** [sorted(xs)] on strings.  Python's order on [str] is the
    lexicographic order on code points, and two strings that compare
    equal are the same string, so stability cannot be observed. *)
Definition sorted (xs : list string) : list string :=
  merge_sort String.le xs.

End Py.

(** ** Exceptions *)

Inductive exception : Type :=
  | RuntimeError (message : string)
  | NotImplementedError (message : string)
  | EnvironmentError (message : string)
  | ValueError (message : string)
  | IndexError
  | HTTPError (message : string)
  | UnicodeDecodeError (message : string)
  | FileExistsError (message : string)
  | OSError (message : string)
  | SystemExit.

Inductive result (A : Type) : Type :=
  | Ok (value : A)
  | Raise (e : exception).
Arguments Ok {A} value.
Arguments Raise {A} e.

#[global] Instance result_ret : MRet result := fun A (a : A) => Ok a.
#[global] Instance result_bind : MBind result :=
  fun A B (f : A -> result B) (r : result A) =>
    match r with
    | Ok a => f a
    | Raise e => Raise e
    end.

(** ** Module constants *)

Definition _ALL_PLUGINS_MARKER : string := "All Plugins".
Definition _DESCRIPTION_LENGTH : Z := 80.
Definition _MARKDOWN_FENCE_MARKER : string := "```".

Definition _GITHUB_PATTERNS : list (string -> bool) :=
  [ (fun url => Py.startswith "http://github.com/" url
                || Py.startswith "https://github.com/" url);
    Py.startswith "git@github.com:";
    Py.startswith "git://github.com/" ].

(** ** Data model *)

Record _Model := Build_Model {
  search_terms : list string;
  model_name : string;
  model_url : string }.

Definition get_search_terms (m : _Model) : list string :=
  match search_terms m with
  | [] => [model_name m]
  | terms => terms
  end.

Definition serialize_to_markdown_tag (m : _Model) : string :=
  "[#" +:+ model_name m +:+ "](" +:+ model_url m +:+ ")".

Definition _MODELS : list _Model :=
  [ Build_Model ["claude"] "Claude" "https://claude.ai";
    Build_Model ["deepseek"] "DeepSeek" "https://chat.deepseek.com";
    Build_Model ["ollama"] "Ollama" "https://ollama.com";
    Build_Model ["openai"] "OpenAI" "https://openai.com";
    Build_Model ["tabnine"] "TabNine" "https://www.tabnine.com";
    Build_Model ["codeium"; "windsurf"] "Windsurf" "https://windsurf.com";
    Build_Model ["codium"; "qodo"] "Qodo" "https://www.qodo.ai" ].

Record _GitHubRepositoryDetailsLicense := Build_License {
  license_name : string;
  license_url : option string }.

Record _GitHubRepositoryDetails := Build_Details {
  default_branch : string;
  description : option string;
  html_url : string;
  license : option _GitHubRepositoryDetailsLicense;
  name : string;
  owner_login : string;
  pushed_at : string;
  stargazers_count : Z }.

Record _GitHubRepositoryRequest := Build_Request {
  request_owner : string;
  request_name : string }.

Record _GitHubTreeResult := Build_TreeResult {
  tree_path : string;
  tree_type : string }.

Record _GitHubRow := Build_Row {
  row_description : option string;
  row_last_commit_date : string;
  row_license : option _GitHubRepositoryDetailsLicense;
  row_models : list _Model;   (* a set: the members, in [_MODELS] order *)
  row_name : string;
  row_star_count : Z;
  row_status : option string;
  row_url : string }.

Definition get_repository_label (row : _GitHubRow) : string :=
  "[" +:+ row_name row +:+ "](" +:+ row_url row +:+ ")".

Record _GitHubRepository := Build_Repository {
  repository_directory : string;
  documentation : list string;
  repository_name : string;
  repository_owner : string;
  repository_url : string }.

Record _UnknownRow := Build_UnknownRow { unknown_url : string }.

Record _Tables := Build_Tables {
  github : gmap string (list _GitHubRow);
  unknown : list _UnknownRow }.

Definition is_empty (tables : _Tables) : bool :=
  bool_decide (github tables = ∅) && bool_decide (unknown tables = []).

(** ** Pure helpers of the script *)

Definition _is_github (url : string) : bool :=
  existsb (fun pattern => pattern url) _GITHUB_PATTERNS.

Definition _get_ellided_text (text : string) (max : Z) : string :=
  if Py.len text <=? max then text
  else
    let ellipsis := "..." in
    Py.slice_to text (max - Py.len ellipsis) +:+ ellipsis.

(** A JSON [null] and an empty string both count as "no description". *)
Definition _get_description_summary (details : _GitHubRepositoryDetails)
  : option string :=
  match description details with
  | None | Some "" => None
  | Some text =>
      if Py.len text <=? _DESCRIPTION_LENGTH then Some text
      else Some (_get_ellided_text text _DESCRIPTION_LENGTH)
  end.

Definition _get_license_as_markdown (l : _GitHubRepositoryDetailsLicense)
  : string :=
  let name := Py.remove_all " License" (license_name l) in
  match license_url l with
  | None | Some "" => name
  | Some url => "[" +:+ name +:+ "](" +:+ url +:+ ")"
  end.

Definition _get_primary_category (documentation : list string) : string :=
  "unknown".

Definition _get_status (documentation : list string) : option string := None.

Definition _get_models (documentation : list string) : list _Model :=
  filter (fun model =>
            existsb (fun page =>
                       existsb (fun term =>
                                  negb (String.eqb term "")
                                  && Py.contains term (Py.lower page))
                               (get_search_terms model))
                    documentation)
         _MODELS.

(** ** Rendering one table *)

Definition _NO_DESCRIPTION : string := "`<No description found>`".
Definition _NO_MODELS : string := "<No AI models were found>".
Definition _NO_LICENSE : string := "`<No license found>`".

(** [row.description or "`<No description found>`"] *)
Definition description_cell (row : _GitHubRow) : string :=
  match row_description row with
  | None | Some "" => _NO_DESCRIPTION
  | Some text => text
  end.

Definition models_cell (row : _GitHubRow) : string :=
  match Py.join " " (Py.sorted (map serialize_to_markdown_tag (row_models row))) with
  | "" => _NO_MODELS
  | tags => tags
  end.

Definition license_cell (row : _GitHubRow) : string :=
  match row_license row with
  | Some l => _get_license_as_markdown l
  | None => _NO_LICENSE
  end.

Definition row_line (row : _GitHubRow) : string :=
  let parts :=
    [ get_repository_label row;
      description_cell row;
      ":star2: " +:+ Py.str_of_int (row_star_count row);
      models_cell row;
      row_last_commit_date row;
      license_cell row ] in
  "| " +:+ Py.join " | " parts +:+ " |".

Definition table_header : list string :=
  [ "| :ab: Name | :notebook: Description | :star2: Stars | :robot: Models | :date: Updated | :balance_scale: License |";
    "| --------- | ---------------------- | ------------- | -------------- | -------------- | ----------------------- |" ].

Definition _serialize_github_table (rows : list _GitHubRow) : option string :=
  match rows with
  | [] => None
  | _ => Some (Py.join Py.nl (table_header ++ Py.sorted (map row_line rows)))
  end.

(** [sorted(tables.github.items())]: the keys of a dict differ, so the
    pairs are ordered by their labels alone. *)
Definition category_le (a b : string * list _GitHubRow) : Prop :=
  String.le a.1 b.1.

#[global] Instance category_le_dec : RelDecision category_le.
Proof. intros a b. unfold category_le. apply _. Defined.

#[global] Instance category_le_total : Total category_le.
Proof. intros a b. unfold category_le. apply (total String.le). Qed.

Definition table_heading (name : string) : string :=
  Py.capitalize name +:+ Py.nl +:+ Py.repeat_char "="%char (String.length name).

(** The loop of [_get_tables_as_lines] over the sorted categories: the
    first table that cannot be serialized raises. *)
Fixpoint serialize_categories (items : list (string * list _GitHubRow))
  : result (list string) :=
  match items with
  | [] => Ok []
  | (name, rows) :: rest =>
      match _serialize_github_table rows with
      | None =>
          Raise (RuntimeError ("Table " +:+ Py.dq +:+ name +:+ Py.dq
                               +:+ " could not be serialized."))
      | Some table =>
          match serialize_categories rest with
          | Ok output =>
              Ok ((table_heading name +:+ Py.nl +:+ Py.nl +:+ table) :: output)
          | Raise e => Raise e
          end
      end
  end.

Definition _get_tables_as_lines (tables : _Tables) : result (list string) :=
  match serialize_categories
          (merge_sort category_le (map_to_list (github tables))) with
  | Raise e => Raise e
  | Ok output =>
      match unknown tables with
      | [] => Ok output
      | _ => Raise (NotImplementedError "TODO: Finish this")
      end
  end.

(** The part of the document between the header and the footer, as
    [_generate_readme_text] builds it. *)
Definition readme_middle (table_data : _Tables) : result string :=
  if is_empty table_data then Ok ""
  else
    match _get_tables_as_lines table_data with
    | Ok tables => Ok (Py.nl +:+ Py.nl +:+ Py.join Py.nl tables)
    | Raise e => Raise e
    end.

(** ** The bullet grammar

    [_BULLETPOINT_EXPRESSION] is [^\s*-\s*(?P<text>.+)$].  The three
    functions below follow the matcher: greedy, longest whitespace run
    first, giving characters back when the rest cannot match. *)

(** [.*$]: any characters but a line break, up to the end of the string or
    to one last line break. *)
Fixpoint dot_star_end (s : string) : option string :=
  match s with
  | "" => Some ""
  | String c s' =>
      if Ascii.eqb c Py.newline
      then match s' with "" => Some "" | _ => None end
      else String c <$> dot_star_end s'
  end.

(** [(.+)$] *)
Definition dot_plus_end (s : string) : option string :=
  match dot_star_end s with
  | Some "" => None
  | found => found
  end.

(** [\s*(.+)$] *)
Fixpoint after_dash (s : string) : option string :=
  match s with
  | "" => None
  | String c s' =>
      if Py.isspace c
      then match after_dash s' with
           | Some text => Some text
           | None => dot_plus_end s
           end
      else dot_plus_end s
  end.

(** [_BULLETPOINT_EXPRESSION.match(line)], giving [group("text")]. *)
Definition _BULLETPOINT_EXPRESSION (line : string) : option string :=
  match Py.lstrip line with
  | String "-" rest => after_dash rest
  | _ => None
  end.

Definition unexpected_line (line : string) : exception :=
  RuntimeError ("Got unexpected line " +:+ Py.dq +:+ line +:+ Py.dq
                +:+ ", expected to parse with "
                +:+ Py.dq +:+ "^\s*-\s*(?P<text>.+)$" +:+ Py.dq +:+ " regex.").

(** The loop of [_get_plugin_urls] over the lines of the fenced text. *)
Fixpoint parse_bullets (lines : list string) : result (list string) :=
  match lines with
  | [] => Ok []
  | line :: rest =>
      let line := Py.strip line in
      if String.eqb line "" || String.eqb line _MARKDOWN_FENCE_MARKER
      then parse_bullets rest
      else
        match _BULLETPOINT_EXPRESSION line with
        | None => Raise (unexpected_line line)
        | Some text =>
            match parse_bullets rest with
            | Ok output => Ok (text :: output)
            | Raise e => Raise e
            end
        end
  end.

(** [_get_plugin_urls] once [_get_plugins_text] has answered. *)
Definition plugin_urls_of_text (text : option string)
  : result (option (list string)) :=
  match text with
  | None | Some "" => Ok None
  | Some text =>
      match parse_bullets (Py.split_lines text) with
      | Ok output => Ok (Some output)
      | Raise e => Raise e
      end
  end.

(** [f"- {name}"] *)
Definition bullet (name : string) : string := "- " +:+ name.

(** The text [_get_reader_header] puts between the two fence lines. *)
Definition embedded_list (plugins : list string) : string :=
  Py.join Py.nl (Py.sorted (map bullet plugins)).

Definition reader_header (date : string) (plugins : list string) : string :=
  "This is a list of Neovim AI plugins." +:+ Py.nl
  +:+ "This page is auto-generated and was last updated on "
  +:+ Py.dq +:+ date +:+ Py.dq +:+ Py.nl
  +:+ Py.nl
  +:+ "<details>" +:+ Py.nl
  +:+ "<summary>" +:+ _ALL_PLUGINS_MARKER +:+ "</summary>" +:+ Py.nl
  +:+ Py.nl
  +:+ "```" +:+ Py.nl
  +:+ embedded_list plugins +:+ Py.nl
  +:+ "```" +:+ Py.nl
  +:+ "</details>" +:+ Py.nl.

Definition readme_footer : string :=
  Py.nl +:+ Py.nl +:+ Py.nl
  +:+ "## Generating This List" +:+ Py.nl
  +:+ "```sh" +:+ Py.nl
  +:+ "GITHUB_TOKEN=" +:+ Py.dq +:+ "your API token here" +:+ Py.dq
  +:+ " make generate" +:+ Py.nl
  +:+ "# Or directly" +:+ Py.nl
  +:+ "GITHUB_TOKEN=" +:+ Py.dq +:+ "your API token here" +:+ Py.dq
  +:+ " python generate_readme.md --directory /tmp/repositories" +:+ Py.nl
  +:+ "```" +:+ Py.nl.

(** ** Paths *)

Module Path.

(** [os.path.join(a, b)] *)
Definition join (a b : string) : string :=
  if Py.startswith "/" b then b
  else match a with
       | "" => b
       | _ => if String.eqb (Py.drop (Nat.pred (String.length a)) a) "/"
              then a +:+ b else a +:+ "/" +:+ b
       end.

(** [os.path.basename(p)] *)
Definition basename (p : string) : string :=
  List.last (Py.split "/"%char p) "".

Fixpoint lstrip_dots (s : string) : string :=
  match s with
  | String "." s' => lstrip_dots s'
  | _ => s
  end.

(** [os.path.splitext(name)[0]] for a name without a directory part: the
    last dot starts the extension unless only dots come before it. *)
Definition splitext_root (name : string) : string :=
  let stem := lstrip_dots name in
  match List.rev (Py.split "."%char stem) with
  | _ :: (_ :: _) as before =>
      Py.take (String.length name - String.length stem) name
      +:+ Py.join "." (List.rev before)
  | _ => name
  end.

End Path.

Definition _is_readme (name : string) : bool :=
  String.eqb (Py.lower (Path.splitext_root (Path.basename name))) "readme".

(** ** Syntax trees

    A [tree_sitter.Node] as far as the script looks at it: its type, whether
    it is named, the positions it spans in the text that was parsed, its
    children and the sibling that follows it. *)

#[warnings="-register-all"]
Inductive Node : Type :=
  Build_Node (type : string) (named : bool) (first last : nat)
             (below : list Node) (next : option Node).

Definition node_type (node : Node) : string :=
  match node with Build_Node type _ _ _ _ _ => type end.
Definition is_named (node : Node) : bool :=
  match node with Build_Node _ named _ _ _ _ => named end.
Definition start_byte (node : Node) : nat :=
  match node with Build_Node _ _ first _ _ _ => first end.
Definition end_byte (node : Node) : nat :=
  match node with Build_Node _ _ _ last _ _ => last end.
Definition children (node : Node) : list Node :=
  match node with Build_Node _ _ _ _ below _ => below end.
Definition next_sibling (node : Node) : option Node :=
  match node with Build_Node _ _ _ _ _ next => next end.

(** [node.named_children] *)
Definition named_children (node : Node) : list Node :=
  filter (fun child => is_named child = true) (children node).

(** [node.text]: what the node spans of [data], the text its tree was
    parsed from; also [data[node.start_byte : node.end_byte]]. *)
Definition node_text (data : string) (node : Node) : string :=
  Py.drop (start_byte node) (Py.take (end_byte node) data).

Fixpoint first_of_type (type_name : string) (nodes : list Node) : option Node :=
  match nodes with
  | [] => None
  | child :: rest =>
      if String.eqb (node_type child) type_name then Some child
      else first_of_type type_name rest
  end.

Definition _verify {T} (value : option T) : result T :=
  match value with
  | Some value => Ok value
  | None => Raise (RuntimeError "Expected a value but found None.")
  end.

(** One step of a path: a node type, or the position of a named child. *)
Inductive selector : Type :=
  | ByType (name : string)
  | ByIndex (index : Z).

Record _NodeWrapper := Build_NodeWrapper {
  wrapped_node : Node;
  wrapped_data : string }.

(** The loop of [_iter_all_nodes].  The stack is kept with its top first,
    so that [stack.extend(reversed(node.children))] puts the children on
    it in their order.  Each round yields one node; [fuel] bounds the
    rounds. *)
Fixpoint iter_stack (fuel : nat) (stack : list Node) : list Node :=
  match fuel with
  | O => []
  | S fuel =>
      match stack with
      | [] => []
      | node :: rest => node :: iter_stack fuel (children node ++ rest)
      end
  end.

(** The number of nodes of a tree. *)
Fixpoint node_count (node : Node) : nat :=
  match node with
  | Build_Node _ _ _ _ below _ =>
      S ((fix count (nodes : list Node) : nat :=
            match nodes with
            | [] => O
            | child :: rest => (node_count child + count rest)%nat
            end) below)
  end.

Definition _iter_all_nodes (node : Node) : list Node :=
  iter_stack (node_count node) [node].

(** A node, then its children's subtrees from left to right. *)
Fixpoint preorder (node : Node) : list Node :=
  match node with
  | Build_Node type named first last below next =>
      Build_Node type named first last below next
      :: (fix walk (nodes : list Node) : list Node :=
            match nodes with
            | [] => []
            | child :: rest => preorder child ++ walk rest
            end) below
  end.

(** ** The world of a run, and its collaborators *)

Inductive event : Type :=
  | MetadataRequested (request : _GitHubRepositoryRequest)
  | DocumentationDownloaded (url : string).

(** What a run can read and change.  [readme] is the [README.md] beside the
    script; [git_installed] is what [shutil.which("git")] finds; [today] is
    the date of [datetime.now()], printed as year-month-day; [directories]
    holds the download directories, each a list of files (name, content)
    in listing order; [trace] records the calls made to GitHub, latest
    first.  Downloads only write into directories that did not exist, so
    they never reach the document. *)
Record World := Build_World {
  readme : option string;
  git_installed : bool;
  today : string;
  directories : gmap string (list (string * string));
  trace : list event }.

(** How [open(path, "w")] followed by [handler.write(data)] can end: the
    whole text is in the file; or [open] raised and the file is as it was;
    or the file was opened, which empties it, and the write raised with
    only the first [kept] characters of the text in the file. *)
Inductive write_outcome : Type :=
  | Written
  | NotOpened (e : exception)
  | Broken (kept : nat) (e : exception).

(** The libraries and services the script calls.  Each field stands for the
    call named in its comment. *)
Record Collaborators := Build_Collaborators {
  (* [tree_sitter.Parser(_MARKDOWN_LANGUAGE).parse(data).root_node] *)
  parse_markdown : string -> Node;
  (* [tree_sitter.Parser(_HTML_LANGUAGE).parse(text).root_node] *)
  parse_html : string -> Node;
  (* [node.named_child(index)] *)
  named_child : Node -> Z -> result (option Node);
  (* [str(node)] *)
  print_node : Node -> string;
  (* [bytes.decode("utf-8")], as reading a file in text mode does it *)
  utf8_decode : string -> result string;
  (* [urllib.parse.urlparse(url).path] *)
  urlparse_path : string -> string;
  (* [datetime.strptime(raw, "%Y-%m-%dT%H:%M:%SZ").strftime("%Y-%m-%d")] *)
  reformat_date : string -> result string;
  (* GET https://api.github.com/repos/{owner}/{name} *)
  repository_details : _GitHubRepositoryRequest -> result _GitHubRepositoryDetails;
  (* GET .../git/trees/{default_branch}?recursive=1 *)
  repository_file_tree : _GitHubRepositoryDetails -> result (list _GitHubTreeResult);
  (* GET of one raw file *)
  raw_file : string -> result string;
  (* the name [tempfile.mkdtemp(suffix=...)] settles on *)
  temporary_name : string -> World -> result string;
  (* [argparse]: the value of [--directory], given its default *)
  parse_directory : list string -> string -> result string;
  (* [os.path.dirname(os.path.realpath(__file__))] *)
  current_directory : string;
  (* [open(path, "w", encoding="utf-8")] and [handler.write(data)] on the
     document *)
  file_write : World -> string -> write_outcome }.

(** Computations that may raise and that change the world; what was changed
    before an exception stays changed. *)
Definition M (A : Type) : Type := World -> result A * World.

#[global] Instance M_ret : MRet M := fun A (a : A) w => (Ok a, w).
#[global] Instance M_bind : MBind M := fun A B (f : A -> M B) (m : M A) w =>
  match m w with
  | (Ok a, w') => f a w'
  | (Raise e, w') => (Raise e, w')
  end.

Definition raise {A} (e : exception) : M A := fun w => (Raise e, w).
Definition lift {A} (r : result A) : M A := fun w => (r, w).
Definition ask_world : M World := fun w => (Ok w, w).
Definition record_event (ev : event) : M unit := fun w =>
  (Ok tt, Build_World (readme w) (git_installed w) (today w) (directories w)
                      (ev :: trace w)).
Definition set_directory (path : string) (files : list (string * string))
  : M unit := fun w =>
  (Ok tt, Build_World (readme w) (git_installed w) (today w)
                      (<[path := files]> (directories w)) (trace w)).
Definition set_readme (data : string) : M unit := fun w =>
  (Ok tt, Build_World (Some data) (git_installed w) (today w) (directories w)
                      (trace w)).

(** [open(path, "wb").write(content)] inside a directory *)
Fixpoint write_file (name content : string) (files : list (string * string))
  : list (string * string) :=
  match files with
  | [] => [(name, content)]
  | (n, c) :: rest =>
      if String.eqb n name then (n, content) :: rest
      else (n, c) :: write_file name content rest
  end.

(** [os.path.join(_CURRENT_DIRECTORY, "README.md")] *)
Definition readme_path (lib : Collaborators) : string :=
  Path.join (current_directory lib) "README.md".

(** [open(path, "r", encoding="utf-8").read()] on a file that holds
    [content]: the bytes are decoded and the line ends translated. *)
Definition read_text (lib : Collaborators) (content : string) : result string :=
  text ← utf8_decode lib content; mret (Py.universal_newlines text).

(** The loop of [_find_documentation] over the files of a directory: every
    file named like a README is read, and the first that cannot be decoded
    raises. *)
Fixpoint documentation_pages (lib : Collaborators)
    (files : list (string * string)) : result (list string) :=
  match files with
  | [] => Ok []
  | (name, content) :: rest =>
      if negb (_is_readme name) then documentation_pages lib rest
      else
        match read_text lib content with
        | Raise e => Raise e
        | Ok page =>
            match documentation_pages lib rest with
            | Ok pages => Ok (page :: pages)
            | Raise e => Raise e
            end
        end
  end.

(** The message of [_get_first_child_of_type]. *)
Definition no_child_of_type (lib : Collaborators) (node : Node)
    (type_name : string) : exception :=
  ValueError ("Could not find " +:+ Py.dq +:+ type_name +:+ Py.dq
              +:+ " child in " +:+ Py.dq +:+ print_node lib node +:+ Py.dq).

Definition _get_first_child_of_type (lib : Collaborators) (node : Node)
    (type_name : string) : result Node :=
  match first_of_type type_name (named_children node) with
  | Some child => Ok child
  | None => Raise (no_child_of_type lib node type_name)
  end.

Module NodeWrapper.

(** The loop of [_NodeWrapper.get].  A node is never falsy, so the check
    after each step cannot fire: a missing child has raised before it. *)
Fixpoint descend (lib : Collaborators) (current : Node) (path : list selector)
  : result Node :=
  match path with
  | [] => Ok current
  | name :: rest =>
      match match name with
            | ByType type_name => _get_first_child_of_type lib current type_name
            | ByIndex index =>
                match named_child lib current index with
                | Ok child => _verify child
                | Raise e => Raise e
                end
            end with
      | Ok child => descend lib child rest
      | Raise e => Raise e
      end
  end.

Definition get (lib : Collaborators) (wrapper : _NodeWrapper)
    (path : list selector) : result _NodeWrapper :=
  match descend lib (wrapped_node wrapper) path with
  | Ok node => Ok (Build_NodeWrapper node (wrapped_data wrapper))
  | Raise e => Raise e
  end.

(** [self._data[self._node.start_byte : self._node.end_byte]] *)
Definition own_text (wrapper : _NodeWrapper) : string :=
  node_text (wrapped_data wrapper) (wrapped_node wrapper).

(** [_NodeWrapper.text(path)]; an empty path is falsy. *)
Definition text (lib : Collaborators) (wrapper : _NodeWrapper)
    (path : list selector) : result string :=
  match path with
  | [] => Ok (own_text wrapper)
  | _ =>
      match get lib wrapper path with
      | Ok found => Ok (own_text found)
      | Raise e => Raise e
      end
  end.

End NodeWrapper.

(** [os.path.join(directory, details["owner"]["login"], details["name"])] *)
Definition download_directory (directory : string)
    (details : _GitHubRepositoryDetails) : string :=
  Path.join (Path.join directory (owner_login details)) (name details).

Section Script.

Context (lib : Collaborators).

Definition from_url (url : string) : result _GitHubRepositoryRequest :=
  match List.rev (Py.split "/"%char (urlparse_path lib url)) with
  | name :: owner :: _ => Ok (Build_Request owner name)
  | _ => Raise IndexError
  end.

Definition _get_last_commit_date (details : _GitHubRepositoryDetails)
  : result string :=
  reformat_date lib (pushed_at details).

(** [_get_html_wrapper(node)] for a [node] of the tree of [data] *)
Definition _get_html_wrapper (data : string) (node : Node)
  : result _NodeWrapper :=
  match node_text data node with
  | "" =>
      Raise (RuntimeError ("Node " +:+ Py.dq +:+ print_node lib node +:+ Py.dq
                           +:+ " has no text."))
  | text => Ok (Build_NodeWrapper (parse_html lib text) text)
  end.

(** The loop of [_get_plugins_text] over the nodes of the document: the
    first [html_block] that reads as a [details] element whose first
    element is the [summary] with the marker ends it, with the wrapper it
    makes of the node that follows the block. *)
Fixpoint plugins_block (lines : string) (nodes : list Node)
  : result (option _NodeWrapper) :=
  match nodes with
  | [] => Ok None
  | node :: rest =>
      if negb (String.eqb (node_type node) "html_block")
      then plugins_block lines rest
      else
        wrapper ← _get_html_wrapper lines node;
        outer_tag ← NodeWrapper.get lib wrapper
                      [ByType "element"; ByType "start_tag"; ByType "tag_name"];
        if negb (String.eqb (NodeWrapper.own_text outer_tag) "details")
        then plugins_block lines rest
        else
          outer_element ← NodeWrapper.get lib wrapper [ByType "element"];
          element ← NodeWrapper.get lib outer_element [ByType "element"];
          tag ← NodeWrapper.text lib element
                  [ByType "start_tag"; ByType "tag_name"];
          if negb (String.eqb tag "summary") then plugins_block lines rest
          else
            marker ← NodeWrapper.text lib element [ByType "text"];
            if negb (String.eqb marker _ALL_PLUGINS_MARKER)
            then plugins_block lines rest
            else
              match next_sibling node with
              | None =>
                  Raise (RuntimeError
                           ("Node " +:+ Py.dq +:+ print_node lib node +:+ Py.dq
                            +:+ " has no next sibling."))
              | Some sibling => Ok (Some (Build_NodeWrapper sibling lines))
              end
  end.

(** [_get_plugins_text] up to the fenced text it finds, before it is
    stripped: [None] when no block has the marker. *)
Definition find_code_fence_content (lines : string) : result (option string) :=
  found ← plugins_block lines (_iter_all_nodes (parse_markdown lib lines));
  match found with
  | None => Ok None
  | Some wrapper =>
      content ← NodeWrapper.text lib wrapper [ByType "code_fence_content"];
      mret (Some content)
  end.

Definition _get_plugins_text (lines : string) : result (option string) :=
  match find_code_fence_content lines with
  | Ok (Some content) => Ok (Some (Py.strip content))
  | Ok None => Ok None
  | Raise e => Raise e
  end.

Definition _get_plugin_urls (lines : string) : result (option (list string)) :=
  match _get_plugins_text lines with
  | Ok text => plugin_urls_of_text text
  | Raise e => Raise e
  end.

Definition _get_reader_header (plugins : list string) : M string :=
  w ← ask_world; mret (reader_header (today w) plugins).

Definition _get_github_repository_details
    (request : _GitHubRepositoryRequest) : M _GitHubRepositoryDetails :=
  record_event (MetadataRequested request);;
  lift (repository_details lib request).

(** The loop of [_download_github_documentation_files] over the tree. *)
Fixpoint download_items (base_url directory : string)
    (items : list _GitHubTreeResult) : M unit :=
  match items with
  | [] => mret tt
  | item :: rest =>
      if negb (String.eqb (tree_type item) "blob") then
        download_items base_url directory rest
      else if negb (_is_readme (tree_path item)) then
        download_items base_url directory rest
      else
        content ← lift (raw_file lib (base_url +:+ "/" +:+ tree_path item));
        w ← ask_world;
        set_directory directory
          (write_file (Path.basename (tree_path item)) content
             (default [] (directories w !! directory)));;
        download_items base_url directory rest
  end.

Definition _download_github_documentation_files
    (details : _GitHubRepositoryDetails) (base_url directory : string)
  : M unit :=
  w ← ask_world;
  match directories w !! directory with
  | Some _ => mret tt
  | None => set_directory directory []
  end;;
  items ← lift (repository_file_tree lib details);
  download_items base_url directory items.

Definition _find_documentation (directory : string) : M (list string) :=
  w ← ask_world;
  match directories w !! directory with
  | None =>
      raise (ValueError ("Directory " +:+ Py.dq +:+ directory +:+ Py.dq
                         +:+ " does not exist."))
  | Some files => lift (documentation_pages lib files)
  end.

Definition _download_github_files
    (details : _GitHubRepositoryDetails) (directory : string)
  : M _GitHubRepository :=
  let directory := download_directory directory details in
  w ← ask_world;
  match directories w !! directory with
  | None =>
      let url := "https://raw.githubusercontent.com/" +:+ owner_login details
                 +:+ "/" +:+ name details +:+ "/" +:+ default_branch details in
      record_event (DocumentationDownloaded (html_url details));;
      _download_github_documentation_files details url directory
  | Some _ => mret tt
  end;;
  pages ← _find_documentation directory;
  mret (Build_Repository directory pages (name details)
                         (owner_login details) (html_url details)).

(** The row [_get_github_table_rows] builds for one repository. *)
Definition github_row (details : _GitHubRepositoryDetails)
    (repository : _GitHubRepository) : result _GitHubRow :=
  let description :=
    match _get_description_summary details with
    | Some text => Some (_get_ellided_text text _DESCRIPTION_LENGTH)
    | None => None
    end in
  let models := _get_models (documentation repository) in
  match _get_last_commit_date details with
  | Raise e => Raise e
  | Ok date =>
      Ok (Build_Row description date (license details) models
                    (repository_name repository) (stargazers_count details)
                    (_get_status (documentation repository))
                    (repository_url repository))
  end.

(** [output[category].append(row)] on a [defaultdict(list)] *)
Definition append_row (category : string) (row : _GitHubRow)
    (output : gmap string (list _GitHubRow)) : gmap string (list _GitHubRow) :=
  <[category := default [] (output !! category) ++ [row]]> output.

(** The loop of [_get_github_table_rows], from the rows grouped so far. *)
Fixpoint github_table_rows_from (output : gmap string (list _GitHubRow))
    (repositories : list (_GitHubRepositoryDetails * _GitHubRepository))
  : result (gmap string (list _GitHubRow)) :=
  match repositories with
  | [] => Ok output
  | (details, repository) :: rest =>
      match github_row details repository with
      | Raise e => Raise e
      | Ok row =>
          github_table_rows_from
            (append_row (_get_primary_category (documentation repository))
                        row output)
            rest
      end
  end.

Definition _get_github_table_rows
    (repositories : list (_GitHubRepositoryDetails * _GitHubRepository))
  : result (gmap string (list _GitHubRow)) :=
  github_table_rows_from ∅ repositories.

(** The loop of [_get_table_data]. *)
Fixpoint table_data_loop (root : string) (plugins : list string)
    (seen : gset string) (unknown : list _UnknownRow)
    (repositories : list (_GitHubRepositoryDetails * _GitHubRepository))
  : M (list _UnknownRow
       * list (_GitHubRepositoryDetails * _GitHubRepository)) :=
  match plugins with
  | [] => mret (unknown, repositories)
  | url :: rest =>
      if negb (_is_github url) then
        table_data_loop root rest seen (unknown ++ [Build_UnknownRow url])
                        repositories
      else
        request ← lift (from_url url);
        details ← _get_github_repository_details request;
        if bool_decide (html_url details ∈ seen) then
          table_data_loop root rest seen unknown repositories
        else
          repository ← _download_github_files details root;
          table_data_loop root rest ({[html_url details]} ∪ seen) unknown
                          (repositories ++ [(details, repository)])
  end.

(** [tempfile.mkdtemp(suffix=...)]: a directory that did not exist is made
    under the name drawn; when no name can be had the call raises. *)
Definition mkdtemp (suffix : string) : M string :=
  w ← ask_world;
  name ← lift (temporary_name lib suffix w);
  match directories w !! name with
  | Some _ =>
      raise (FileExistsError "No usable temporary directory name found")
  | None => set_directory name [];; mret name
  end.

(** [root or tempfile.mkdtemp(suffix="_neovim_ai_plugin_repositories")] *)
Definition download_root (root : option string) : M string :=
  match root with
  | None | Some "" => mkdtemp "_neovim_ai_plugin_repositories"
  | Some root => mret root
  end.

Definition _get_table_data (plugins : list string) (root : option string)
  : M _Tables :=
  root ← download_root root;
  found ← table_data_loop root plugins ∅ [] [];
  github ← lift (_get_github_table_rows found.2);
  mret (Build_Tables github found.1).

(** [_generate_readme_text(path, root)]; [path] is always the document
    beside the script. *)
Definition _generate_readme_text (root : option string) : M string :=
  w ← ask_world;
  data ← match readme w with
         | Some data => mret data
         | None => raise (EnvironmentError "No such file or directory")
         end;
  urls ← lift (_get_plugin_urls data);
  let plugins := Py.sorted (default [] urls) in
  match plugins with
  | [] =>
      raise (RuntimeError ("Path " +:+ Py.dq +:+ readme_path lib +:+ Py.dq
                           +:+ " has no parseable plugins list."))
  | _ =>
      header ← _get_reader_header plugins;
      table_data ← _get_table_data plugins root;
      middle ← lift (readme_middle table_data);
      mret (header +:+ middle +:+ readme_footer)
  end.

Definition _validate_environment : M unit :=
  w ← ask_world;
  if git_installed w then mret tt
  else raise (EnvironmentError "No git executable waas found.").

Definition _get_readme_path : M string :=
  w ← ask_world;
  match readme w with
  | Some _ => mret (readme_path lib)
  | None =>
      raise (EnvironmentError ("Path " +:+ Py.dq +:+ readme_path lib +:+ Py.dq
                               +:+ " does not exist."))
  end.

(** [_parse_arguments(text)]: the default of [--directory] is made before
    the arguments are looked at, on every call. *)
Definition _parse_arguments (text : list string) : M string :=
  fallback ← mkdtemp "_neovim_ai_plugins";
  lift (parse_directory lib text fallback).

(** The last two lines of [_main]: the document is opened for writing and
    the text written to it. *)
Definition write_readme (data : string) : M unit :=
  w ← ask_world;
  match file_write lib w data with
  | Written => set_readme data
  | NotOpened e => raise e
  | Broken kept e => set_readme (Py.take kept data);; raise e
  end.

Definition _main (text : list string) : M unit :=
  _validate_environment;;
  directory ← _parse_arguments text;
  _ ← _get_readme_path;
  data ← _generate_readme_text (Some directory);
  write_readme data.

End Script.

(** ** A small GitHub, for running the script on concrete documents *)

Module Example.

Definition leaf (type : string) (first last : nat) : Node :=
  Build_Node type true first last [] None.

Definition followed_by (next : option Node) (node : Node) : Node :=
  match node with
  | Build_Node type named first last below _ =>
      Build_Node type named first last below next
  end.

(** The nodes of one parent, each with the sibling that follows it. *)
Fixpoint in_a_row (nodes : list Node) : list Node :=
  match nodes with
  | [] => []
  | node :: rest =>
      let rest := in_a_row rest in
      followed_by (head rest) node :: rest
  end.

(** The lines of a text, each with the position of its first character. *)
Fixpoint with_offsets (offset : nat) (lines : list string)
  : list (nat * string) :=
  match lines with
  | [] => []
  | line :: rest =>
      (offset, line) :: with_offsets (offset + String.length line + 1) rest
  end.

Inductive mode : Type :=
  | Outside
  | InHtml (start : nat)
  | InFence (start content : nat).

(** A fenced block from [start] to [last] whose closing fence line starts
    at [stop]; a fence without a line in it has no content node. *)
Definition fenced_code_block (start content stop last : nat) : Node :=
  Build_Node "fenced_code_block" true start last
    (in_a_row
       ([leaf "fenced_code_block_delimiter" start (start + 3)]
        ++ (if (content <? stop)%nat
            then [leaf "code_fence_content" content stop] else [])
        ++ (if (stop <? last)%nat
            then [leaf "fenced_code_block_delimiter" stop last] else [])))
    None.

(** A reader of Markdown blocks, line by line: a line that starts with [<]
    opens an HTML block, which the next blank line ends; a fence line opens
    a fenced block, which the next fence line ends; any other line that is
    not blank is a paragraph. *)
Fixpoint blocks (m : mode) (stop : nat) (lines : list (nat * string))
  : list Node :=
  match lines with
  | [] =>
      match m with
      | Outside => []
      | InHtml start => [leaf "html_block" start stop]
      | InFence start content => [fenced_code_block start content stop stop]
      end
  | (offset, line) :: rest =>
      let after := Nat.min stop (offset + String.length line + 1) in
      match m with
      | Outside =>
          if String.eqb (Py.strip line) "" then blocks Outside stop rest
          else if Py.startswith "```" line
          then blocks (InFence offset after) stop rest
          else if Py.startswith "<" line then blocks (InHtml offset) stop rest
          else leaf "paragraph" offset after :: blocks Outside stop rest
      | InHtml start =>
          if String.eqb (Py.strip line) ""
          then leaf "html_block" start offset :: blocks Outside stop rest
          else blocks (InHtml start) stop rest
      | InFence start content =>
          if String.eqb (Py.strip line) "```"
          then fenced_code_block start content offset (offset + 3)
               :: blocks Outside stop rest
          else blocks (InFence start content) stop rest
      end
  end.

Definition parse_markdown (data : string) : Node :=
  let stop := String.length data in
  Build_Node "document" true 0 stop
    [Build_Node "section" true 0 stop
       (in_a_row (blocks Outside stop (with_offsets 0 (Py.split_lines data))))
       None]
    None.

(** The element of a line [<name>content</name>] that starts at [offset]. *)
Definition inner_element (offset : nat) (line : string) : list Node :=
  match Py.split ">" line with
  | [String "<" name; body; ""] =>
      match Py.split "<" body with
      | [content; String "/" closing] =>
          let opened := (offset + String.length name + 2)%nat in
          let closed := (opened + String.length content)%nat in
          let last := (closed + String.length closing + 3)%nat in
          [Build_Node "element" true offset last
             (in_a_row
                [Build_Node "start_tag" true offset opened
                   [leaf "tag_name" (offset + 1) (opened - 1)] None;
                 leaf "text" opened closed;
                 Build_Node "end_tag" true closed last
                   [leaf "tag_name" (closed + 2) (last - 1)] None])
             None]
      | _ => []
      end
  | _ => []
  end.

(** A reader of HTML for blocks of two lines, [<name>] and then
    [<name>content</name>]: the element of the first line, left open, holds
    the element of the second.  Anything else has no element. *)
Definition parse_html (text : string) : Node :=
  let stop := String.length text in
  Build_Node "document" true 0 stop
    match Py.split_lines text with
    | outer :: rest =>
        match Py.split ">" outer with
        | [String "<" name; ""] =>
            let opened := (String.length name + 2)%nat in
            [Build_Node "element" true 0 stop
               (in_a_row
                  (Build_Node "start_tag" true 0 opened
                     [leaf "tag_name" 1 (opened - 1)] None
                   :: match rest with
                      | line :: _ => inner_element (opened + 1) line
                      | [] => []
                      end))
               None]
        | _ => []
        end
    | [] => []
    end
    None.

Definition named_child (node : Node) (index : Z) : result (option Node) :=
  if index <? 0 then Raise (ValueError "child index must be positive")
  else match named_children node !! Z.to_nat index with
       | Some child => Ok (Some child)
       | None => Raise IndexError
       end.

Definition print_node (node : Node) : string := "(" +:+ node_type node +:+ ")".

(** Bytes below 128 are the characters they stand for; the others are
    refused. *)
Fixpoint utf8_decode (content : string) : result string :=
  match content with
  | "" => Ok ""
  | String c rest =>
      if (N_of_ascii c <? 128)%N
      then text ← utf8_decode rest; mret (String c text)
      else Raise (UnicodeDecodeError "invalid start byte")
  end.

Fixpoint drop_to_slash (s : string) : string :=
  match s with
  | "" => ""
  | String c s' => if Ascii.eqb c "/" then s else drop_to_slash s'
  end.

Fixpoint until_query (s : string) : string :=
  match s with
  | "" => ""
  | String c s' =>
      if Ascii.eqb c "?" || Ascii.eqb c "#" then "" else String c (until_query s')
  end.

(** The path of an [http(s)://host/path?query#fragment] URL. *)
Definition urlparse_path (url : string) : string :=
  if Py.startswith "https://" url then until_query (drop_to_slash (Py.drop 8 url))
  else if Py.startswith "http://" url then until_query (drop_to_slash (Py.drop 7 url))
  else until_query url.

(** Timestamps such as [2025-06-04T19:41:16Z]. *)
Definition reformat_date (raw : string) : result string :=
  if (String.length raw =? 20)%nat then Ok (Py.take 10 raw)
  else Raise (ValueError "time data does not match format").

Definition mit : _GitHubRepositoryDetailsLicense :=
  Build_License "MIT License" (Some "https://api.github.com/licenses/mit").

Definition foo_bar : _GitHubRepositoryDetails :=
  Build_Details "main" (Some "A plugin that talks to Claude")
    "https://github.com/foo/bar" (Some mit) "bar" "foo"
    "2025-06-04T19:41:16Z" 120.

Definition abc_xyz : _GitHubRepositoryDetails :=
  Build_Details "master" None "https://github.com/abc/xyz" None "xyz" "abc"
    "2024-01-02T03:04:05Z" 7.

(** [foo/bar.git] is answered with the repository [foo/bar]. *)
Definition repository_details (request : _GitHubRepositoryRequest)
  : result _GitHubRepositoryDetails :=
  match request_owner request, request_name request with
  | "foo", "bar" | "foo", "bar.git" => Ok foo_bar
  | "abc", "xyz" => Ok abc_xyz
  | _, _ => Raise (HTTPError "404 Client Error: Not Found")
  end.

Definition repository_file_tree (details : _GitHubRepositoryDetails)
  : result (list _GitHubTreeResult) :=
  Ok [ Build_TreeResult "README.md" "blob";
       Build_TreeResult "lua" "tree";
       Build_TreeResult "lua/init.lua" "blob" ].

Definition raw_file (url : string) : result string :=
  if String.eqb url "https://raw.githubusercontent.com/foo/bar/main/README.md"
  then Ok "Chat with Claude or OpenAI models."
  else Ok "A plugin.".

(** Temporary names are numbered by the directories there are. *)
Definition temporary_name (suffix : string) (w : World) : result string :=
  Ok ("/tmp/tmp" +:+ Py.str_of_int (Z.of_nat (size (directories w)))
      +:+ suffix).

Definition parse_directory (text : list string) (fallback : string)
  : result string :=
  match text with
  | [] => Ok fallback
  | ["--directory"; directory] => Ok directory
  | _ => Raise SystemExit
  end.

Definition current_directory : string := "/work/neovim-ai-plugins".

Definition lib : Collaborators :=
  Build_Collaborators parse_markdown parse_html named_child print_node
    utf8_decode urlparse_path reformat_date repository_details
    repository_file_tree raw_file temporary_name parse_directory
    current_directory (fun _ _ => Written).

(** The same GitHub on a day when file trees cannot be listed. *)
Definition offline : Collaborators :=
  Build_Collaborators parse_markdown parse_html named_child print_node
    utf8_decode urlparse_path reformat_date repository_details
    (fun _ => Raise (HTTPError "503 Server Error"))
    raw_file temporary_name parse_directory current_directory
    (fun _ _ => Written).

(** The same GitHub with a disk that is full: the document can be opened,
    and nothing can be written to it. *)
Definition full_disk : Collaborators :=
  Build_Collaborators parse_markdown parse_html named_child print_node
    utf8_decode urlparse_path reformat_date repository_details
    repository_file_tree raw_file temporary_name parse_directory
    current_directory
    (fun _ _ => Broken 0 (OSError "No space left on device")).

(** A document whose embedded list is [plugins], one bullet on a line. *)
Definition document (plugins : list string) : string :=
  "# Plugins" +:+ Py.nl
  +:+ "<details>" +:+ Py.nl
  +:+ "<summary>All Plugins</summary>" +:+ Py.nl
  +:+ Py.nl
  +:+ "```" +:+ Py.nl
  +:+ String.concat "" (map (fun line => line +:+ Py.nl) plugins)
  +:+ "```" +:+ Py.nl
  +:+ "</details>" +:+ Py.nl.

Definition world (data : string) (date : string) : World :=
  Build_World (Some data) true date ∅ [].

(** Two spellings of one repository. *)
Definition spellings : list string :=
  ["https://github.com/foo/bar"; "https://github.com/foo/bar.git"].

Definition mixed : list string :=
  ["https://example.com/not-github"; "https://github.com/foo/bar"].

(** The second entry has lost its dash. *)
Definition malformed_list : string :=
  "- https://github.com/foo/bar" +:+ Py.nl
  +:+ "https://github.com/abc/xyz" +:+ Py.nl.

Definition malformed : string :=
  document ["- https://github.com/foo/bar"; "https://github.com/abc/xyz"].

(** The document the examples start from. *)
Definition first_document : string :=
  document ["- https://github.com/foo/bar"; "- https://github.com/abc/xyz"].

Definition arguments : list string := ["--directory"; "/tmp/r"].

(** The world after a first run, and the document it wrote. *)
Definition after_first_run : World :=
  (_main lib arguments (world first_document "2025-01-01")).2.



Definition row_bar : _GitHubRow :=
  Build_Row (Some "A plugin that talks to Claude") "2025-06-04" (Some mit)
            [] "bar" 120 None "https://github.com/foo/bar".

Definition row_xyz : _GitHubRow :=
  Build_Row None "2024-01-02" None [] "xyz" 7 None "https://github.com/abc/xyz".

Definition long_description : string :=
  "An assistant for Neovim that completes, explains and rewrites code with several models".

End Example.

(** ** What the specification says, in its own words *)

(** [s.endswith(suffix)] *)
Definition endswith (suffix s : string) : bool :=
  (String.length suffix <=? String.length s)%nat
  && String.eqb (Py.drop (String.length s - String.length suffix) s) suffix.

(** "name with any trailing [ License] suffix stripped" *)
Definition without_license_suffix (name : string) : string :=
  if endswith " License" name
  then Py.take (String.length name - String.length " License") name
  else name.

(** "optional leading whitespace, a literal [-] marker, optional whitespace,
    then the captured reference text running to end of line" *)
Definition is_bullet_line (line text : string) : Prop :=
  ∃ before between : string,
    line = before +:+ "-" +:+ between +:+ text
    ∧ Py.all_space before = true
    ∧ Py.all_space between = true
    ∧ text ≠ "".

(** The reference text of a bullet line starts at the first character that
    is not whitespace. *)
Definition captures (line text : string) : Prop :=
  is_bullet_line line text ∧ Py.lstrip text = text.

(** The lines of a fenced text that must be bullets: stripped, not blank,
    not the fence delimiter. *)
Definition is_candidate (line : string) : Prop :=
  line ≠ "" ∧ line ≠ _MARKDOWN_FENCE_MARKER.

Definition bullet_candidates (text : string) : list string :=
  filter is_candidate (map Py.strip (Py.split_lines text)).

(** ** Notions the statements below are written with *)

(** The error [_get_tables_as_lines] raises for a category without rows. *)
Definition table_not_serialized (label : string) : exception :=
  RuntimeError ("Table " +:+ Py.dq +:+ label +:+ Py.dq
                +:+ " could not be serialized.").

(** [row] with another listing of its set of models. *)
Definition with_models (row : _GitHubRow) (models : list _Model) : _GitHubRow :=
  Build_Row (row_description row) (row_last_commit_date row) (row_license row)
            models (row_name row) (row_star_count row) (row_status row)
            (row_url row).

(** A page mentions a model when its lowercased text contains one of the
    model's search terms, the test [_get_models] makes. *)
Definition mentions (page : string) (model : _Model) : Prop :=
  ∃ term, term ∈ get_search_terms model ∧ term ≠ ""
          ∧ Py.contains term (Py.lower page) = true.

(** [c in s] for one character *)
Fixpoint has_char (c : ascii) (s : string) : bool :=
  match s with
  | "" => false
  | String d s' => bool_decide (c = d) || has_char c s'
  end.

Definition is_github_reference (url : string) : Prop := _is_github url = true.
Definition is_unknown_reference (url : string) : Prop := _is_github url = false.

(** The world once a request for metadata has been recorded. *)
Definition requested (request : _GitHubRepositoryRequest) (w : World) : World :=
  (record_event (MetadataRequested request) w).2.

(** A computation that leaves one component of the world alone. *)
Definition keeps {A B} (field : World → B) (m : M A) : Prop :=
  ∀ w, field (m w).2 = field w.

(** The requests for metadata and the downloads recorded in a trace. *)
Definition metadata_requests (events : list event)
  : list _GitHubRepositoryRequest :=
  omap (fun ev => match ev with
                  | MetadataRequested request => Some request
                  | DocumentationDownloaded _ => None
                  end) events.

Definition downloads (events : list event) : list string :=
  omap (fun ev => match ev with
                  | MetadataRequested _ => None
                  | DocumentationDownloaded url => Some url
                  end) events.

(** An identity is the [html_url] GitHub answers with. *)
Definition resolves_to (lib : Collaborators) (url identity : string) : Prop :=
  ∃ request details,
    from_url lib url = Ok request
    ∧ repository_details lib request = Ok details
    ∧ html_url details = identity.

(** The sorted reference list a run works from, as [_generate_readme_text]
    computes it from the document; empty when there is none. *)
Definition plugins_of (lib : Collaborators) (w : World) : list string :=
  match readme w with
  | Some data =>
      match _get_plugin_urls lib data with
      | Ok urls => Py.sorted (default [] urls)
      | Raise _ => []
      end
  | None => []
  end.

(** Reading files one after the other, as text; the first that cannot
    be decoded raises. *)
Fixpoint read_all (lib : Collaborators) (contents : list string)
  : result (list string) :=
  match contents with
  | [] => Ok []
  | content :: rest =>
      match read_text lib content with
      | Raise e => Raise e
      | Ok page =>
          match read_all lib rest with
          | Ok pages => Ok (page :: pages)
          | Raise e => Raise e
          end
      end
  end.

(** The header as far as the line that opens the fence, and from the line
    that closes it. *)
Definition header_before (date : string) : string :=
  "This is a list of Neovim AI plugins." +:+ Py.nl
  +:+ "This page is auto-generated and was last updated on "
  +:+ Py.dq +:+ date +:+ Py.dq +:+ Py.nl
  +:+ Py.nl
  +:+ "<details>" +:+ Py.nl
  +:+ "<summary>" +:+ _ALL_PLUGINS_MARKER +:+ "</summary>" +:+ Py.nl
  +:+ Py.nl
  +:+ "```" +:+ Py.nl.

Definition header_after : string :=
  "```" +:+ Py.nl +:+ "</details>" +:+ Py.nl.

(** Where tree-sitter has the fenced text of a document: the positions
    spanned by the [code_fence_content] that [_get_plugins_text] comes to;
    [None] when no block has the marker. *)
Definition fence_span (lib : Collaborators) (data : string)
  : result (option (nat * nat)) :=
  found ← plugins_block lib data (_iter_all_nodes (parse_markdown lib data));
  match found with
  | None => Ok None
  | Some wrapper =>
      node ← NodeWrapper.get lib wrapper [ByType "code_fence_content"];
      mret (Some (start_byte (wrapped_node node), end_byte (wrapped_node node)))
  end.



(** Two groupings with the same categories and, in each, the same rows in
    any order. *)
Definition same_rows (t1 t2 : gmap string (list _GitHubRow)) : Prop :=
  ∀ category, option_Forall2 Permutation (t1 !! category) (t2 !! category).

(** The text of one category. *)
Definition category_block (label : string) (lines : list string) : string :=
  table_heading label +:+ Py.nl +:+ Py.nl
  +:+ Py.join Py.nl (table_header ++ lines).

Definition identities
    (repositories : list (_GitHubRepositoryDetails * _GitHubRepository))
  : list string :=
  map (fun found => html_url found.1) repositories.

(** What the parser can return: text without a line break that neither
    starts nor ends with whitespace. *)
Definition is_reference (text : string) : Prop :=
  text ≠ "" ∧ has_char Py.newline text = false
  ∧ Py.lstrip text = text ∧ Py.rstrip text = text.

(** * Properties *)

(** ** Strings *)

Lemma append_cons (c : ascii) (a b : string) :
  String c a +:+ b = String c (a +:+ b).
Proof. reflexivity. Qed.

Lemma append_empty_r (a : string) : a +:+ "" = a.
Proof. induction a as [|c a IH]; [done|]. by rewrite append_cons, IH. Qed.

Lemma append_assoc (a b c : string) : (a +:+ b) +:+ c = a +:+ b +:+ c.
Proof. induction a as [|x a IH]; [done|]. by rewrite !append_cons, IH. Qed.

Lemma length_append (a b : string) :
  String.length (a +:+ b) = (String.length a + String.length b)%nat.
Proof. induction a as [|c a IH]; [done|]. rewrite append_cons. simpl. by rewrite IH. Qed.

Lemma length_take (n : nat) (s : string) :
  (n ≤ String.length s)%nat → String.length (Py.take n s) = n.
Proof.
  revert s. induction n as [|n IH]; intros [|c s] Hn; simpl in *; try done; try lia.
  rewrite IH; [done|lia].
Qed.

Lemma take_take (n : nat) (s : string) : Py.take n (Py.take n s) = Py.take n s.
Proof.
  revert s. induction n as [|n IH]; intros [|c s]; cbn; try done.
  by rewrite IH.
Qed.

Lemma take_append (n : nat) (s t : string) :
  (n ≤ String.length s)%nat → Py.take n (s +:+ t) = Py.take n s.
Proof.
  revert s. induction n as [|n IH]; intros s Hn.
  - destruct (s +:+ t); by destruct s.
  - destruct s as [|c s]; cbn in Hn; [lia|].
    rewrite append_cons. cbn. rewrite IH; [done|lia].
Qed.

Lemma length_take_le (n : nat) (s : string) :
  String.length (Py.take n s) = Nat.min n (String.length s).
Proof.
  revert s. induction n as [|n IH]; intros [|c s]; cbn; try done.
  by rewrite IH.
Qed.

Lemma take_all (s : string) : Py.take (String.length s) s = s.
Proof. induction s as [|c s IH]; [done|]. cbn. by rewrite IH. Qed.

Lemma drop_append (a b : string) : Py.drop (String.length a) (a +:+ b) = b.
Proof. induction a as [|c a IH]; [by destruct b|]. by rewrite append_cons. Qed.

(** The middle of three texts is what lies between their seams. *)
Lemma slice_middle (a b c : string) :
  Py.drop (String.length a)
          (Py.take (String.length a + String.length b) (a +:+ b +:+ c)) = b.
Proof.
  rewrite <-append_assoc, <-length_append.
  rewrite take_append, take_all by done. apply drop_append.
Qed.

Lemma prefix_empty (s : string) : String.prefix "" s = true.
Proof. by destruct s. Qed.

Lemma prefix_cons (c d : ascii) (p s : string) :
  String.prefix (String c p) (String d s)
  = bool_decide (c = d) && String.prefix p s.
Proof. simpl. destruct (ascii_dec c d); by case_bool_decide. Qed.

(** ** Truncated descriptions *)

Lemma ellided_short (text : string) (max : Z) :
  Py.len text ≤ max → _get_ellided_text text max = text.
Proof.
  intros Hle. unfold _get_ellided_text.
  by destruct (Z.leb_spec (Py.len text) max); [|lia].
Qed.

Lemma ellided_long (text : string) (max : Z) :
  3 ≤ max → max < Py.len text →
  _get_ellided_text text max = Py.take (Z.to_nat (max - 3)) text +:+ "..."
  ∧ Py.len (_get_ellided_text text max) = max.
Proof.
  intros Hmax Hlt. unfold _get_ellided_text.
  destruct (Z.leb_spec (Py.len text) max); [lia|].
  change (Py.len "...") with 3. unfold Py.slice_to.
  destruct (Z.leb_spec 0 (max - 3)); [|lia].
  split; [done|]. unfold Py.len in *.
  rewrite length_append, length_take; simpl; lia.
Qed.

Lemma description_cell_some (row : _GitHubRow) (text : string) :
  row_description row = Some text → text ≠ "" → description_cell row = text.
Proof. unfold description_cell. intros -> ?. by destruct text. Qed.

Lemma nonempty_len (s : string) : 0 < Py.len s → s ≠ "".
Proof. intros H ->. unfold Py.len in H. simpl in H. lia. Qed.

(** C8, as amended: a description that is not empty is shown verbatim when
    it has at most 80 characters, and otherwise as its first 77 characters
    followed by [...], 80 characters in all. *)
Theorem description_shown_within_80 (lib : Collaborators)
    (details : _GitHubRepositoryDetails) (repository : _GitHubRepository)
    (row : _GitHubRow) (text : string) :
  description details = Some text →
  text ≠ "" →
  github_row lib details repository = Ok row →
  (Py.len text ≤ 80 → description_cell row = text)
  ∧ (80 < Py.len text →
     description_cell row = Py.take 77 text +:+ "..."
     ∧ Py.len (description_cell row) = 80).
Proof.
  intros Hdescription Hne Hrow. unfold github_row in Hrow.
  destruct (_get_last_commit_date lib details) as [date|]; [|done].
  injection Hrow as <-.
  unfold _get_description_summary, _DESCRIPTION_LENGTH.
  rewrite Hdescription. destruct text as [|c text]; [done|].
  destruct (Z.leb_spec (Py.len (String c text)) 80) as [Hle|Hgt]; split; try lia.
  - intros _. apply description_cell_some; [|done].
    simpl. by rewrite ellided_short.
  - intros _.
    destruct (ellided_long (String c text) 80) as [Heq Hlen]; [lia..|].
    assert (description_cell
              {| row_description :=
                   Some (_get_ellided_text (_get_ellided_text (String c text) 80) 80);
                 row_last_commit_date := date;
                 row_license := license details;
                 row_models := _get_models (documentation repository);
                 row_name := repository_name repository;
                 row_star_count := stargazers_count details;
                 row_status := _get_status (documentation repository);
                 row_url := repository_url repository |}
            = _get_ellided_text (String c text) 80) as ->.
    { apply description_cell_some.
      - simpl. rewrite (ellided_short (_get_ellided_text _ _)); [done|lia].
      - apply nonempty_len. lia. }
    by rewrite Hlen, Heq.
Qed.

Lemma description_shown_within_80_witness :
  description_cell
    (Build_Row (Some "An assistant for Neovim that completes, explains and rewrites code with sever...")
               "2025-06-04" None [] "bar" 1 None "https://github.com/foo/bar")
  = Py.take 77 Example.long_description +:+ "...".
Proof.
  refine (proj1 (proj2 (description_shown_within_80 Example.lib
    (Build_Details "main" (Some Example.long_description) "https://github.com/foo/bar"
                   None "bar" "foo" "2025-06-04T19:41:16Z" 1)
    (Build_Repository "/tmp/r/foo/bar" [] "bar" "foo" "https://github.com/foo/bar")
    _ Example.long_description _ _ _) _)).
  - reflexivity.
  - discriminate.
  - reflexivity.
  - vm_compute. reflexivity.
Defined.

(** C8, as stated, fails on the empty description: it has at most 80
    characters and is not shown verbatim. *)
Lemma empty_description_is_not_verbatim :
  let details :=
    Build_Details "main" (Some "") "https://github.com/foo/bar" None "bar"
                  "foo" "2025-06-04T19:41:16Z" 1 in
  let repository :=
    Build_Repository "/tmp/r/foo/bar" [] "bar" "foo" "https://github.com/foo/bar" in
  Py.len "" ≤ 80
  ∧ _get_description_summary details = None
  ∧ ∃ row, github_row Example.lib details repository = Ok row
           ∧ description_cell row = "`<No description found>`"
           ∧ description_cell row ≠ "".
Proof.
  split; [done|]. split; [done|].
  eexists. split; [reflexivity|]. split; [reflexivity|]. discriminate.
Qed.

(** ** Licenses *)

Section Removal.

(** The removed text starts with a character that it does not contain
    again, as [ License] does with its blank. *)
Context (sp : ascii) (word : string).
Hypothesis word_free : has_char sp word = false.

Lemma prefix_before_mark (p x z : string) :
  has_char sp p = false →
  String.prefix p (x +:+ String sp z) = true → String.prefix p x = true.
Proof.
  revert x. induction p as [|d p IH]; intros x Hfree Hprefix.
  { apply prefix_empty. }
  simpl in Hfree. apply orb_false_elim in Hfree as [Hd Hp].
  destruct x as [|e x].
  - change ("" +:+ String sp z) with (String sp z) in Hprefix.
    rewrite prefix_cons in Hprefix.
    case_bool_decide; [subst; by case_bool_decide|done].
  - rewrite append_cons, prefix_cons in Hprefix. rewrite prefix_cons.
    apply andb_prop in Hprefix as [-> Hrest]. simpl. by apply IH.
Qed.

Lemma no_occurrence_across (x z : string) :
  x ≠ "" →
  String.prefix (String sp word) (x +:+ String sp z) = true →
  String.prefix (String sp word) x = true.
Proof.
  intros Hx Hprefix. destruct x as [|e x]; [done|].
  rewrite append_cons, prefix_cons in Hprefix. rewrite prefix_cons.
  apply andb_prop in Hprefix as [-> Hrest]. simpl.
  by eapply prefix_before_mark.
Qed.

Lemma remove_skipped (old p b : string) :
  Py.remove_from old (String.length p) (p +:+ b) = Py.remove_from old 0 b.
Proof.
  induction p as [|c p IH]; [done|].
  rewrite append_cons. simpl. exact IH.
Qed.

Lemma contains_cons (old : string) (c : ascii) (s : string) :
  Py.contains old (String c s)
  = String.prefix old (String c s) || Py.contains old s.
Proof. reflexivity. Qed.

Lemma remove_from_here (old : string) (c : ascii) (s : string) :
  Py.remove_from old 0 (String c s)
  = if String.prefix old (String c s)
    then Py.remove_from old (Nat.pred (String.length old)) s
    else String c (Py.remove_from old 0 s).
Proof. reflexivity. Qed.

Lemma remove_absent (old s : string) :
  Py.contains old s = false → Py.remove_all old s = s.
Proof.
  unfold Py.remove_all. induction s as [|c s IH]; [done|].
  rewrite contains_cons. intros [Hp Hs]%orb_false_elim.
  rewrite remove_from_here, Hp. by rewrite IH.
Qed.

Lemma remove_first (a b : string) :
  Py.contains (String sp word) a = false →
  Py.remove_all (String sp word) (a +:+ String sp word +:+ b)
  = a +:+ Py.remove_all (String sp word) b.
Proof.
  unfold Py.remove_all. induction a as [|c a IH]; intros Hc.
  - change ("" +:+ String sp word +:+ b) with (String sp (word +:+ b)).
    rewrite remove_from_here.
    assert (String.prefix (String sp word) (String sp (word +:+ b)) = true)
      as ->.
    { rewrite prefix_cons. rewrite bool_decide_eq_true_2 by done. simpl.
      clear. induction word as [|d w IH]; [apply prefix_empty|].
      rewrite append_cons, prefix_cons, bool_decide_eq_true_2 by done. done. }
    simpl. apply remove_skipped.
  - rewrite contains_cons in Hc. apply orb_false_elim in Hc as [Hp Hs].
    rewrite append_cons, remove_from_here.
    destruct (String.prefix (String sp word)
                (String c (a +:+ String sp word +:+ b))) eqn:E.
    + change (String c (a +:+ String sp word +:+ b))
        with (String c a +:+ String sp (word +:+ b)) in E.
      apply no_occurrence_across in E; [congruence|done].
    + by rewrite IH.
Qed.

End Removal.

Lemma license_removed_once (a b : string) :
  Py.contains " License" a = false →
  Py.remove_all " License" (a +:+ " License" +:+ b)
  = a +:+ Py.remove_all " License" b.
Proof. apply (remove_first " " "License"). reflexivity. Qed.

(** C9, as amended: the shown name is the license name with " License"
    removed wherever it first occurs, at the end or not, and again in what
    follows; a name without it is shown as it is.  Without a URL the shown
    name stands alone, with a URL it is the text of a link. *)
Theorem license_shown_without_the_word (l : _GitHubRepositoryDetailsLicense)
    (before after : string) :
  Py.contains " License" before = false →
  license_name l = before +:+ " License" +:+ after
  ∨ (license_name l = before ∧ after = "") →
  let shown := before +:+ Py.remove_all " License" after in
  _get_license_as_markdown l =
    match license_url l with
    | None | Some "" => shown
    | Some url => "[" +:+ shown +:+ "](" +:+ url +:+ ")"
    end.
Proof.
  intros Hfree Hname shown. unfold _get_license_as_markdown.
  assert (Py.remove_all " License" (license_name l) = shown) as ->; [|done].
  unfold shown. destruct Hname as [->|[-> ->]].
  - by apply license_removed_once.
  - rewrite remove_absent by done. by rewrite append_empty_r.
Qed.

Lemma license_shown_without_the_word_witness :
  _get_license_as_markdown
    (Build_License "MIT License" (Some "https://api.github.com/licenses/mit"))
  = "[MIT](https://api.github.com/licenses/mit)"
  ∧ _get_license_as_markdown (Build_License "MIT License" None) = "MIT"
  ∧ _get_license_as_markdown (Build_License "Apache License 2.0" None)
    = "Apache 2.0".
Proof.
  split; [|split].
  - apply (license_shown_without_the_word
             (Build_License "MIT License" (Some "https://api.github.com/licenses/mit"))
             "MIT" ""); [reflexivity|left; reflexivity].
  - apply (license_shown_without_the_word (Build_License "MIT License" None)
             "MIT" ""); [reflexivity|left; reflexivity].
  - apply (license_shown_without_the_word
             (Build_License "Apache License 2.0" None) "Apache" " 2.0");
      [reflexivity|left; reflexivity].
Defined.

(** C9, as stated, fails on a name that has " License" in the middle:
    nothing trails, yet the name is changed. *)
Lemma license_word_removed_in_the_middle :
  without_license_suffix "Apache License 2.0" = "Apache License 2.0"
  ∧ _get_license_as_markdown (Build_License "Apache License 2.0" None)
    = "Apache 2.0"
  ∧ _get_license_as_markdown (Build_License "Apache License 2.0" None)
    ≠ without_license_suffix "Apache License 2.0".
Proof. split; [done|]. split; [done|]. discriminate. Qed.

(** ** Stripping and splitting *)

Lemma lstrip_empty_iff (s : string) : Py.lstrip s = "" ↔ Py.all_space s = true.
Proof.
  induction s as [|c s IH]; [done|]. simpl.
  destruct (Py.isspace c); simpl; [done|]. split; discriminate.
Qed.

Lemma rstrip_empty_iff (s : string) : Py.rstrip s = "" ↔ Py.all_space s = true.
Proof.
  induction s as [|c s IH]; [done|]. simpl.
  destruct (Py.rstrip s) as [|d r] eqn:E.
  - destruct (Py.isspace c); simpl; [tauto|]. split; discriminate.
  - split; [discriminate|]. intros [_ Hs]%andb_prop.
    apply IH in Hs. discriminate.
Qed.

Lemma lstrip_idemp (s : string) : Py.lstrip (Py.lstrip s) = Py.lstrip s.
Proof.
  induction s as [|c s IH]; [done|]. simpl.
  destruct (Py.isspace c) eqn:E; [done|]. simpl. by rewrite E.
Qed.

Lemma lstrip_split (s : string) :
  ∃ ws, s = ws +:+ Py.lstrip s ∧ Py.all_space ws = true.
Proof.
  induction s as [|c s (ws & Hs & Hws)]; [by exists ""|]. simpl.
  destruct (Py.isspace c) eqn:E.
  - exists (String c ws). rewrite append_cons, <-Hs. simpl. by rewrite E, Hws.
  - by exists "".
Qed.

Lemma lstrip_app_space (ws s : string) :
  Py.all_space ws = true → Py.lstrip (ws +:+ s) = Py.lstrip s.
Proof.
  induction ws as [|c ws IH]; [done|].
  intros [Hc Hws]%andb_prop. rewrite append_cons.
  cbn [Py.lstrip]. rewrite Hc. auto.
Qed.

Lemma rstrip_idemp (s : string) : Py.rstrip (Py.rstrip s) = Py.rstrip s.
Proof.
  induction s as [|c s IH]; [done|]. simpl.
  destruct (Py.rstrip s) as [|d r] eqn:E.
  - destruct (Py.isspace c) eqn:Ec; [done|]. simpl. by rewrite Ec.
  - simpl in *. by rewrite IH.
Qed.

(** Stripping on the left keeps what was stripped on the right. *)
Lemma rstrip_lstrip (s : string) :
  Py.rstrip s = s → Py.rstrip (Py.lstrip s) = Py.lstrip s.
Proof.
  induction s as [|c s IH]; [done|]. intros Hs. simpl.
  destruct (Py.isspace c) eqn:Ec; [|done].
  simpl in Hs. destruct (Py.rstrip s) as [|d r] eqn:E.
  - by rewrite Ec in Hs.
  - apply IH. congruence.
Qed.

Lemma strip_stripped (s : string) :
  Py.lstrip (Py.strip s) = Py.strip s ∧ Py.rstrip (Py.strip s) = Py.strip s.
Proof.
  unfold Py.strip. split; [apply lstrip_idemp|].
  apply rstrip_lstrip, rstrip_idemp.
Qed.

Lemma strip_clean (s : string) :
  Py.lstrip s = s → Py.rstrip s = s → Py.strip s = s.
Proof. unfold Py.strip. by intros ? ->. Qed.

Lemma has_char_lstrip (c : ascii) (s : string) :
  has_char c s = false → has_char c (Py.lstrip s) = false.
Proof.
  induction s as [|d s IH]; [done|]. simpl.
  intros [? ?]%orb_false_elim. destruct (Py.isspace d); [auto|].
  simpl. by apply orb_false_intro.
Qed.

Lemma has_char_rstrip (c : ascii) (s : string) :
  has_char c s = false → has_char c (Py.rstrip s) = false.
Proof.
  induction s as [|d s IH]; [done|]. simpl.
  intros [Hd Hs]%orb_false_elim. specialize (IH Hs).
  destruct (Py.rstrip s) as [|e r].
  - destruct (Py.isspace d); [done|]. simpl. by rewrite Hd.
  - simpl in *. by rewrite Hd, IH.
Qed.

Lemma has_char_strip (c : ascii) (s : string) :
  has_char c s = false → has_char c (Py.strip s) = false.
Proof. intros. by apply has_char_lstrip, has_char_rstrip. Qed.

Lemma has_char_app (c : ascii) (a b : string) :
  has_char c (a +:+ b) = has_char c a || has_char c b.
Proof.
  induction a as [|d a IH]; [done|]. rewrite append_cons. simpl.
  by rewrite IH, orb_assoc.
Qed.

Lemma split_free (sep : ascii) (s : string) :
  Forall (fun part => has_char sep part = false) (Py.split sep s).
Proof.
  induction s as [|c s IH]; [by repeat constructor|]. simpl.
  destruct (Ascii.eqb_spec c sep) as [->|Hne].
  - by constructor.
  - destruct (Py.split sep s) as [|l ls].
    + constructor; [|done]. simpl.
      by rewrite bool_decide_eq_false_2 by congruence.
    + inversion IH; subst. constructor; [|done]. simpl.
      by rewrite bool_decide_eq_false_2 by congruence.
Qed.

(** ** The bullet grammar and its matcher *)

Lemma dot_star_end_free (s : string) :
  has_char Py.newline s = false → dot_star_end s = Some s.
Proof.
  induction s as [|c s IH]; [done|]. simpl.
  intros [Hc Hs]%orb_false_elim. apply bool_decide_eq_false_1 in Hc.
  destruct (Ascii.eqb_spec c Py.newline); [congruence|].
  by rewrite IH.
Qed.

Lemma dot_plus_end_free (s : string) :
  has_char Py.newline s = false → s ≠ "" → dot_plus_end s = Some s.
Proof.
  intros Hs Hne. unfold dot_plus_end. rewrite dot_star_end_free by done.
  by destruct s.
Qed.

Lemma after_dash_stripped (s : string) :
  has_char Py.newline s = false → Py.rstrip s = s →
  after_dash s = match Py.lstrip s with "" => None | text => Some text end.
Proof.
  induction s as [|c s IH]; [done|]. intros Hfree Hstripped.
  pose proof Hfree as [_ Hs]%orb_false_elim.
  cbn [after_dash Py.lstrip]. destruct (Py.isspace c) eqn:Ec.
  - simpl in Hstripped. destruct (Py.rstrip s) as [|d r] eqn:Er.
    { by rewrite Ec in Hstripped. }
    assert (s = String d r) as Hsr by congruence.
    rewrite IH; [|done|congruence].
    destruct (Py.lstrip s) eqn:El; [|done].
    apply lstrip_empty_iff, rstrip_empty_iff in El. congruence.
  - by apply dot_plus_end_free.
Qed.

Lemma bullet_expression_dash (c : ascii) (rest : string) :
  match String c rest with
  | String "-" rest => after_dash rest
  | _ => None
  end = if Ascii.eqb c "-" then after_dash rest else None.
Proof. by destruct c as [[] [] [] [] [] [] [] []]. Qed.

Lemma rstrip_tail (c : ascii) (s : string) :
  Py.rstrip (String c s) = String c s → Py.rstrip s = s.
Proof.
  simpl. destruct (Py.rstrip s) as [|d r] eqn:E.
  - destruct (Py.isspace c); [done|]. congruence.
  - congruence.
Qed.

Section StrippedLine.

(** A line as the loop of [_get_plugin_urls] sees it: one piece of a text
    split at line breaks, stripped. *)
Context (line : string).
Hypothesis line_free : has_char Py.newline line = false.
Hypothesis line_left : Py.lstrip line = line.
Hypothesis line_right : Py.rstrip line = line.

Lemma bullet_expression_stripped :
  _BULLETPOINT_EXPRESSION line =
    match line with
    | "" => None
    | String c rest =>
        if Ascii.eqb c "-"
        then match Py.lstrip rest with "" => None | text => Some text end
        else None
    end.
Proof.
  unfold _BULLETPOINT_EXPRESSION. rewrite line_left.
  destruct line as [|c rest]; [done|]. rewrite bullet_expression_dash.
  destruct (Ascii.eqb c "-"); [|done].
  apply after_dash_stripped.
  - simpl in line_free. by apply orb_false_elim in line_free as [_ ?].
  - by eapply rstrip_tail.
Qed.

Lemma bullet_line_shape (text : string) :
  is_bullet_line line text →
  ∃ between, line = String "-" (between +:+ text)
             ∧ Py.all_space between = true ∧ text ≠ "".
Proof.
  intros (before & between & Hline & Hbefore & Hbetween & Htext).
  exists between. split; [|done].
  assert (Py.lstrip line = "-" +:+ between +:+ text) as Hl.
  { rewrite Hline. by rewrite lstrip_app_space. }
  by rewrite line_left in Hl.
Qed.

Lemma bullet_expression_captures (text : string) :
  _BULLETPOINT_EXPRESSION line = Some text → captures line text.
Proof.
  rewrite bullet_expression_stripped.
  destruct line as [|c rest]; [done|].
  destruct (Ascii.eqb_spec c "-") as [->|]; [|done].
  destruct (Py.lstrip rest) as [|d t] eqn:E; [done|].
  intros [= <-]. split.
  - destruct (lstrip_split rest) as (ws & Hrest & Hws).
    exists "", ws. rewrite E in Hrest. by rewrite <-Hrest.
  - rewrite <-E. apply lstrip_idemp.
Qed.

Lemma bullet_expression_complete (text : string) :
  captures line text → _BULLETPOINT_EXPRESSION line = Some text.
Proof.
  intros [Hbullet Hclean].
  destruct (bullet_line_shape text Hbullet) as (between & Hline & Hws & Hne).
  rewrite bullet_expression_stripped, Hline. simpl.
  rewrite lstrip_app_space, Hclean by done. by destruct text.
Qed.

Lemma bullet_expression_none :
  _BULLETPOINT_EXPRESSION line = None ↔ ¬ ∃ text, is_bullet_line line text.
Proof.
  split.
  - intros Hnone (text & Hbullet).
    destruct (bullet_line_shape text Hbullet) as (between & Hline & Hws & Hne).
    rewrite bullet_expression_stripped, Hline in Hnone. simpl in Hnone.
    rewrite lstrip_app_space in Hnone by done.
    destruct (Py.lstrip text) eqn:E; [|done].
    apply lstrip_empty_iff in E.
    (* the line would end in whitespace *)
    assert (Py.all_space (between +:+ text) = true) as Hall.
    { clear -Hws E. induction between as [|c b IH]; [done|].
      rewrite append_cons. simpl in *. apply andb_prop in Hws as [-> ?]. auto. }
    assert (Py.rstrip (between +:+ text) = between +:+ text) as Hr.
    { eapply rstrip_tail. by rewrite <-Hline. }
    apply rstrip_empty_iff in Hall. rewrite Hr in Hall.
    destruct between; [by destruct text|done].
  - intros Hno. destruct (_BULLETPOINT_EXPRESSION line) as [text|] eqn:E; [|done].
    exfalso. apply Hno. exists text. by apply bullet_expression_captures.
Qed.

End StrippedLine.

(** ** The bullet list parser *)

Lemma skipped_iff (line : string) :
  String.eqb line "" || String.eqb line _MARKDOWN_FENCE_MARKER = false
  ↔ is_candidate line.
Proof.
  unfold is_candidate.
  destruct (String.eqb_spec line ""), (String.eqb_spec line _MARKDOWN_FENCE_MARKER);
    simpl; split; try done; intros [? ?]; done.
Qed.

Lemma parse_bullets_step (line : string) (rest : list string) :
  has_char Py.newline line = false →
  parse_bullets (line :: rest) =
    if decide (is_candidate (Py.strip line)) then
      match _BULLETPOINT_EXPRESSION (Py.strip line) with
      | None => Raise (unexpected_line (Py.strip line))
      | Some text =>
          match parse_bullets rest with
          | Ok output => Ok (text :: output)
          | Raise e => Raise e
          end
      end
    else parse_bullets rest.
Proof.
  intros _. cbn [parse_bullets].
  destruct (String.eqb (Py.strip line) ""
            || String.eqb (Py.strip line) _MARKDOWN_FENCE_MARKER) eqn:E.
  - rewrite decide_False; [done|]. rewrite <-skipped_iff. congruence.
  - rewrite decide_True; [done|]. by apply skipped_iff.
Qed.

Lemma candidates_cons (line : string) (rest : list string) :
  filter is_candidate (map Py.strip (line :: rest)) =
    if decide (is_candidate (Py.strip line))
    then Py.strip line :: filter is_candidate (map Py.strip rest)
    else filter is_candidate (map Py.strip rest).
Proof. simpl. by rewrite filter_cons. Qed.

(** A line that is no bullet stops the parser. *)
Lemma parse_bullets_strict (lines : list string) :
  Forall (fun line => has_char Py.newline line = false) lines →
  Exists (fun line => ¬ ∃ text, is_bullet_line line text)
         (filter is_candidate (map Py.strip lines)) →
  ∃ line, line ∈ filter is_candidate (map Py.strip lines)
          ∧ (¬ ∃ text, is_bullet_line line text)
          ∧ parse_bullets lines = Raise (unexpected_line line).
Proof.
  induction 1 as [|line rest Hfree _ IH]; intros Hbad.
  { by apply Exists_nil in Hbad. }
  rewrite parse_bullets_step by done. rewrite candidates_cons in *.
  destruct (decide (is_candidate (Py.strip line))) as [Hc|Hc]; [|by apply IH].
  destruct (strip_stripped line) as [Hl Hr].
  pose proof (has_char_strip _ _ Hfree) as Hfree'.
  destruct (_BULLETPOINT_EXPRESSION (Py.strip line)) as [text|] eqn:E.
  - apply Exists_cons in Hbad as [Hbad|Hbad].
    + apply bullet_expression_none in Hbad; [congruence|done..].
    + destruct (IH Hbad) as (l & Hin & Hno & ->).
      exists l. split; [by right|done].
  - exists (Py.strip line). split; [by left|]. split; [|done].
    by apply bullet_expression_none.
Qed.

(** Bullets alone are all returned, in their order. *)
Lemma parse_bullets_all (lines : list string) :
  Forall (fun line => has_char Py.newline line = false) lines →
  Forall (fun line => ∃ text, is_bullet_line line text)
         (filter is_candidate (map Py.strip lines)) →
  ∃ output, parse_bullets lines = Ok output
            ∧ Forall2 captures (filter is_candidate (map Py.strip lines)) output.
Proof.
  induction 1 as [|line rest Hfree _ IH]; intros Hgood.
  { exists []. by split. }
  rewrite parse_bullets_step by done. rewrite candidates_cons in *.
  destruct (decide (is_candidate (Py.strip line))) as [Hc|Hc]; [|by apply IH].
  destruct (strip_stripped line) as [Hl Hr].
  pose proof (has_char_strip _ _ Hfree) as Hfree'.
  apply Forall_cons in Hgood as [Hline Hgood].
  destruct (IH Hgood) as (output & -> & Hall).
  destruct (_BULLETPOINT_EXPRESSION (Py.strip line)) as [text|] eqn:E.
  - exists (text :: output). split; [done|]. constructor; [|done].
    by apply bullet_expression_captures.
  - apply bullet_expression_none in E; done.
Qed.

(** The captured text is determined by the line. *)
Lemma captures_unique (line text1 text2 : string) :
  has_char Py.newline line = false →
  Py.lstrip line = line → Py.rstrip line = line →
  captures line text1 → captures line text2 → text1 = text2.
Proof.
  intros Hfree Hl Hr H1 H2.
  apply (bullet_expression_complete line Hfree Hl Hr) in H1, H2. congruence.
Qed.

(** ** The document is written last *)

Lemma try_unfold {A B} (r : result A) (f : A → result B) :
  (r ≫= f) = match r with
             | Ok a => f a
             | Raise e => Raise e
             end.
Proof. reflexivity. Qed.

Lemma bind_unfold {A B} (m : M A) (f : A → M B) (w : World) :
  (m ≫= f) w = match m w with
               | (Ok a, w') => f a w'
               | (Raise e, w') => (Raise e, w')
               end.
Proof. reflexivity. Qed.

Section Keeps.

Context {B : Type} (field : World → B).

Lemma keeps_ret {A} (a : A) : keeps field (mret a : M A).
Proof. by intros w. Qed.

Lemma keeps_raise {A} (e : exception) : keeps field (raise e : M A).
Proof. by intros w. Qed.

Lemma keeps_lift {A} (r : result A) : keeps field (lift r).
Proof. by intros w. Qed.

Lemma keeps_ask : keeps field ask_world.
Proof. by intros w. Qed.

Lemma keeps_bind {A C} (m : M A) (f : A → M C) :
  keeps field m → (∀ a, keeps field (f a)) → keeps field (m ≫= f).
Proof.
  intros Hm Hf w. rewrite bind_unfold. specialize (Hm w).
  destruct (m w) as [[a|e] w']; simpl in *; [|done].
  by rewrite Hf.
Qed.

End Keeps.

(** One step of a computation at a given world. *)
Ltac run :=
  repeat first
    [ rewrite bind_unfold
    | progress cbn [mret M_ret ask_world lift raise fst snd] ].

Lemma keeps_readme_record (ev : event) : keeps readme (record_event ev).
Proof. by intros w. Qed.

Lemma keeps_readme_set_directory (path : string)
    (files : list (string * string)) :
  keeps readme (set_directory path files).
Proof. by intros w. Qed.

Lemma keeps_trace_set_directory (path : string)
    (files : list (string * string)) :
  keeps trace (set_directory path files).
Proof. by intros w. Qed.

Create HintDb keeps.
#[local] Hint Resolve keeps_ret keeps_raise keeps_lift keeps_ask
  keeps_readme_record keeps_readme_set_directory keeps_trace_set_directory
  : keeps.

Ltac keeps :=
  repeat first
    [ progress eauto with keeps
    | apply keeps_bind; [|intros ?]
    | match goal with
      | |- keeps _ (match ?x with _ => _ end) => destruct x
      | |- keeps _ (if ?b then _ else _) => destruct b
      end ].

Section Frame.

Context (lib : Collaborators).

Lemma keeps_download_items (base_url directory : string)
    (items : list _GitHubTreeResult) :
  keeps readme (download_items lib base_url directory items).
Proof. induction items as [|item rest IH]; simpl; keeps. Qed.

Lemma keeps_download_documentation (details : _GitHubRepositoryDetails)
    (base_url directory : string) :
  keeps readme
    (_download_github_documentation_files lib details base_url directory).
Proof.
  unfold _download_github_documentation_files.
  pose proof keeps_download_items. keeps.
Qed.

Lemma keeps_find_documentation (directory : string) :
  keeps readme (_find_documentation lib directory).
Proof. unfold _find_documentation. keeps. Qed.

Lemma keeps_download_files (details : _GitHubRepositoryDetails)
    (directory : string) :
  keeps readme (_download_github_files lib details directory).
Proof.
  unfold _download_github_files.
  pose proof keeps_download_documentation.
  pose proof keeps_find_documentation. keeps.
Qed.

Lemma keeps_table_data_loop (root : string) (plugins : list string)
    (seen : gset string) (unknown : list _UnknownRow)
    (repositories : list (_GitHubRepositoryDetails * _GitHubRepository)) :
  keeps readme (table_data_loop lib root plugins seen unknown repositories).
Proof.
  revert seen unknown repositories.
  induction plugins as [|url rest IH]; intros; simpl; [keeps|].
  pose proof keeps_download_files.
  unfold _get_github_repository_details. keeps.
Qed.

Lemma keeps_mkdtemp (suffix : string) : keeps readme (mkdtemp lib suffix).
Proof. unfold mkdtemp. keeps. Qed.

Lemma keeps_download_root (root : option string) :
  keeps readme (download_root lib root).
Proof.
  pose proof keeps_mkdtemp. unfold download_root.
  destruct root as [[|c root]|]; keeps.
Qed.

Lemma keeps_table_data (plugins : list string) (root : option string) :
  keeps readme (_get_table_data lib plugins root).
Proof.
  unfold _get_table_data. pose proof keeps_table_data_loop.
  pose proof keeps_download_root. keeps.
Qed.

Lemma keeps_parse_arguments (text : list string) :
  keeps readme (_parse_arguments lib text).
Proof. pose proof keeps_mkdtemp. unfold _parse_arguments. keeps. Qed.

Lemma keeps_generate (root : option string) :
  keeps readme (_generate_readme_text lib root).
Proof.
  unfold _generate_readme_text, _get_reader_header.
  pose proof keeps_table_data. keeps.
Qed.

End Frame.

Lemma main_unfold (lib : Collaborators) (text : list string) (w : World) :
  _main lib text w =
    if git_installed w then
      match _parse_arguments lib text w with
      | (Raise e, w0) => (Raise e, w0)
      | (Ok directory, w0) =>
          match readme w0 with
          | None =>
              (Raise (EnvironmentError ("Path " +:+ Py.dq +:+ readme_path lib
                                        +:+ Py.dq +:+ " does not exist.")), w0)
          | Some _ =>
              match _generate_readme_text lib (Some directory) w0 with
              | (Ok data, w') => write_readme lib data w'
              | (Raise e, w') => (Raise e, w')
              end
          end
      end
    else (Raise (EnvironmentError "No git executable waas found."), w).
Proof.
  unfold _main, _validate_environment, _get_readme_path.
  rewrite !bind_unfold. unfold ask_world. simpl.
  destruct (git_installed w); [|done]. simpl.
  rewrite !bind_unfold.
  destruct (_parse_arguments lib text w) as [[directory|] w0]; [|done].
  rewrite !bind_unfold. simpl.
  destruct (readme w0); [|done]. simpl. rewrite bind_unfold.
  by destruct (_generate_readme_text lib (Some directory) w0) as [[|] ?].
Qed.

Lemma write_readme_unfold (lib : Collaborators) (data : string) (w : World) :
  write_readme lib data w =
    match file_write lib w data with
    | Written => (Ok tt, (set_readme data w).2)
    | NotOpened e => (Raise e, w)
    | Broken kept e => (Raise e, (set_readme (Py.take kept data) w).2)
    end.
Proof.
  unfold write_readme. rewrite bind_unfold. cbn [ask_world].
  by destruct (file_write lib w data).
Qed.

Lemma parse_arguments_keeps_readme (lib : Collaborators) (text : list string)
    (w : World) :
  readme (_parse_arguments lib text w).2 = readme w.
Proof. apply (keeps_parse_arguments lib text w). Qed.

(** C3, as amended: a run ends in one of three ways.  The whole text was
    composed and written, and the document holds exactly that text.  Or
    the run raised before the document was opened for writing, and the
    document holds what it held before, whatever else the run had already
    done.  Or the text was composed, the document was opened, which empties
    it, and the write raised: then the document holds only the characters
    that were written, a beginning of the composed text. *)
Theorem document_whole_unless_the_write_breaks (lib : Collaborators)
    (text : list string) (w : World) :
  match _main lib text w with
  | (Ok _, w') =>
      ∃ directory w0 data composed,
        _parse_arguments lib text w = (Ok directory, w0)
        ∧ _generate_readme_text lib (Some directory) w0 = (Ok data, composed)
        ∧ file_write lib composed data = Written
        ∧ readme w' = Some data
        ∧ directories w' = directories composed
  | (Raise e, w') =>
      readme w' = readme w
      ∨ ∃ directory w0 data composed kept,
          _parse_arguments lib text w = (Ok directory, w0)
          ∧ _generate_readme_text lib (Some directory) w0 = (Ok data, composed)
          ∧ file_write lib composed data = Broken kept e
          ∧ readme w' = Some (Py.take kept data)
  end.
Proof.
  rewrite main_unfold.
  destruct (git_installed w); [|by left].
  pose proof (parse_arguments_keeps_readme lib text w) as Hparsed.
  destruct (_parse_arguments lib text w) as [[directory|] w0] eqn:Hparse;
    cbn [snd] in Hparsed; [|by left].
  destruct (readme w0) as [old|] eqn:Hold; [|left; congruence].
  pose proof (keeps_generate lib (Some directory) w0) as Hkept.
  destruct (_generate_readme_text lib (Some directory) w0) as [[data|e] w'] eqn:E;
    cbn [snd] in Hkept.
  2:{ left. congruence. }
  rewrite write_readme_unfold.
  destruct (file_write lib w' data) as [|e|kept e] eqn:Hwrite.
  - by exists directory, w0, data, w'.
  - left. cbn [snd]. congruence.
  - right. by exists directory, w0, data, w', kept.
Qed.

(** C3, as stated, fails when the write itself fails: the document has been
    opened for writing by then, and what it held is gone. *)
Lemma broken_write_loses_the_document :
  let w := Example.world Example.first_document "2025-01-01" in
  let run := _main Example.full_disk Example.arguments w in
  run.1 = Raise (OSError "No space left on device")
  ∧ readme w = Some Example.first_document
  ∧ readme run.2 = Some ""
  ∧ readme run.2 ≠ readme w.
Proof.
  split; [vm_compute; reflexivity|]. split; [reflexivity|].
  split; [vm_compute; reflexivity|]. vm_compute. discriminate.
Qed.

Lemma generate_stops_at_parser (lib : Collaborators) (root : option string)
    (w : World) (data : string) (e : exception) :
  readme w = Some data → _get_plugin_urls lib data = Raise e →
  _generate_readme_text lib root w = (Raise e, w).
Proof.
  intros Hdata Hurls. unfold _generate_readme_text.
  rewrite bind_unfold. unfold ask_world. rewrite Hdata.
  rewrite bind_unfold. simpl. rewrite bind_unfold. unfold lift.
  by rewrite Hurls.
Qed.

(** A run whose text cannot be composed raises and leaves the document as
    it was. *)
Lemma main_stops_at_generate (lib : Collaborators) (text : list string)
    (w : World) :
  (∀ root w0, readme w0 = readme w →
              ∃ e w', _generate_readme_text lib root w0 = (Raise e, w')) →
  (∃ e, (_main lib text w).1 = Raise e)
  ∧ readme (_main lib text w).2 = readme w.
Proof.
  intros Hgen. rewrite main_unfold.
  destruct (git_installed w); [|by split; [eexists|]].
  pose proof (parse_arguments_keeps_readme lib text w) as Hparsed.
  destruct (_parse_arguments lib text w) as [[directory|] w0];
    cbn [snd] in Hparsed; [|by split; [eexists|]].
  pose proof (keeps_generate lib (Some directory) w0) as Hkept.
  destruct (Hgen (Some directory) w0 Hparsed) as (e & w' & Hraise).
  destruct (readme w0) eqn:Hold; [|split; [by eexists|cbn; congruence]].
  rewrite Hraise in *. cbn [fst snd] in *. split; [by exists e|congruence].
Qed.

Lemma plugin_urls_unfold (lib : Collaborators) (data content : string) :
  find_code_fence_content lib data = Ok (Some content) →
  _get_plugin_urls lib data =
    match Py.strip content with
    | "" => Ok None
    | text =>
        match parse_bullets (Py.split_lines text) with
        | Ok output => Ok (Some output)
        | Raise e => Raise e
        end
    end.
Proof.
  intros Hfind. unfold _get_plugin_urls, _get_plugins_text. rewrite Hfind.
  simpl. by destruct (Py.strip content).
Qed.

(** C4: among the lines of the fenced text, stripped, those that are
    neither blank nor the fence delimiter must be bullets.  One that is not
    makes the parser raise, naming it, and the run ends with the document
    as it was.  When all of them are bullets the parser returns their
    reference texts, one for each line, in the order of the lines. *)
Theorem bullet_parser_is_strict (lib : Collaborators) (args : list string)
    (w : World) (data content : string) :
  readme w = Some data →
  find_code_fence_content lib data = Ok (Some content) →
  let candidates := bullet_candidates (Py.strip content) in
  (Exists (fun line => ¬ ∃ text, is_bullet_line line text) candidates →
   (∃ line, line ∈ candidates
            ∧ (¬ ∃ text, is_bullet_line line text)
            ∧ _get_plugin_urls lib data = Raise (unexpected_line line))
   ∧ (∃ e, (_main lib args w).1 = Raise e)
   ∧ readme (_main lib args w).2 = Some data)
  ∧ (Forall (fun line => ∃ text, is_bullet_line line text) candidates →
     ∃ urls, _get_plugin_urls lib data = Ok urls
             ∧ Forall2 captures candidates (default [] urls)).
Proof.
  intros Hdata Hfind candidates. unfold bullet_candidates in candidates.
  rewrite (plugin_urls_unfold lib data content Hfind).
  pose proof (split_free Py.newline (Py.strip content)) as Hfree.
  fold (Py.split_lines (Py.strip content)) in Hfree.
  split.
  - intros Hbad.
    destruct (parse_bullets_strict _ Hfree Hbad) as (line & Hin & Hno & Hraise).
    assert (Py.strip content ≠ "") as Hne.
    { intros Hempty. subst candidates. rewrite Hempty in Hin.
      vm_compute in Hin. by apply elem_of_nil in Hin. }
    assert (_get_plugin_urls lib data = Raise (unexpected_line line)) as Hurls.
    { rewrite (plugin_urls_unfold lib data content Hfind).
      destruct (Py.strip content); [done|]. by rewrite Hraise. }
    split; [|split].
    + exists line. split; [done|]. split; [done|].
      by rewrite <-(plugin_urls_unfold lib data content Hfind).
    + apply main_stops_at_generate. intros root w0 Hsame. eexists _, _.
      apply (generate_stops_at_parser lib root w0 data _); [congruence|done].
    + destruct (main_stops_at_generate lib args w) as [_ ->]; [|done].
      intros root w0 Hsame. eexists _, _.
      apply (generate_stops_at_parser lib root w0 data _); [congruence|done].
  - intros Hgood.
    destruct (parse_bullets_all _ Hfree Hgood) as (output & Hparse & Hall).
    destruct (Py.strip content) eqn:E.
    + exists None. split; [done|]. subst candidates. vm_compute. constructor.
    + exists (Some output). by rewrite Hparse.
Qed.

Lemma bullet_parser_is_strict_witness :
  let w := Example.world Example.malformed "2025-01-01" in
  let candidates := bullet_candidates (Py.strip Example.malformed_list) in
  (Exists (fun line => ¬ ∃ text, is_bullet_line line text) candidates →
   (∃ line, line ∈ candidates
            ∧ (¬ ∃ text, is_bullet_line line text)
            ∧ _get_plugin_urls Example.lib Example.malformed
              = Raise (unexpected_line line))
   ∧ (∃ e, (_main Example.lib [] w).1 = Raise e)
   ∧ readme (_main Example.lib [] w).2 = Some Example.malformed)
  ∧ (Forall (fun line => ∃ text, is_bullet_line line text) candidates →
     ∃ urls, _get_plugin_urls Example.lib Example.malformed = Ok urls
             ∧ Forall2 captures candidates (default [] urls)).
Proof.
  apply (bullet_parser_is_strict Example.lib []
           (Example.world Example.malformed "2025-01-01")
           Example.malformed Example.malformed_list).
  - reflexivity.
  - vm_compute. reflexivity.
Defined.

Example malformed_bullet_raises :
  _get_plugin_urls Example.lib Example.malformed
  = Raise (unexpected_line "https://github.com/abc/xyz")
  ∧ (_main Example.lib [] (Example.world Example.malformed "2025-01-01")).1
    = Raise (unexpected_line "https://github.com/abc/xyz").
Proof. split; vm_compute; reflexivity. Qed.

(** ** Classifying the references *)

Section Classifier.

Context (lib : Collaborators).

Lemma loop_unknown (root url : string) (rest : list string)
    (seen : gset string) (unknown : list _UnknownRow)
    (repositories : list (_GitHubRepositoryDetails * _GitHubRepository)) :
  is_unknown_reference url →
  table_data_loop lib root (url :: rest) seen unknown repositories
  = table_data_loop lib root rest seen (unknown ++ [Build_UnknownRow url])
                    repositories.
Proof. intros Hurl. cbn [table_data_loop]. by rewrite Hurl. Qed.

Lemma loop_github (root url : string) (rest : list string)
    (seen : gset string) (unknown : list _UnknownRow)
    (repositories : list (_GitHubRepositoryDetails * _GitHubRepository))
    (w : World) :
  is_github_reference url →
  table_data_loop lib root (url :: rest) seen unknown repositories w =
    match from_url lib url with
    | Raise e => (Raise e, w)
    | Ok request =>
        match repository_details lib request with
        | Raise e => (Raise e, requested request w)
        | Ok details =>
            if bool_decide (html_url details ∈ seen) then
              table_data_loop lib root rest seen unknown repositories
                              (requested request w)
            else
              match _download_github_files lib details root (requested request w) with
              | (Raise e, w') => (Raise e, w')
              | (Ok repository, w') =>
                  table_data_loop lib root rest ({[html_url details]} ∪ seen)
                    unknown (repositories ++ [(details, repository)]) w'
              end
        end
    end.
Proof.
  intros Hurl. cbn [table_data_loop]. rewrite Hurl. cbn [negb].
  rewrite bind_unfold. unfold lift at 1.
  destruct (from_url lib url) as [request|]; [|done].
  unfold _get_github_repository_details. rewrite !bind_unfold.
  unfold requested. destruct (record_event _ w) as [[[]|] w1] eqn:E; [|done].
  simpl.
  destruct (repository_details lib request) as [details|]; [|done].
  case_bool_decide; [done|]. rewrite bind_unfold.
  by destruct (_download_github_files lib details root w1) as [[|] ?].
Qed.

(** The references that are not GitHub's only fill the unknown list. *)
Lemma loop_without_unknown (root : string) (plugins : list string)
    (seen : gset string) (unknown : list _UnknownRow)
    (repositories : list (_GitHubRepositoryDetails * _GitHubRepository))
    (w : World) :
  table_data_loop lib root plugins seen unknown repositories w =
    match table_data_loop lib root (filter is_github_reference plugins)
                          seen [] repositories w with
    | (Ok found, w') =>
        (Ok (unknown
               ++ map Build_UnknownRow (filter is_unknown_reference plugins),
             found.2), w')
    | (Raise e, w') => (Raise e, w')
    end.
Proof.
  revert seen unknown repositories w.
  induction plugins as [|url rest IH]; intros seen unknown repositories w.
  { by rewrite app_nil_r. }
  destruct (_is_github url) eqn:Hurl.
  - rewrite filter_cons_True by done.
    rewrite (filter_cons_False is_unknown_reference)
      by (unfold is_unknown_reference; congruence).
    rewrite !loop_github by done.
    destruct (from_url lib url) as [request|]; [|done].
    destruct (repository_details lib request) as [details|]; [|done].
    case_bool_decide; [apply IH|].
    destruct (_download_github_files lib details root _) as [[repository|] w'];
      [apply IH|done].
  - rewrite filter_cons_False by (unfold is_github_reference; congruence).
    rewrite (filter_cons_True is_unknown_reference) by done.
    rewrite loop_unknown by done. rewrite IH.
    destruct (table_data_loop lib root _ seen [] repositories w)
      as [[found|] w']; [|done].
    simpl. by rewrite <-!app_assoc.
Qed.

Lemma loop_github_only (root : string) (plugins : list string)
    (seen : gset string) (unknown : list _UnknownRow)
    (repositories : list (_GitHubRepositoryDetails * _GitHubRepository))
    (w w' : World)
    (found : list _UnknownRow
             * list (_GitHubRepositoryDetails * _GitHubRepository)) :
  Forall is_github_reference plugins →
  table_data_loop lib root plugins seen unknown repositories w = (Ok found, w') →
  found.1 = unknown.
Proof.
  revert seen repositories w.
  induction plugins as [|url rest IH]; intros seen repositories w Hall Hloop.
  { by injection Hloop as <- _. }
  apply Forall_cons in Hall as [Hurl Hall].
  rewrite loop_github in Hloop by done.
  destruct (from_url lib url) as [request|]; [|done].
  destruct (repository_details lib request) as [details|]; [|done].
  case_bool_decide; [by eapply IH|].
  destruct (_download_github_files lib details root _) as [[repository|] w1];
    [by eapply IH|done].
Qed.

Lemma table_data_unfold (plugins : list string) (root : option string)
    (w : World) :
  _get_table_data lib plugins root w =
    match download_root lib root w with
    | (Ok directory, w0) =>
        match table_data_loop lib directory plugins ∅ [] [] w0 with
        | (Ok found, w') =>
            match _get_github_table_rows lib found.2 with
            | Ok github => (Ok (Build_Tables github found.1), w')
            | Raise e => (Raise e, w')
            end
        | (Raise e, w') => (Raise e, w')
        end
    | (Raise e, w0) => (Raise e, w0)
    end.
Proof.
  unfold _get_table_data. rewrite bind_unfold.
  destruct (download_root lib root w) as [[directory|] w0]; [|done].
  rewrite bind_unfold.
  destruct (table_data_loop _ _ _ _ _ _ _) as [[found|] w']; [|done].
  rewrite bind_unfold. unfold lift.
  by destruct (_get_github_table_rows lib found.2).
Qed.

(** What a call of [_get_table_data] that returned went through. *)
Lemma table_data_ok (plugins : list string) (root : option string)
    (w w' : World) (tables : _Tables) :
  _get_table_data lib plugins root w = (Ok tables, w') →
  ∃ directory w0 found,
    download_root lib root w = (Ok directory, w0)
    ∧ table_data_loop lib directory plugins ∅ [] [] w0 = (Ok found, w')
    ∧ _get_github_table_rows lib found.2 = Ok (github tables)
    ∧ unknown tables = found.1.
Proof.
  rewrite table_data_unfold.
  destruct (download_root lib root w) as [[directory|] w0]; [|done].
  destruct (table_data_loop lib directory plugins ∅ [] [] w0)
    as [[found|] w1] eqn:Hloop; [|done].
  destruct (_get_github_table_rows lib found.2) as [out|] eqn:Hout; [|done].
  intros [= <- <-]. by exists directory, w0, found.
Qed.

(** C6: when the tables are produced, the unknown list holds exactly the
    references that match no GitHub pattern, in their order, and the
    category tables (and everything the run did) are those of the same run
    on the list without these references: none of them reaches a
    category. *)
Theorem unknown_references_only_in_unknown (plugins : list string)
    (root : option string) (w w' : World) (tables : _Tables) :
  _get_table_data lib plugins root w = (Ok tables, w') →
  unknown tables = map Build_UnknownRow (filter is_unknown_reference plugins)
  ∧ _get_table_data lib (filter is_github_reference plugins) root w
    = (Ok (Build_Tables (github tables) []), w').
Proof.
  rewrite !table_data_unfold.
  destruct (download_root lib root w) as [[directory|] w0]; [|done].
  rewrite loop_without_unknown.
  destruct (table_data_loop lib _ (filter _ plugins) ∅ [] [] w0)
    as [[found|] w1] eqn:Hloop; [|done].
  cbn [fst snd].
  destruct (_get_github_table_rows lib found.2) as [rows|]; [|done].
  intros [= <- <-]. split; [done|]. cbn [github].
  apply loop_github_only in Hloop as ->; [done|].
  apply Forall_forall. by intros url [? _]%list_elem_of_filter.
Qed.

End Classifier.

Lemma unknown_references_only_in_unknown_witness :
  ∃ tables w',
    _get_table_data Example.lib Example.mixed (Some "/tmp/r")
                    (Example.world "" "2025-01-01") = (Ok tables, w')
    ∧ unknown tables
      = map Build_UnknownRow (filter is_unknown_reference Example.mixed)
    ∧ _get_table_data Example.lib
        (filter is_github_reference Example.mixed) (Some "/tmp/r")
        (Example.world "" "2025-01-01")
      = (Ok (Build_Tables (github tables) []), w').
Proof.
  eexists _, _. split; [vm_compute; reflexivity|].
  apply (unknown_references_only_in_unknown Example.lib Example.mixed
           (Some "/tmp/r") (Example.world "" "2025-01-01")).
  vm_compute. reflexivity.
Defined.

Example not_github_is_unknown :
  ∃ tables w',
    _get_table_data Example.lib Example.mixed (Some "/tmp/r")
                    (Example.world "" "2025-01-01") = (Ok tables, w')
    ∧ unknown tables = [Build_UnknownRow "https://example.com/not-github"]
    ∧ map row_url (default [] (github tables !! "unknown"))
      = ["https://github.com/foo/bar"].
Proof.
  eexists _, _. split; [vm_compute; reflexivity|]. split; vm_compute; reflexivity.
Qed.

(** ** Grouping the rows *)

Section Grouping.

Context (lib : Collaborators).

(** All rows go under the one category there is, in the order of the
    repositories. *)
Lemma rows_from_spec
    (repositories : list (_GitHubRepositoryDetails * _GitHubRepository))
    (output out : gmap string (list _GitHubRow)) :
  github_table_rows_from lib output repositories = Ok out →
  ∃ rows,
    Forall2 (fun found row => github_row lib found.1 found.2 = Ok row)
            repositories rows
    ∧ out = match rows with
            | [] => output
            | _ => <["unknown" := default [] (output !! "unknown") ++ rows]> output
            end.
Proof.
  revert output. induction repositories as [|[details repository] rest IH];
    intros output Hrows.
  { injection Hrows as <-. by exists []. }
  cbn [github_table_rows_from] in Hrows.
  destruct (github_row lib details repository) as [row|] eqn:Hrow; [|done].
  destruct (IH _ Hrows) as (rows & Hall & ->).
  exists (row :: rows). split; [by constructor|].
  unfold append_row, _get_primary_category.
  destruct rows as [|row' rows]; [done|].
  rewrite lookup_insert_eq, insert_insert_eq. simpl. by rewrite <-app_assoc.
Qed.

Lemma github_table_rows_spec
    (repositories : list (_GitHubRepositoryDetails * _GitHubRepository))
    (out : gmap string (list _GitHubRow)) :
  _get_github_table_rows lib repositories = Ok out →
  ∃ rows,
    Forall2 (fun found row => github_row lib found.1 found.2 = Ok row)
            repositories rows
    ∧ out = match rows with [] => ∅ | _ => {["unknown" := rows]} end.
Proof.
  intros (rows & Hall & ->)%rows_from_spec. exists rows. split; [done|].
  destruct rows; [done|]. by rewrite lookup_empty, insert_empty.
Qed.

End Grouping.

Lemma serialize_one_category (name : string) (rows : list _GitHubRow)
    (unknown : list _UnknownRow) :
  rows ≠ [] →
  _get_tables_as_lines (Build_Tables {[name := rows]} unknown) =
    match unknown with
    | [] =>
        Ok [table_heading name +:+ Py.nl +:+ Py.nl
            +:+ Py.join Py.nl (table_header ++ Py.sorted (map row_line rows))]
    | _ => Raise (NotImplementedError "TODO: Finish this")
    end.
Proof.
  intros Hrows. unfold _get_tables_as_lines. cbn [github].
  rewrite map_to_list_singleton. cbn.
  destruct rows as [|row rows]; [done|]. reflexivity.
Qed.

Lemma serialize_no_category (unknown : list _UnknownRow) :
  _get_tables_as_lines (Build_Tables ∅ unknown) =
    match unknown with
    | [] => Ok []
    | _ => Raise (NotImplementedError "TODO: Finish this")
    end.
Proof. unfold _get_tables_as_lines. cbn [github]. by rewrite map_to_list_empty. Qed.

Lemma unknown_rows_raise (tables : _Tables) :
  unknown tables ≠ [] → ∃ e, _get_tables_as_lines tables = Raise e.
Proof.
  intros Hunknown. unfold _get_tables_as_lines.
  destruct (serialize_categories _); [|by eexists].
  destruct (unknown tables); [done|by eexists].
Qed.

(** ** Composing the document *)

Section Composition.

Context (lib : Collaborators).

Lemma generate_unfold (root : option string) (w : World) (data : string)
    (urls : option (list string)) :
  readme w = Some data →
  _get_plugin_urls lib data = Ok urls →
  Py.sorted (default [] urls) ≠ [] →
  _generate_readme_text lib root w =
    match _get_table_data lib (Py.sorted (default [] urls)) root w with
    | (Ok tables, w') =>
        match readme_middle tables with
        | Ok middle =>
            (Ok (reader_header (today w) (Py.sorted (default [] urls))
                 +:+ middle +:+ readme_footer), w')
        | Raise e => (Raise e, w')
        end
    | (Raise e, w') => (Raise e, w')
    end.
Proof.
  intros Hdata Hurls Hne. unfold _generate_readme_text.
  rewrite bind_unfold. unfold ask_world. rewrite Hdata.
  rewrite bind_unfold. cbn [mret M_ret]. rewrite bind_unfold. unfold lift at 1.
  rewrite Hurls. destruct (Py.sorted (default [] urls)) as [|url plugins] eqn:E;
    [done|].
  unfold _get_reader_header. rewrite !bind_unfold. unfold ask_world.
  cbn [mret M_ret]. rewrite bind_unfold.
  destruct (_get_table_data lib (url :: plugins) root w) as [[tables|] w'];
    [|done].
  rewrite bind_unfold. unfold lift.
  by destruct (readme_middle tables).
Qed.

Lemma table_data_unknown (plugins : list string) (root : option string)
    (w w' : World) (tables : _Tables) :
  _get_table_data lib plugins root w = (Ok tables, w') →
  unknown tables = map Build_UnknownRow (filter is_unknown_reference plugins)
  ∧ ∃ rows, github tables
            = match rows with [] => ∅ | _ => {["unknown" := rows]} end.
Proof.
  intros (directory & w0 & found & _ & Hloop & Hout & ->)%table_data_ok.
  rewrite loop_without_unknown in Hloop.
  destruct (table_data_loop lib _ (filter _ plugins) ∅ [] [] w0)
    as [[found'|] w1]; [|done].
  injection Hloop as <- _. split; [done|].
  apply github_table_rows_spec in Hout as (rows & _ & ->). by exists rows.
Qed.

Lemma table_data_with_unknown_raises (plugins : list string)
    (root : option string) (w w' : World) (tables : _Tables) (url : string) :
  url ∈ plugins → is_unknown_reference url →
  _get_table_data lib plugins root w = (Ok tables, w') →
  _get_tables_as_lines tables = Raise (NotImplementedError "TODO: Finish this")
  ∧ readme_middle tables = Raise (NotImplementedError "TODO: Finish this").
Proof.
  intros Hin Hurl (Hunknown & rows & Hgithub)%table_data_unknown.
  assert (unknown tables ≠ []) as Hne.
  { rewrite Hunknown. intros Hnil.
    assert (Build_UnknownRow url ∈ map Build_UnknownRow
              (filter is_unknown_reference plugins)) as Hrow.
    { apply list_elem_of_fmap_2. by apply list_elem_of_filter. }
    rewrite Hnil in Hrow. by apply elem_of_nil in Hrow. }
  assert (_get_tables_as_lines tables
          = Raise (NotImplementedError "TODO: Finish this")) as Hlines.
  { destruct tables as [github unknown]. simpl in *. subst github.
    destruct rows as [|row rows].
    - rewrite serialize_no_category. by destruct unknown.
    - rewrite serialize_one_category by done. by destruct unknown. }
  split; [done|]. unfold readme_middle, is_empty.
  rewrite (bool_decide_eq_false_2 (unknown tables = [])) by done.
  rewrite andb_false_r. by rewrite Hlines.
Qed.

(** C7: a reference that matches no GitHub pattern ends the run.  Tables
    with an unknown entry cannot be serialized; when they come out of the
    classifier the error is the unfinished unknown table.  The run raises
    and the document stays as it was, so no unknown entry is ever written. *)
Theorem unknown_reference_aborts_run (args : list string) (w : World)
    (data : string) (plugins : list string) (url : string) :
  readme w = Some data →
  _get_plugin_urls lib data = Ok (Some plugins) →
  url ∈ plugins →
  is_unknown_reference url →
  (∀ tables, unknown tables ≠ [] → ∃ e, _get_tables_as_lines tables = Raise e)
  ∧ (∀ root w0 w1 tables,
       _get_table_data lib (Py.sorted plugins) root w0 = (Ok tables, w1) →
       _get_tables_as_lines tables
       = Raise (NotImplementedError "TODO: Finish this"))
  ∧ (∃ e, (_main lib args w).1 = Raise e)
  ∧ readme (_main lib args w).2 = Some data.
Proof.
  intros Hdata Hurls Hin Hurl.
  assert (url ∈ Py.sorted plugins) as Hsorted.
  { unfold Py.sorted. by rewrite merge_sort_Permutation. }
  destruct (main_stops_at_generate lib args w) as [He Hkept].
  { intros root w0 Hsame.
    rewrite (generate_unfold root w0 data (Some plugins));
      [|congruence|done|].
    - change (default [] (Some plugins)) with plugins.
      destruct (_get_table_data lib (Py.sorted plugins) root w0)
        as [[tables|e] w'] eqn:E; [|by eexists _, _].
      destruct (table_data_with_unknown_raises _ _ _ _ _ _ Hsorted Hurl E)
        as [_ ->]. by eexists _, _.
    - change (default [] (Some plugins)) with plugins.
      intros Hnil. rewrite Hnil in Hsorted.
      by apply elem_of_nil in Hsorted. }
  split; [apply unknown_rows_raise|]. split; [|split].
  - intros root w0 w1 tables E.
    by destruct (table_data_with_unknown_raises _ _ _ _ _ _ Hsorted Hurl E).
  - done.
  - congruence.
Qed.

End Composition.

Lemma unknown_reference_aborts_run_witness :
  let data := Example.document (map bullet Example.mixed) in
  let w := Example.world data "2025-01-01" in
  (∀ tables, unknown tables ≠ [] → ∃ e, _get_tables_as_lines tables = Raise e)
  ∧ (∀ root w0 w1 tables,
       _get_table_data Example.lib (Py.sorted Example.mixed) root w0
       = (Ok tables, w1) →
       _get_tables_as_lines tables
       = Raise (NotImplementedError "TODO: Finish this"))
  ∧ (∃ e, (_main Example.lib [] w).1 = Raise e)
  ∧ readme (_main Example.lib [] w).2 = Some data.
Proof.
  apply (unknown_reference_aborts_run Example.lib []
           (Example.world (Example.document (map bullet Example.mixed))
                          "2025-01-01")
           (Example.document (map bullet Example.mixed))
           Example.mixed "https://example.com/not-github").
  - reflexivity.
  - vm_compute. reflexivity.
  - apply list_elem_of_In. simpl. left. reflexivity.
  - reflexivity.
Defined.

Example not_github_run_raises :
  (_main Example.lib []
     (Example.world (Example.document (map bullet Example.mixed)) "2025-01-01")).1
  = Raise (NotImplementedError "TODO: Finish this").
Proof. vm_compute. reflexivity. Qed.

(** ** Downloading documentation *)

Section Downloads.

Context (lib : Collaborators).

Lemma keeps_trace_download_items (base_url directory : string)
    (items : list _GitHubTreeResult) :
  keeps trace (download_items lib base_url directory items).
Proof. induction items as [|item rest IH]; simpl; keeps. Qed.

Lemma keeps_trace_mkdtemp (suffix : string) : keeps trace (mkdtemp lib suffix).
Proof. unfold mkdtemp. keeps. Qed.

Lemma keeps_trace_download_root (root : option string) :
  keeps trace (download_root lib root).
Proof.
  pose proof keeps_trace_mkdtemp. unfold download_root.
  destruct root as [[|c root]|]; keeps.
Qed.

Lemma keeps_trace_parse_arguments (text : list string) :
  keeps trace (_parse_arguments lib text).
Proof. pose proof keeps_trace_mkdtemp. unfold _parse_arguments. keeps. Qed.

Lemma download_items_step (base_url directory : string)
    (item : _GitHubTreeResult) (rest : list _GitHubTreeResult) (w : World) :
  download_items lib base_url directory (item :: rest) w =
    if negb (String.eqb (tree_type item) "blob")
       || negb (_is_readme (tree_path item))
    then download_items lib base_url directory rest w
    else
      match raw_file lib (base_url +:+ "/" +:+ tree_path item) with
      | Raise e => (Raise e, w)
      | Ok content =>
          download_items lib base_url directory rest
            (set_directory directory
               (write_file (Path.basename (tree_path item)) content
                           (default [] (directories w !! directory))) w).2
      end.
Proof.
  cbn [download_items].
  destruct (negb (String.eqb (tree_type item) "blob")); [done|].
  destruct (negb (_is_readme (tree_path item))); [done|].
  rewrite bind_unfold. unfold lift at 1.
  by destruct (raw_file lib _).
Qed.

(** Files are only written into the directory being downloaded to. *)
Lemma download_items_directories (base_url directory : string)
    (items : list _GitHubTreeResult) (w : World) :
  (∀ other, other ≠ directory →
     directories (download_items lib base_url directory items w).2 !! other
     = directories w !! other)
  ∧ (is_Some (directories w !! directory) →
     is_Some (directories (download_items lib base_url directory items w).2
              !! directory)).
Proof.
  revert w. induction items as [|item rest IH]; intros w; [done|].
  rewrite download_items_step.
  destruct (_ || _); [apply IH|].
  destruct (raw_file lib _) as [content|]; [|done].
  destruct (IH (set_directory directory
                  (write_file (Path.basename (tree_path item)) content
                              (default [] (directories w !! directory))) w).2)
    as [Hother Hsame].
  split.
  - intros other Hne. rewrite Hother by done. cbn.
    by rewrite lookup_insert_ne.
  - intros _. apply Hsame. cbn. rewrite lookup_insert_eq. eauto.
Qed.

Lemma download_documentation_unfold (details : _GitHubRepositoryDetails)
    (base_url directory : string) (w : World) :
  _download_github_documentation_files lib details base_url directory w =
    let made := match directories w !! directory with
                | Some _ => w
                | None => (set_directory directory [] w).2
                end in
    match repository_file_tree lib details with
    | Raise e => (Raise e, made)
    | Ok items => download_items lib base_url directory items made
    end.
Proof.
  unfold _download_github_documentation_files.
  rewrite !bind_unfold. unfold ask_world. cbn [fst snd].
  destruct (directories w !! directory); cbn;
    rewrite bind_unfold; unfold lift;
    by destruct (repository_file_tree lib details).
Qed.

Lemma download_documentation_spec (details : _GitHubRepositoryDetails)
    (base_url directory : string) (w : World) :
  (∀ other, other ≠ directory →
     directories (_download_github_documentation_files
                    lib details base_url directory w).2 !! other
     = directories w !! other)
  ∧ is_Some (directories (_download_github_documentation_files
                            lib details base_url directory w).2 !! directory)
  ∧ trace (_download_github_documentation_files
             lib details base_url directory w).2 = trace w.
Proof.
  rewrite download_documentation_unfold. cbv zeta.
  set (made := match directories w !! directory with
               | Some _ => w
               | None => (set_directory directory [] w).2
               end).
  assert ((∀ other, other ≠ directory →
                    directories made !! other = directories w !! other)
          ∧ is_Some (directories made !! directory)
          ∧ trace made = trace w) as (Hother & Hsome & Htrace).
  { subst made. destruct (directories w !! directory) eqn:E; cbn.
    - rewrite E. eauto.
    - split; [|by rewrite lookup_insert_eq; eauto].
      intros other Hne. by rewrite lookup_insert_ne. }
  destruct (repository_file_tree lib details) as [items|]; [|done].
  destruct (download_items_directories base_url directory items made)
    as [Hother' Hsome'].
  split; [|split].
  - intros other Hne. rewrite Hother' by done. by apply Hother.
  - by apply Hsome'.
  - rewrite keeps_trace_download_items. done.
Qed.

Lemma download_files_unfold (details : _GitHubRepositoryDetails)
    (root : string) (w : World) :
  _download_github_files lib details root w =
    let directory := download_directory root details in
    let url := "https://raw.githubusercontent.com/" +:+ owner_login details
               +:+ "/" +:+ name details +:+ "/" +:+ default_branch details in
    match match directories w !! directory with
          | None =>
              _download_github_documentation_files lib details url directory
                (record_event (DocumentationDownloaded (html_url details)) w).2
          | Some _ => (Ok tt, w)
          end with
    | (Raise e, w') => (Raise e, w')
    | (Ok _, w') =>
        match directories w' !! directory with
        | None =>
            (Raise (ValueError ("Directory " +:+ Py.dq +:+ directory +:+ Py.dq
                                +:+ " does not exist.")), w')
        | Some files =>
            match documentation_pages lib files with
            | Ok pages =>
                (Ok (Build_Repository directory pages (name details)
                                      (owner_login details)
                                      (html_url details)), w')
            | Raise e => (Raise e, w')
            end
        end
    end.
Proof.
  unfold _download_github_files, _find_documentation. cbv zeta. run.
  destruct (directories w !! download_directory root details) eqn:E.
  - run. rewrite E. run. by destruct (documentation_pages lib _).
  - run. cbn [record_event fst snd].
    destruct (_download_github_documentation_files _ _ _ _ _) as [[[]|] w1];
      [|done].
    run. destruct (directories w1 !! download_directory root details);
      [|done].
    run. by destruct (documentation_pages lib _).
Qed.

(** A directory that is there is read, and nothing is downloaded. *)
Lemma download_files_cached (details : _GitHubRepositoryDetails)
    (root : string) (w : World) (files : list (string * string)) :
  directories w !! download_directory root details = Some files →
  _download_github_files lib details root w =
    (match documentation_pages lib files with
     | Ok pages =>
         Ok (Build_Repository (download_directory root details) pages
                              (name details) (owner_login details)
                              (html_url details))
     | Raise e => Raise e
     end, w).
Proof.
  intros Hfiles. rewrite download_files_unfold. cbv zeta.
  rewrite Hfiles, Hfiles. by destruct (documentation_pages lib files).
Qed.

Lemma download_files_fresh (details : _GitHubRepositoryDetails)
    (root : string) (w : World) :
  directories w !! download_directory root details = None →
  trace (_download_github_files lib details root w).2
  = DocumentationDownloaded (html_url details) :: trace w
  ∧ directories w ⊆ directories (_download_github_files lib details root w).2
  ∧ ∀ repository,
      (_download_github_files lib details root w).1 = Ok repository →
      ∃ files pages,
        directories (_download_github_files lib details root w).2
        !! download_directory root details = Some files
        ∧ documentation_pages lib files = Ok pages
        ∧ repository =
            Build_Repository (download_directory root details) pages
                             (name details) (owner_login details)
                             (html_url details).
Proof.
  intros Hnone. rewrite download_files_unfold. cbv zeta. rewrite Hnone.
  set (recorded := (record_event _ w).2).
  set (base_url := "https://raw.githubusercontent.com/" +:+ _).
  pose proof (download_documentation_spec details base_url
                (download_directory root details) recorded)
    as (Hother & [files Hfiles] & Htrace).
  assert (directories w
          ⊆ directories (_download_github_documentation_files
                           lib details base_url
                           (download_directory root details) recorded).2)
    as Hgrows.
  { apply map_subseteq_spec. intros other x Hx.
    rewrite Hother; [done|]. intros ->. congruence. }
  destruct (_download_github_documentation_files lib details base_url _ recorded)
    as [[[]|e] w1]; cbn [fst snd] in *; [|done].
  rewrite Hfiles.
  destruct (documentation_pages lib files) as [pages|] eqn:Hpages;
    cbn [fst snd]; (split; [done|]); (split; [done|]); [|done].
  intros repository [= <-]. by exists files, pages.
Qed.

Lemma download_files_grows (details : _GitHubRepositoryDetails)
    (root : string) (w : World) :
  directories w ⊆ directories (_download_github_files lib details root w).2.
Proof.
  destruct (directories w !! download_directory root details) as [files|] eqn:E.
  - rewrite (download_files_cached _ _ _ files) by done.
    by destruct (documentation_pages lib files).
  - by destruct (download_files_fresh details root w E) as (_ & ? & _).
Qed.

Lemma download_files_spec (details : _GitHubRepositoryDetails)
    (root : string) (w w' : World) (repository : _GitHubRepository) :
  _download_github_files lib details root w = (Ok repository, w') →
  (∃ files pages,
     directories w' !! download_directory root details = Some files
     ∧ documentation_pages lib files = Ok pages
     ∧ repository =
         Build_Repository (download_directory root details) pages
                          (name details) (owner_login details)
                          (html_url details))
  ∧ (trace w' = trace w
     ∨ trace w' = DocumentationDownloaded (html_url details) :: trace w).
Proof.
  intros Hrun.
  destruct (directories w !! download_directory root details) as [files|] eqn:E.
  - rewrite (download_files_cached _ _ _ files E) in Hrun.
    destruct (documentation_pages lib files) as [pages|] eqn:Hpages; [|done].
    injection Hrun as <- <-. split; [by exists files, pages|by left].
  - destruct (download_files_fresh details root w E) as (Htrace & _ & Hrepo).
    rewrite Hrun in *. cbn [fst snd] in *. split; [by apply Hrepo|by right].
Qed.

End Downloads.

(** ** One row for each identity *)

Section Identities.

Context (lib : Collaborators).

Lemma resolves_to_unique (url identity1 identity2 : string) :
  resolves_to lib url identity1 → resolves_to lib url identity2 →
  identity1 = identity2.
Proof.
  intros (r1 & d1 & Hr1 & Hd1 & <-) (r2 & d2 & Hr2 & Hd2 & <-). congruence.
Qed.

Lemma metadata_requests_app (a b : list event) :
  metadata_requests (a ++ b) = metadata_requests a ++ metadata_requests b.
Proof. unfold metadata_requests. by rewrite omap_app. Qed.

Lemma downloads_app (a b : list event) :
  downloads (a ++ b) = downloads a ++ downloads b.
Proof. unfold downloads. by rewrite omap_app. Qed.

Lemma loop_identities (root : string) (plugins : list string)
    (seen : gset string) (unknown : list _UnknownRow)
    (repositories : list (_GitHubRepositoryDetails * _GitHubRepository))
    (w w' : World)
    (found : list _UnknownRow
             * list (_GitHubRepositoryDetails * _GitHubRepository)) :
  (∀ identity, identity ∈ seen ↔ identity ∈ identities repositories) →
  NoDup (identities repositories) →
  table_data_loop lib root plugins seen unknown repositories w = (Ok found, w') →
  NoDup (identities found.2)
  ∧ (∀ identity,
       identity ∈ identities found.2 ↔
       identity ∈ identities repositories
       ∨ ∃ url, url ∈ plugins ∧ is_github_reference url
                ∧ resolves_to lib url identity)
  ∧ (∃ added,
       found.2 = repositories ++ added
       ∧ Forall (fun pair => repository_url pair.2 = html_url pair.1) added)
  ∧ ∃ new,
      trace w' = new ++ trace w
      ∧ length (metadata_requests new)
        = length (filter is_github_reference plugins)
      ∧ NoDup (downloads new)
      ∧ ∀ identity, identity ∈ downloads new →
                    identity ∈ identities found.2 ∧ (identity ∉ seen).
Proof.
  revert seen unknown repositories w.
  induction plugins as [|url rest IH];
    intros seen unknown repositories w Hseen Hnodup Hloop.
  { injection Hloop as <- <-. cbn [snd]. split; [done|]. split.
    - intros identity. split; [by left|]. intros [?|(url & Hin & _)]; [done|].
      by apply elem_of_nil in Hin.
    - split; [exists []; by rewrite app_nil_r|].
      exists []. split; [done|]. split; [done|]. split; [constructor|].
      by intros ? ?%elem_of_nil. }
  destruct (_is_github url) eqn:Hurl.
  2:{ rewrite loop_unknown in Hloop by done.
      destruct (IH _ _ _ _ Hseen Hnodup Hloop) as (Hnd & Hids & Hadded & Hnew).
      rewrite filter_cons_False by (unfold is_github_reference; congruence).
      split; [done|]. split; [|done].
      intros identity. rewrite Hids. split.
      - intros [?|(u & Hin & Hg & Hres)]; [by left|].
        right. exists u. split; [by right|done].
      - intros [?|(u & Hin & Hg & Hres)]; [by left|].
        apply elem_of_cons in Hin as [->|Hin].
        + unfold is_github_reference in Hg. congruence.
        + right. by exists u. }
  rewrite loop_github in Hloop by done.
  rewrite filter_cons_True by done.
  destruct (from_url lib url) as [request|] eqn:Hrequest; [|done].
  destruct (repository_details lib request) as [details|] eqn:Hdetails; [|done].
  assert (resolves_to lib url (html_url details)) as Hresolves.
  { by exists request, details. }
  assert (trace (requested request w) = MetadataRequested request :: trace w)
    as Hrequested by done.
  case_bool_decide as Hin.
  - destruct (IH _ _ _ _ Hseen Hnodup Hloop)
      as (Hnd & Hids & Hadded & new & Htrace & Hcount & Hdown & Hfresh).
    split; [done|]. split; [|split; [done|]].
    + intros identity. rewrite Hids. split.
      * intros [?|(u & Hu & Hg & Hres)]; [by left|].
        right. exists u. split; [by right|done].
      * intros [?|(u & Hu & Hg & Hres)]; [by left|].
        apply elem_of_cons in Hu as [->|Hu]; [|right; by exists u].
        left. rewrite (resolves_to_unique _ _ _ Hres Hresolves).
        by apply Hseen.
    + exists (new ++ [MetadataRequested request]).
      rewrite Htrace, Hrequested, <-app_assoc. split; [done|].
      rewrite metadata_requests_app, downloads_app, length_app, Hcount.
      cbn. rewrite app_nil_r. split; [lia|]. done.
  - destruct (_download_github_files lib details root (requested request w))
      as [[repository|] w1] eqn:Hdownload; [|done].
    destruct (download_files_spec lib _ _ _ _ _ Hdownload)
      as ((files & pages & _ & _ & Hrepository) & Hevents).
    assert (repository_url repository = html_url details) as Hrepo_url
      by (by subst repository).
    assert (∀ identity,
              identity ∈ ({[html_url details]} ∪ seen : gset string) ↔
              identity ∈ identities (repositories ++ [(details, repository)]))
      as Hseen'.
    { intros identity. unfold identities. rewrite map_app, elem_of_app.
      cbn. rewrite elem_of_union, elem_of_singleton, list_elem_of_singleton.
      rewrite Hseen. unfold identities. tauto. }
    assert (NoDup (identities (repositories ++ [(details, repository)])))
      as Hnodup'.
    { unfold identities. rewrite map_app. apply NoDup_app. split; [done|].
      split; [|apply NoDup_singleton].
      intros identity Hi ->%list_elem_of_singleton. by apply Hin, Hseen. }
    destruct (IH _ _ _ _ Hseen' Hnodup' Hloop)
      as (Hnd & Hids & (added & Hfound & Hadded)
          & new & Htrace & Hcount & Hdown & Hfresh).
    split; [done|]. split; [|split].
    + intros identity. rewrite Hids. unfold identities at 1.
      rewrite map_app, elem_of_app. cbn. rewrite list_elem_of_singleton.
      split.
      * intros [[?| ->]|(u & Hu & Hg & Hres)].
        -- by left.
        -- right. exists url. split; [by left|done].
        -- right. exists u. split; [by right|done].
      * intros [?|(u & Hu & Hg & Hres)]; [by left; left|].
        apply elem_of_cons in Hu as [->|Hu]; [|right; by exists u].
        left. right. by rewrite (resolves_to_unique _ _ _ Hres Hresolves).
    + exists ((details, repository) :: added). rewrite Hfound, <-app_assoc.
      split; [done|]. by constructor.
    + assert (html_url details ∈ identities found.2) as Hmine.
      { apply Hids. left. unfold identities. rewrite map_app, elem_of_app.
        right. cbn. by apply list_elem_of_singleton. }
      assert (∀ identity, identity ∈ downloads new →
                          identity ∈ identities found.2
                          ∧ (identity ∉ seen) ∧ identity ≠ html_url details)
        as Hfresh'.
      { intros identity Hi. destruct (Hfresh identity Hi) as [? Hnot].
        split; [done|]. rewrite elem_of_union, elem_of_singleton in Hnot.
        tauto. }
      destruct Hevents as [Hsame|Hdownloaded].
      * exists (new ++ [MetadataRequested request]).
        rewrite Htrace, Hsame, Hrequested, <-app_assoc. split; [done|].
        rewrite metadata_requests_app, downloads_app, length_app, Hcount.
        cbn. rewrite app_nil_r. split; [lia|]. split; [done|].
        intros identity Hi. by destruct (Hfresh' identity Hi) as (? & ? & _).
      * exists (new ++ [DocumentationDownloaded (html_url details);
                        MetadataRequested request]).
        rewrite Htrace, Hdownloaded, Hrequested, <-app_assoc.
        split; [done|].
        rewrite metadata_requests_app, downloads_app, length_app, Hcount.
        cbn. split; [lia|]. split.
        -- apply NoDup_app. split; [done|]. split; [|apply NoDup_singleton].
           intros identity Hi ->%list_elem_of_singleton.
           by destruct (Hfresh' _ Hi) as (_ & _ & ?).
        -- intros identity [Hi| ->%list_elem_of_singleton]%elem_of_app.
           ++ by destruct (Hfresh' identity Hi) as (? & ? & _).
           ++ split; [done|]. done.
Qed.

End Identities.

Section OneRow.

Context (lib : Collaborators).

Lemma nothing_seen (identity : string) :
  identity ∈ (∅ : gset string) ↔ identity ∈ identities [].
Proof. split; [by intros ?%not_elem_of_empty|by intros ?%elem_of_nil]. Qed.

Lemma rows_of_found
    (found : list (_GitHubRepositoryDetails * _GitHubRepository))
    (rows : list _GitHubRow) :
  Forall (fun pair => repository_url pair.2 = html_url pair.1) found →
  Forall2 (fun pair row => github_row lib pair.1 pair.2 = Ok row) found rows →
  map row_url rows = identities found.
Proof.
  intros Hurls Hrows. induction Hrows as [|[details repository] row found rows Hrow _ IH];
    [done|].
  apply Forall_cons in Hurls as [Hurl Hurls]. cbn in *.
  rewrite IH by done. f_equal.
  unfold github_row in Hrow.
  destruct (_get_last_commit_date lib details); [|done].
  by injection Hrow as <-.
Qed.

(** C5, as amended: in the tables a run produces there is exactly one row
    for each identity (the address GitHub answers with) that a GitHub
    reference of the list resolves to, however many references resolve to
    it, and the documentation of an identity is downloaded at most once.
    The metadata is requested once for every GitHub reference, since the
    identity is only known from the answer. *)
Theorem one_row_for_each_identity (plugins : list string)
    (root : option string) (w w' : World) (tables : _Tables) :
  _get_table_data lib plugins root w = (Ok tables, w') →
  let rows := default [] (github tables !! "unknown") in
  (∀ category, category ≠ "unknown" → github tables !! category = None)
  ∧ NoDup (map row_url rows)
  ∧ (∀ identity,
       identity ∈ map row_url rows ↔
       ∃ url, url ∈ plugins ∧ is_github_reference url
              ∧ resolves_to lib url identity)
  ∧ ∃ new,
      trace w' = new ++ trace w
      ∧ length (metadata_requests new)
        = length (filter is_github_reference plugins)
      ∧ NoDup (downloads new)
      ∧ ∀ identity, identity ∈ downloads new → identity ∈ map row_url rows.
Proof.
  intros (directory & w0 & found & Hroot & Hloop & Hout & _)%table_data_ok rows.
  assert (trace w0 = trace w) as Hmade
    by (by rewrite <-(keeps_trace_download_root lib root w), Hroot).
  destruct tables as [out unknown]. cbn [github] in *.
  apply github_table_rows_spec in Hout as (rows' & Hrows & ->).
  destruct (loop_identities lib _ _ _ _ _ _ _ _ nothing_seen (NoDup_nil_2) Hloop)
    as (Hnd & Hids & (added & Hfound & Hadded) & new & Htrace & Hcount
        & Hdown & Hfresh).
  rewrite Hmade in Htrace.
  cbn [app] in Hfound. rewrite Hfound in *.
  assert (rows = rows') as Hsame.
  { subst rows. destruct rows'; [by rewrite lookup_empty|].
    by rewrite lookup_singleton_eq. }
  assert (map row_url rows = identities added) as Hurls.
  { rewrite Hsame. by apply rows_of_found. }
  split; [|split; [|split]].
  - intros category Hne. destruct rows'; [by rewrite lookup_empty|].
    by rewrite lookup_singleton_ne.
  - by rewrite Hurls.
  - intros identity. rewrite Hurls, Hids. split; [|by right].
    intros [?%elem_of_nil|?]; done.
  - exists new. rewrite Hurls. split; [done|]. split; [done|]. split; [done|].
    intros identity Hi. by destruct (Hfresh identity Hi).
Qed.

End OneRow.

Lemma one_row_for_each_identity_witness :
  ∃ tables w',
    _get_table_data Example.lib Example.spellings (Some "/tmp/r")
                    (Example.world "" "2025-01-01") = (Ok tables, w')
    ∧ let rows := default [] (github tables !! "unknown") in
      (∀ category, category ≠ "unknown" → github tables !! category = None)
      ∧ NoDup (map row_url rows)
      ∧ (∀ identity,
           identity ∈ map row_url rows ↔
           ∃ url, url ∈ Example.spellings ∧ is_github_reference url
                  ∧ resolves_to Example.lib url identity)
      ∧ ∃ new,
          trace w' = new ++ trace (Example.world "" "2025-01-01")
          ∧ length (metadata_requests new)
            = length (filter is_github_reference Example.spellings)
          ∧ NoDup (downloads new)
          ∧ ∀ identity, identity ∈ downloads new →
                        identity ∈ map row_url rows.
Proof.
  eexists _, _. split; [vm_compute; reflexivity|].
  apply (one_row_for_each_identity Example.lib Example.spellings
           (Some "/tmp/r") (Example.world "" "2025-01-01")).
  vm_compute. reflexivity.
Defined.

(** C5, as stated, fails on its own scenario: the two spellings give one
    row and one download, but the metadata of [foo/bar] is requested
    twice. *)
Lemma same_identity_is_requested_twice :
  let run := _get_table_data Example.lib Example.spellings (Some "/tmp/r")
                             (Example.world "" "2025-01-01") in
  (∃ tables, run.1 = Ok tables
             ∧ map row_url (default [] (github tables !! "unknown"))
               = ["https://github.com/foo/bar"])
  ∧ metadata_requests (trace run.2)
    = [Build_Request "foo" "bar.git"; Build_Request "foo" "bar"]
  ∧ repository_details Example.lib (Build_Request "foo" "bar.git")
    = Ok Example.foo_bar
  ∧ repository_details Example.lib (Build_Request "foo" "bar")
    = Ok Example.foo_bar
  ∧ downloads (trace run.2) = ["https://github.com/foo/bar"]
  ∧ length (metadata_requests (trace run.2)) ≠ 1%nat.
Proof.
  split; [eexists; split; vm_compute; reflexivity|].
  repeat split; try (vm_compute; reflexivity). vm_compute. discriminate.
Qed.

(** ** The serializer fixes the order *)

Lemma sorted_is_sorted (lines : list string) :
  Sorted String.le (Py.sorted lines) ∧ Py.sorted lines ≡ₚ lines.
Proof.
  split; [apply (Sorted_merge_sort String.le)|apply merge_sort_Permutation].
Qed.

Lemma sorted_permutation (lines1 lines2 : list string) :
  lines1 ≡ₚ lines2 → Py.sorted lines1 = Py.sorted lines2.
Proof.
  intros Hperm. apply (Sorted_unique String.le).
  - apply sorted_is_sorted.
  - apply sorted_is_sorted.
  - unfold Py.sorted. by rewrite !merge_sort_Permutation.
Qed.


Lemma serialize_table_permutation (rows1 rows2 : list _GitHubRow) :
  rows1 ≡ₚ rows2 →
  _serialize_github_table rows1 = _serialize_github_table rows2.
Proof.
  intros Hperm. destruct rows1 as [|r1 rows1], rows2 as [|r2 rows2]; [done|..].
  - by apply Permutation_nil_cons in Hperm.
  - symmetry in Hperm. by apply Permutation_nil_cons in Hperm.
  - unfold _serialize_github_table.
    by rewrite (sorted_permutation (map row_line (r1 :: rows1))
                                   (map row_line (r2 :: rows2)))
      by (by apply Permutation_map).
Qed.

Lemma sorted_items_keys (m : gmap string (list _GitHubRow)) :
  Sorted String.le (merge_sort category_le (map_to_list m)).*1
  ∧ (merge_sort category_le (map_to_list m)).*1 ≡ₚ (map_to_list m).*1.
Proof.
  split.
  - apply (Sorted_fmap fst category_le String.le); [done|].
    apply (Sorted_merge_sort category_le).
  - by rewrite merge_sort_Permutation.
Qed.

Lemma same_rows_keys (m1 m2 : gmap string (list _GitHubRow)) :
  same_rows m1 m2 → (map_to_list m1).*1 ≡ₚ (map_to_list m2).*1.
Proof.
  intros Hsame. apply NoDup_Permutation; try apply NoDup_fst_map_to_list.
  intros label. rewrite !list_elem_of_fmap. split.
  - intros ([k rows] & -> & Hin%elem_of_map_to_list). cbn.
    specialize (Hsame k). rewrite Hin in Hsame.
    destruct (m2 !! k) as [rows2|] eqn:E; [|inversion Hsame].
    exists (k, rows2). split; [done|]. by apply elem_of_map_to_list.
  - intros ([k rows] & -> & Hin%elem_of_map_to_list). cbn.
    specialize (Hsame k). rewrite Hin in Hsame.
    destruct (m1 !! k) as [rows1|] eqn:E; [|inversion Hsame].
    exists (k, rows1). split; [done|]. by apply elem_of_map_to_list.
Qed.

Lemma same_keys_same_rows (m1 m2 : gmap string (list _GitHubRow))
    (items1 items2 : list (string * list _GitHubRow)) :
  same_rows m1 m2 →
  items1.*1 = items2.*1 →
  (∀ item, item ∈ items1 → m1 !! item.1 = Some item.2) →
  (∀ item, item ∈ items2 → m2 !! item.1 = Some item.2) →
  Forall2 (fun a b => a.1 = b.1 ∧ a.2 ≡ₚ b.2) items1 items2.
Proof.
  intros Hsame. revert items2.
  induction items1 as [|[k rows1] items1 IH]; intros [|[k' rows2] items2] Hkeys;
    [constructor|discriminate|discriminate|].
  injection Hkeys as <- Hkeys. intros H1 H2. constructor.
  - split; [done|]. cbn.
    specialize (H1 (k, rows1) (list_elem_of_here _ _)).
    specialize (H2 (k, rows2) (list_elem_of_here _ _)).
    specialize (Hsame k). cbn in *. rewrite H1, H2 in Hsame.
    by inversion Hsame.
  - apply IH; [done|..]; intros item Hin; [apply H1|apply H2]; by right.
Qed.

Lemma sorted_items_same_rows (m1 m2 : gmap string (list _GitHubRow)) :
  same_rows m1 m2 →
  Forall2 (fun a b => a.1 = b.1 ∧ a.2 ≡ₚ b.2)
          (merge_sort category_le (map_to_list m1))
          (merge_sort category_le (map_to_list m2)).
Proof.
  intros Hsame. apply (same_keys_same_rows m1 m2); [done|..].
  - apply (Sorted_unique String.le); try apply sorted_items_keys.
    destruct (sorted_items_keys m1) as [_ ->], (sorted_items_keys m2) as [_ ->].
    by apply same_rows_keys.
  - intros [k rows] Hin. apply elem_of_map_to_list.
    by rewrite merge_sort_Permutation in Hin.
  - intros [k rows] Hin. apply elem_of_map_to_list.
    by rewrite merge_sort_Permutation in Hin.
Qed.

Lemma serialize_categories_same_rows
    (items1 items2 : list (string * list _GitHubRow)) :
  Forall2 (fun a b => a.1 = b.1 ∧ a.2 ≡ₚ b.2) items1 items2 →
  serialize_categories items1 = serialize_categories items2.
Proof.
  induction 1 as [|[k rows1] [k' rows2] items1 items2 [Hk Hrows] _ IH]; [done|].
  cbn in *. subst k'. rewrite (serialize_table_permutation rows1 rows2) by done.
  by rewrite IH.
Qed.

Lemma serialize_categories_blocks (items : list (string * list _GitHubRow))
    (blocks : list string) :
  serialize_categories items = Ok blocks →
  Forall2 (fun item block =>
             item.2 ≠ []
             ∧ block = category_block item.1
                         (Py.sorted (map row_line item.2)))
          items blocks.
Proof.
  revert blocks. induction items as [|[k rows] items IH]; intros blocks.
  { intros [= <-]. constructor. }
  cbn. destruct rows as [|row rows]; [done|]. cbn.
  destruct (serialize_categories items) as [output|]; [|done].
  intros [= <-]. constructor; [|by apply IH]. done.
Qed.

Lemma serialize_categories_ok (items : list (string * list _GitHubRow)) :
  Forall (fun item => item.2 ≠ []) items →
  ∃ blocks, serialize_categories items = Ok blocks.
Proof.
  induction 1 as [|[k rows] items Hrows _ [blocks IH]]; [by eexists|].
  cbn in *. destruct rows as [|row rows]; [done|]. cbn.
  rewrite IH. by eexists.
Qed.

(** C10: two table sets with the same categories and, in each, the same
    rows in any order (and the same unknown entries) are serialized to the
    same result.  A table set is serialized when each of its categories
    has a row and it has no unknown entry; the blocks then come out by
    category label in lexicographic order, and in each block the row lines
    are sorted by their text.  (The heading of a block is that of the
    script for a label whose capital is a character of this model.) *)
Theorem serialization_ignores_insertion_order (t1 t2 : _Tables) :
  same_rows (github t1) (github t2) →
  unknown t1 = unknown t2 →
  _get_tables_as_lines t1 = _get_tables_as_lines t2
  ∧ (map_Forall (fun _ rows => rows ≠ []) (github t1) →
     unknown t1 = [] →
     ∃ blocks, _get_tables_as_lines t1 = Ok blocks)
  ∧ ∀ blocks,
      map_Forall (fun label _ => Py.capital_in_range label = true)
                 (github t1) →
      _get_tables_as_lines t1 = Ok blocks →
      ∃ labels,
        Sorted String.le labels
        ∧ labels ≡ₚ (map_to_list (github t1)).*1
        ∧ Forall2 (fun label block =>
                     ∃ rows lines,
                       github t1 !! label = Some rows
                       ∧ Sorted String.le lines
                       ∧ lines ≡ₚ map row_line rows
                       ∧ block = category_block label lines)
                  labels blocks.
Proof.
  intros Hrows Hunknown. split; [|split].
  - unfold _get_tables_as_lines. rewrite Hunknown.
    by rewrite (serialize_categories_same_rows _ _
                  (sorted_items_same_rows _ _ Hrows)).
  - intros Hsome Hnone. unfold _get_tables_as_lines. rewrite Hnone.
    destruct (serialize_categories_ok
                (merge_sort category_le (map_to_list (github t1))))
      as [blocks ->]; [|by eexists].
    apply Forall_forall. intros [k rows] Hin.
    rewrite merge_sort_Permutation in Hin.
    apply elem_of_map_to_list in Hin. by apply (Hsome k rows).
  - intros blocks _. unfold _get_tables_as_lines.
    destruct (serialize_categories _) as [output|] eqn:Hserialized; [|done].
    destruct (unknown t1); [|done]. intros [= <-].
    apply serialize_categories_blocks in Hserialized.
    exists (merge_sort category_le (map_to_list (github t1))).*1.
    destruct (sorted_items_keys (github t1)) as [Hsorted Hperm].
    split; [done|]. split; [done|].
    apply Forall2_fmap_l.
    assert (Forall (fun item => github t1 !! item.1 = Some item.2)
                   (merge_sort category_le (map_to_list (github t1))))
      as Hitems.
    { apply Forall_forall. intros [k rows] Hin.
      rewrite merge_sort_Permutation in Hin. by apply elem_of_map_to_list. }
    revert Hitems. clear -Hserialized.
    induction Hserialized as [|[k rows] block items blocks [_ ->] _ IH];
      intros Hitems; [constructor|].
    apply Forall_cons in Hitems as [Hitem Hitems].
    constructor; [|by apply IH].
    exists rows, (Py.sorted (map row_line rows)).
    destruct (sorted_is_sorted (map row_line rows)). done.
Qed.

Lemma serialization_ignores_insertion_order_witness :
  let t1 :=
    Build_Tables {["unknown" := [Example.row_bar; Example.row_xyz]]} [] in
  let t2 :=
    Build_Tables {["unknown" := [Example.row_xyz; Example.row_bar]]} [] in
  _get_tables_as_lines t1 = _get_tables_as_lines t2
  ∧ (∃ blocks, _get_tables_as_lines t1 = Ok blocks)
  ∧ ∀ blocks,
      _get_tables_as_lines t1 = Ok blocks →
      ∃ labels,
        Sorted String.le labels
        ∧ labels ≡ₚ (map_to_list (github t1)).*1
        ∧ Forall2 (fun label block =>
                     ∃ rows lines,
                       github t1 !! label = Some rows
                       ∧ Sorted String.le lines
                       ∧ lines ≡ₚ map row_line rows
                       ∧ block = category_block label lines)
                  labels blocks.
Proof.
  intros t1 t2.
  destruct (serialization_ignores_insertion_order t1 t2)
    as (Hsame & Hserialized & Hblocks).
  - intros category. simpl.
    destruct (decide (category = "unknown")) as [->|Hne].
    + rewrite !lookup_singleton_eq. constructor. apply perm_swap.
    + rewrite !lookup_singleton_ne by done. constructor.
  - reflexivity.
  - split; [exact Hsame|]. split.
    + apply Hserialized; [|reflexivity].
      intros label rows Hin. unfold t1 in Hin. cbn [github] in Hin.
      apply lookup_singleton_Some in Hin as [<- <-]. discriminate.
    + intros blocks. apply Hblocks.
      intros label rows Hin. unfold t1 in Hin. cbn [github] in Hin.
      apply lookup_singleton_Some in Hin as [<- <-]. reflexivity.
Defined.

Example categories_in_label_order :
  _get_tables_as_lines
    (Build_Tables (<["unknown" := [Example.row_xyz]]>
                     {["auto-completion" := [Example.row_bar]]}) [])
  = Ok [ category_block "auto-completion" [row_line Example.row_bar];
         category_block "unknown" [row_line Example.row_xyz] ].
Proof. vm_compute. reflexivity. Qed.

(** ** Reading back the embedded list *)

Lemma rstrip_app_space (s ws : string) :
  Py.all_space ws = true → Py.rstrip (s +:+ ws) = Py.rstrip s.
Proof.
  intros Hws. induction s as [|c s IH].
  - cbn. by apply rstrip_empty_iff.
  - rewrite append_cons. cbn [Py.rstrip]. by rewrite IH.
Qed.

Lemma rstrip_app_clean (a s : string) :
  Py.rstrip s = s → s ≠ "" → Py.rstrip (a +:+ s) = a +:+ s.
Proof.
  intros Hs Hne. induction a as [|c a IH]; [done|].
  rewrite append_cons. cbn [Py.rstrip]. rewrite IH.
  destruct (a +:+ s) eqn:E; [|done].
  destruct a; [|done]. by destruct s.
Qed.

Lemma split_single (sep : ascii) (s : string) :
  has_char sep s = false → Py.split sep s = [s].
Proof.
  induction s as [|c s IH]; [done|]. cbn.
  intros [Hc Hs]%orb_false_elim. apply bool_decide_eq_false_1 in Hc.
  destruct (Ascii.eqb_spec c sep); [congruence|]. by rewrite IH.
Qed.

Lemma split_app (sep : ascii) (a b : string) :
  has_char sep a = false →
  Py.split sep (a +:+ String sep b) = a :: Py.split sep b.
Proof.
  induction a as [|c a IH].
  - intros _. change ("" +:+ String sep b) with (String sep b).
    cbn [Py.split]. by rewrite Ascii.eqb_refl.
  - cbn [has_char]. intros [Hc Ha]%orb_false_elim.
    apply bool_decide_eq_false_1 in Hc.
    rewrite append_cons. cbn [Py.split].
    destruct (Ascii.eqb_spec c sep); [congruence|]. by rewrite IH.
Qed.

Lemma join_cons (line : string) (lines : list string) :
  lines ≠ [] →
  Py.join Py.nl (line :: lines) = line +:+ Py.nl +:+ Py.join Py.nl lines.
Proof. by destruct lines. Qed.

Lemma split_join (lines : list string) :
  lines ≠ [] →
  Forall (fun line => has_char Py.newline line = false) lines →
  Py.split_lines (Py.join Py.nl lines) = lines.
Proof.
  unfold Py.split_lines.
  induction lines as [|line lines IH]; [done|]. intros _ Hfree.
  apply Forall_cons in Hfree as [Hline Hfree].
  destruct lines as [|next lines].
  - cbn. by apply split_single.
  - rewrite join_cons by done. unfold Py.nl.
    change (line +:+ String Py.newline "" +:+ Py.join (String Py.newline "") (next :: lines))
      with (line +:+ String Py.newline (Py.join (String Py.newline "") (next :: lines))).
    rewrite split_app by done. f_equal. by apply IH.
Qed.

Lemma bullet_is_clean (text : string) :
  is_reference text →
  has_char Py.newline (bullet text) = false
  ∧ Py.strip (bullet text) = bullet text
  ∧ is_candidate (bullet text)
  ∧ _BULLETPOINT_EXPRESSION (bullet text) = Some text.
Proof.
  intros (Hne & Hfree & Hleft & Hright).
  assert (has_char Py.newline (bullet text) = false) as Hfree'.
  { unfold bullet. by rewrite has_char_app, Hfree. }
  assert (Py.lstrip (bullet text) = bullet text) as Hleft' by done.
  assert (Py.rstrip (bullet text) = bullet text) as Hright'.
  { unfold bullet. by apply rstrip_app_clean. }
  split; [done|]. split; [by apply strip_clean|]. split; [by split|].
  apply bullet_expression_complete; [done..|]. split; [|done].
  exists "", " ". by repeat split.
Qed.

Lemma parse_bullets_of_bullets (texts : list string) :
  Forall is_reference texts →
  parse_bullets (map bullet texts) = Ok texts.
Proof.
  induction 1 as [|text texts Htext _ IH]; [done|].
  destruct (bullet_is_clean text Htext) as (Hfree & Hstrip & Hcandidate & Hmatch).
  cbn [map]. rewrite parse_bullets_step by done.
  rewrite Hstrip, decide_True, Hmatch, IH by done. done.
Qed.

Lemma captured_is_reference (line text : string) :
  has_char Py.newline line = false →
  Py.lstrip line = line → Py.rstrip line = line →
  _BULLETPOINT_EXPRESSION line = Some text → is_reference text.
Proof.
  intros Hfree Hleft Hright.
  rewrite bullet_expression_stripped by done.
  destruct line as [|c rest]; [done|].
  destruct (Ascii.eqb c "-"); [|done].
  destruct (Py.lstrip rest) as [|d t] eqn:E; [done|]. intros [= <-].
  apply rstrip_tail in Hright.
  cbn [has_char] in Hfree. apply orb_false_elim in Hfree as [_ Hfree].
  rewrite <-E. split; [by rewrite E|]. split; [by apply has_char_lstrip|].
  split; [apply lstrip_idemp|by apply rstrip_lstrip].
Qed.

Lemma parse_bullets_references (lines output : list string) :
  Forall (fun line => has_char Py.newline line = false) lines →
  parse_bullets lines = Ok output → Forall is_reference output.
Proof.
  intros Hfree. revert output.
  induction Hfree as [|line lines Hline _ IH]; intros output.
  { by intros [= <-]. }
  rewrite parse_bullets_step by done.
  destruct (decide _); [|by apply IH].
  destruct (_BULLETPOINT_EXPRESSION (Py.strip line)) as [text|] eqn:E; [|done].
  destruct (parse_bullets lines) as [rest|]; [|done].
  intros [= <-]. constructor; [|by apply IH].
  destruct (strip_stripped line).
  eapply captured_is_reference; [|done..]. by apply has_char_strip.
Qed.

Lemma join_is_clean (lines : list string) :
  lines ≠ [] →
  Forall (fun line => Py.rstrip line = line ∧ line ≠ "") lines →
  Py.rstrip (Py.join Py.nl lines) = Py.join Py.nl lines
  ∧ Py.join Py.nl lines ≠ "".
Proof.
  induction lines as [|line lines IH]; [done|]. intros _ Hclean.
  apply Forall_cons in Hclean as [[Hline Hne] Hclean].
  destruct lines as [|next lines]; [done|].
  destruct IH as [IHr IHne]; [done..|].
  rewrite join_cons by done. split.
  - apply rstrip_app_clean; [|done]. by apply rstrip_app_clean.
  - by destruct line.
Qed.

Lemma strip_of_bullets (texts : list string) :
  texts ≠ [] → Forall is_reference texts →
  Py.strip (Py.join Py.nl (map bullet texts) +:+ Py.nl)
  = Py.join Py.nl (map bullet texts)
  ∧ Py.join Py.nl (map bullet texts) ≠ "".
Proof.
  intros Hne Hall.
  destruct (join_is_clean (map bullet texts)) as [Hr Hne'].
  { by destruct texts. }
  { apply Forall_fmap, (Forall_impl _ _ _ Hall). intros text Htext.
    destruct (bullet_is_clean text Htext) as (_ & Hstrip & [? _] & _).
    split; [|done]. destruct (strip_stripped (bullet text)). congruence. }
  split; [|done]. unfold Py.strip.
  rewrite rstrip_app_space by done. rewrite Hr.
  destruct texts as [|text texts]; [done|]. by destruct texts.
Qed.

(** What was rendered by [_get_reader_header] is what is parsed back. *)
Lemma read_embedded_list (texts : list string) :
  texts ≠ [] → Forall is_reference texts →
  ∃ output,
    plugin_urls_of_text (Some (Py.strip (embedded_list texts +:+ Py.nl)))
    = Ok (Some output)
    ∧ output ≡ₚ texts.
Proof.
  intros Hne Hall. unfold embedded_list.
  destruct (Permutation_map_inv bullet texts
              (proj2 (sorted_is_sorted (map bullet texts))))
    as (output & Hlines & Hperm).
  rewrite Hlines. exists output.
  assert (output ≠ []) as Hne'.
  { intros ->. by apply Permutation_nil_r in Hperm. }
  assert (Forall is_reference output) as Hall' by (by rewrite <-Hperm).
  destruct (strip_of_bullets output Hne' Hall') as [-> Hjoin].
  split; [|done]. unfold plugin_urls_of_text.
  destruct (Py.join Py.nl (map bullet output)) eqn:E; [done|]. rewrite <-E.
  rewrite split_join.
  - by rewrite parse_bullets_of_bullets.
  - by destruct output.
  - apply Forall_fmap, (Forall_impl _ _ _ Hall'). intros text Htext.
    by destruct (bullet_is_clean text Htext).
Qed.

Lemma get_keeps_data (lib : Collaborators) (wrapper found : _NodeWrapper)
    (path : list selector) :
  NodeWrapper.get lib wrapper path = Ok found →
  wrapped_data found = wrapped_data wrapper.
Proof.
  unfold NodeWrapper.get.
  destruct (NodeWrapper.descend lib (wrapped_node wrapper) path); [|done].
  by intros [= <-].
Qed.

Lemma plugins_block_data (lib : Collaborators) (lines : string)
    (nodes : list Node) (wrapper : _NodeWrapper) :
  plugins_block lib lines nodes = Ok (Some wrapper) →
  wrapped_data wrapper = lines.
Proof.
  induction nodes as [|node rest IH]; [done|].
  cbn [plugins_block]. intros Hblock.
  repeat (first [rewrite try_unfold in Hblock|case_match]; simplify_eq; auto).
Qed.

(** The fenced text is the text of the document at the positions
    tree-sitter gives. *)
Lemma fence_span_text (lib : Collaborators) (data : string)
    (first last : nat) :
  fence_span lib data = Ok (Some (first, last)) →
  find_code_fence_content lib data
  = Ok (Some (Py.drop first (Py.take last data))).
Proof.
  unfold fence_span, find_code_fence_content.
  rewrite !try_unfold.
  destruct (plugins_block lib data _) as [[wrapper|]|] eqn:Hblock; [|done..].
  rewrite !try_unfold. cbn [NodeWrapper.text].
  destruct (NodeWrapper.get lib wrapper _) as [found|] eqn:Hget; [|done].
  intros [= <- <-]. unfold NodeWrapper.own_text, node_text.
  by rewrite (get_keeps_data _ _ _ _ Hget), (plugins_block_data _ _ _ _ Hblock).
Qed.

Lemma header_split (date : string) (plugins : list string) :
  reader_header date plugins
  = header_before date +:+ (embedded_list plugins +:+ Py.nl) +:+ header_after.
Proof.
  unfold reader_header, header_before, header_after.
  by rewrite !append_assoc.
Qed.

(** C2: for every reference list (references are what the parser yields
    and the header is given: not empty, without a line break, without
    whitespace at either end), parsing the rendered embedded list gives
    the same references, each as often as it was listed, in the order of
    the rendered lines; in particular the same set.  The rendered list is
    the fenced text of a document that begins with the header, tree-sitter
    giving the positions where the header has it. *)
Theorem embedded_list_read_back (lib : Collaborators)
    (references : list string) :
  Forall is_reference references →
  (∀ data,
     find_code_fence_content lib data
     = Ok (Some (embedded_list references +:+ Py.nl)) →
     ∃ urls,
       _get_plugin_urls lib data = Ok urls
       ∧ default [] urls ≡ₚ references
       ∧ ∀ reference, reference ∈ default [] urls ↔ reference ∈ references)
  ∧ ∀ date rest,
      fence_span lib (reader_header date references +:+ rest)
      = Ok (Some (String.length (header_before date),
                  (String.length (header_before date)
                   + String.length (embedded_list references +:+ Py.nl))%nat)) →
      find_code_fence_content lib (reader_header date references +:+ rest)
      = Ok (Some (embedded_list references +:+ Py.nl)).
Proof.
  intros Hall. split.
  - intros data Hfind. unfold _get_plugin_urls, _get_plugins_text.
    rewrite Hfind. destruct references as [|reference references].
    + exists None. split; [done|]. split; done.
    + destruct (read_embedded_list (reference :: references))
        as (output & -> & Hperm); [done..|].
      exists (Some output). split; [done|]. split; [done|].
      intros x. cbn [default from_option id]. by rewrite Hperm.
  - intros date rest Hspan. apply fence_span_text in Hspan.
    rewrite Hspan.
    assert (reader_header date references +:+ rest
            = header_before date
              +:+ (embedded_list references +:+ Py.nl)
              +:+ (header_after +:+ rest)) as ->
      by (by rewrite header_split, !append_assoc).
    by rewrite slice_middle.
Qed.

Lemma embedded_list_read_back_witness :
  let data := reader_header "2025-01-01" Example.spellings +:+ "" in
  find_code_fence_content Example.lib data
  = Ok (Some (embedded_list Example.spellings +:+ Py.nl))
  ∧ ∃ urls,
      _get_plugin_urls Example.lib data = Ok urls
      ∧ default [] urls ≡ₚ Example.spellings
      ∧ ∀ reference,
          reference ∈ default [] urls ↔ reference ∈ Example.spellings.
Proof.
  intros data.
  destruct (embedded_list_read_back Example.lib Example.spellings)
    as [Hparsed Hfound].
  - repeat constructor; vm_compute; congruence.
  - specialize (Hfound "2025-01-01" "").
    split; [|apply Hparsed]; apply Hfound; vm_compute; reflexivity.
Defined.

(** ** Regenerating from a regenerated document *)

Section Replay.

Context (lib : Collaborators).

Lemma loop_grows (root : string) (plugins : list string)
    (seen : gset string) (unknown : list _UnknownRow)
    (repositories : list (_GitHubRepositoryDetails * _GitHubRepository))
    (w : World) :
  directories w
  ⊆ directories (table_data_loop lib root plugins seen unknown repositories w).2.
Proof.
  revert seen unknown repositories w.
  induction plugins as [|url rest IH]; intros seen unknown repositories w;
    [done|].
  destruct (_is_github url) eqn:Hurl.
  2:{ rewrite loop_unknown by done. apply IH. }
  rewrite loop_github by done.
  destruct (from_url lib url) as [request|]; [|done].
  destruct (repository_details lib request) as [details|]; [|done].
  case_bool_decide.
  { etrans; [|apply IH]. done. }
  pose proof (download_files_grows lib details root (requested request w))
    as Hgrows.
  destruct (_download_github_files lib details root (requested request w))
    as [[repository|] w1]; [|done].
  etrans; [|apply IH]. done.
Qed.

(** Once the documentation is in the download directories, a second pass
    over the same references finds the same repositories and changes no
    directory. *)
Lemma loop_replay (root : string) (plugins : list string)
    (seen : gset string) (unknown : list _UnknownRow)
    (repositories : list (_GitHubRepositoryDetails * _GitHubRepository))
    (w w' later : World)
    (found : list _UnknownRow
             * list (_GitHubRepositoryDetails * _GitHubRepository)) :
  table_data_loop lib root plugins seen unknown repositories w = (Ok found, w') →
  directories w' ⊆ directories later →
  ∃ later',
    table_data_loop lib root plugins seen unknown repositories later
    = (Ok found, later')
    ∧ directories later' = directories later.
Proof.
  revert seen unknown repositories w later.
  induction plugins as [|url rest IH];
    intros seen unknown repositories w later Hloop Hsub.
  { injection Hloop as <- <-. by exists later. }
  destruct (_is_github url) eqn:Hurl.
  2:{ rewrite loop_unknown in * by done. by eapply IH. }
  rewrite loop_github in * by done.
  destruct (from_url lib url) as [request|]; [|done].
  destruct (repository_details lib request) as [details|]; [|done].
  case_bool_decide.
  { destruct (IH _ _ _ _ (requested request later) Hloop Hsub)
      as (later' & -> & Hsame). by exists later'. }
  destruct (_download_github_files lib details root (requested request w))
    as [[repository|] w1] eqn:Hdownload; [|done].
  destruct (download_files_spec lib _ _ _ _ _ Hdownload)
    as ((files & pages & Hfiles & Hpages & ->) & _).
  assert (directories (requested request later)
          !! download_directory root details = Some files) as Hcached.
  { eapply lookup_weaken; [|exact Hsub].
    eapply lookup_weaken; [exact Hfiles|].
    pose proof (loop_grows root rest ({[html_url details]} ∪ seen) unknown
                  (repositories
                   ++ [(details,
                        Build_Repository (download_directory root details)
                          pages (name details)
                          (owner_login details) (html_url details))]) w1)
      as Hgrows.
    by rewrite Hloop in Hgrows. }
  rewrite (download_files_cached lib _ _ _ files Hcached), Hpages.
  destruct (IH _ _ _ _ (requested request later) Hloop Hsub)
    as (later' & -> & Hsame). by exists later'.
Qed.

Lemma plugin_urls_references (data : string) (urls : option (list string)) :
  _get_plugin_urls lib data = Ok urls → Forall is_reference (default [] urls).
Proof.
  unfold _get_plugin_urls.
  destruct (_get_plugins_text lib data) as [[text|]|]; [| |done].
  2:{ by intros [= <-]. }
  unfold plugin_urls_of_text. destruct text as [|c text]; [by intros [= <-]|].
  destruct (parse_bullets _) as [output|] eqn:Hparse; [|done].
  intros [= <-]. eapply parse_bullets_references; [|exact Hparse].
  apply split_free.
Qed.

Lemma generate_empty (root : option string) (w : World) (data : string)
    (urls : option (list string)) :
  readme w = Some data →
  _get_plugin_urls lib data = Ok urls →
  Py.sorted (default [] urls) = [] →
  ∃ e, _generate_readme_text lib root w = (Raise e, w).
Proof.
  intros Hdata Hurls Hnil. unfold _generate_readme_text. run.
  rewrite Hdata. run. rewrite Hurls, Hnil. by eexists.
Qed.

(** What a run that composed a document went through. *)
Lemma generate_ok (root : option string) (w w' : World) (doc : string) :
  _generate_readme_text lib root w = (Ok doc, w') →
  ∃ tables middle,
    plugins_of lib w ≠ []
    ∧ Forall is_reference (plugins_of lib w)
    ∧ _get_table_data lib (plugins_of lib w) root w = (Ok tables, w')
    ∧ readme_middle tables = Ok middle
    ∧ doc = reader_header (today w) (plugins_of lib w)
            +:+ middle +:+ readme_footer.
Proof.
  intros Hrun. unfold plugins_of.
  destruct (readme w) as [data|] eqn:Hdata.
  2:{ unfold _generate_readme_text in Hrun. revert Hrun. run.
      by rewrite Hdata. }
  destruct (_get_plugin_urls lib data) as [urls|e] eqn:Hurls.
  2:{ by rewrite (generate_stops_at_parser lib root w data e) in Hrun. }
  destruct (decide (Py.sorted (default [] urls) = [])) as [Hnil|Hne].
  { destruct (generate_empty root w data urls Hdata Hurls Hnil) as [e He].
    congruence. }
  rewrite (generate_unfold lib root w data urls) in Hrun by done.
  destruct (_get_table_data lib _ root w) as [[tables|] w1]; [|done].
  destruct (readme_middle tables) as [middle|] eqn:Hmiddle; [|done].
  injection Hrun as <- <-. exists tables, middle.
  split; [done|]. split; [|done].
  unfold Py.sorted. rewrite merge_sort_Permutation.
  by eapply plugin_urls_references.
Qed.

(** What a run that ended well went through. *)
Lemma main_ok (args : list string) (w w1 : World) :
  _main lib args w = (Ok tt, w1) →
  ∃ directory w0 data composed,
    git_installed w = true
    ∧ _parse_arguments lib args w = (Ok directory, w0)
    ∧ readme w0 = readme w
    ∧ _generate_readme_text lib (Some directory) w0 = (Ok data, composed)
    ∧ file_write lib composed data = Written
    ∧ readme w1 = Some data.
Proof.
  rewrite main_unfold. destruct (git_installed w); [|done].
  pose proof (keeps_parse_arguments lib args w) as Hkept.
  destruct (_parse_arguments lib args w) as [[directory|] w0]; [|done].
  cbn [snd] in Hkept. destruct (readme w0) eqn:Hreadme; [|done].
  destruct (_generate_readme_text lib (Some directory) w0)
    as [[data|] composed] eqn:Hgenerate; [|done].
  rewrite write_readme_unfold.
  destruct (file_write lib composed data) eqn:Hwrite; [|done..].
  intros [= <-]. exists directory, w0, data, composed.
  repeat split; try done. congruence.
Qed.

Lemma keeps_today_parse_arguments (text : list string) :
  keeps today (_parse_arguments lib text).
Proof.
  assert (∀ path files, keeps today (set_directory path files)) by done.
  unfold _parse_arguments, mkdtemp. keeps.
Qed.



End Replay.





(** * Further properties of the script *)

(** ** Walking a syntax tree *)

Lemma preorder_unfold (node : Node) :
  preorder node = node :: flat_map preorder (children node).
Proof.
  by destruct node.
Qed.

Lemma node_count_unfold (node : Node) :
  node_count node = S (sum_list_with node_count (children node)).
Proof. by destruct node. Qed.

Lemma iter_stack_enough (fuel : nat) (stack : list Node) :
  (sum_list_with node_count stack ≤ fuel)%nat →
  iter_stack fuel stack = flat_map preorder stack
  ∧ length (flat_map preorder stack) = sum_list_with node_count stack.
Proof.
  revert stack. induction fuel as [|fuel IH]; intros [|node rest] Hfuel;
    try done; cbn [sum_list_with] in Hfuel;
    rewrite node_count_unfold in Hfuel; [lia|].
  destruct (IH (children node ++ rest)) as [Hwalk Hlength].
  { rewrite sum_list_with_app. lia. }
  cbn [iter_stack flat_map sum_list_with].
  rewrite preorder_unfold, node_count_unfold, Hwalk.
  rewrite flat_map_app in *. split; [done|].
  cbn [app length]. rewrite Hlength, sum_list_with_app. lia.
Qed.

(** X1: the stack walk of [_iter_all_nodes] yields the nodes of the tree in
    document order: the node itself first, then the subtree of each child
    from left to right.  The number of nodes is fuel enough, and more fuel
    changes nothing. *)
Theorem iter_all_nodes_is_preorder (node : Node) :
  _iter_all_nodes node = preorder node
  ∧ (∃ rest, _iter_all_nodes node = node :: rest)
  ∧ length (_iter_all_nodes node) = node_count node
  ∧ ∀ fuel, (node_count node ≤ fuel)%nat →
            iter_stack fuel [node] = _iter_all_nodes node.
Proof.
  assert (∀ fuel, (node_count node ≤ fuel)%nat →
                  iter_stack fuel [node] = preorder node
                  ∧ length (preorder node) = node_count node) as Henough.
  { intros fuel Hfuel. destruct (iter_stack_enough fuel [node]) as [-> Hlength].
    { cbn. lia. }
    cbn in *. rewrite app_nil_r in *. split; [done|]. lia. }
  unfold _iter_all_nodes.
  destruct (Henough (node_count node)) as [-> Hlength]; [done|].
  split; [done|]. split; [rewrite preorder_unfold; by eexists|].
  split; [done|]. intros fuel Hfuel. by destruct (Henough fuel Hfuel).
Qed.

Lemma first_of_type_spec (type_name : string) (nodes : list Node) :
  match first_of_type type_name nodes with
  | Some child =>
      ∃ before after,
        nodes = before ++ child :: after
        ∧ node_type child = type_name
        ∧ Forall (fun node => node_type node ≠ type_name) before
  | None => Forall (fun node => node_type node ≠ type_name) nodes
  end.
Proof.
  induction nodes as [|node rest IH]; [constructor|]. cbn.
  destruct (String.eqb_spec (node_type node) type_name) as [Heq|Hne].
  - exists [], rest. by repeat split.
  - destruct (first_of_type type_name rest) as [child|].
    + destruct IH as (before & after & -> & Htype & Hbefore).
      exists (node :: before), after. split; [done|]. split; [done|].
      by constructor.
    + by constructor.
Qed.

(** X2: [_get_first_child_of_type] returns the leftmost named child of the
    wanted type and never an unnamed one; it raises [ValueError] exactly
    when no named child has that type. *)
Theorem first_child_of_type_is_leftmost (lib : Collaborators) (node : Node)
    (type_name : string) :
  match _get_first_child_of_type lib node type_name with
  | Ok child =>
      is_named child = true
      ∧ node_type child = type_name
      ∧ ∃ before after,
          named_children node = before ++ child :: after
          ∧ Forall (fun other => node_type other ≠ type_name) before
  | Raise e =>
      e = no_child_of_type lib node type_name
      ∧ ∀ child, child ∈ children node → is_named child = true →
                 node_type child ≠ type_name
  end.
Proof.
  unfold _get_first_child_of_type.
  pose proof (first_of_type_spec type_name (named_children node)) as Hspec.
  destruct (first_of_type type_name (named_children node)) as [child|].
  - destruct Hspec as (before & after & Hnamed & Htype & Hbefore).
    split; [|split; [done|by exists before, after]].
    assert (child ∈ named_children node) as Hin.
    { rewrite Hnamed. apply elem_of_app. right. by left. }
    by apply list_elem_of_filter in Hin as [? _].
  - split; [done|]. intros child Hin Hnamed.
    rewrite Forall_forall in Hspec. apply Hspec.
    by apply list_elem_of_filter.
Qed.

Lemma descend_app (lib : Collaborators) (node : Node)
    (path1 path2 : list selector) :
  NodeWrapper.descend lib node (path1 ++ path2) =
    match NodeWrapper.descend lib node path1 with
    | Ok found => NodeWrapper.descend lib found path2
    | Raise e => Raise e
    end.
Proof.
  revert node. induction path1 as [|name rest IH]; intros node; [done|].
  cbn [app NodeWrapper.descend].
  destruct (match name with
            | ByType type_name => _get_first_child_of_type lib node type_name
            | ByIndex index =>
                match named_child lib node index with
                | Ok child => _verify child
                | Raise e => Raise e
                end
            end); [apply IH|done].
Qed.

(** X3: descending along a path and then along a second one is descending
    along both at once; the wrapper keeps its data all the way; a step
    that finds no child stops the descent: with [ValueError] for a type no
    named child has, with tree-sitter's own error for a position it
    refuses, and with [RuntimeError] for a position at which it has no
    node. *)
Theorem wrapper_get_composes (lib : Collaborators) (wrapper : _NodeWrapper)
    (path1 path2 : list selector) :
  NodeWrapper.get lib wrapper (path1 ++ path2) =
    match NodeWrapper.get lib wrapper path1 with
    | Ok found => NodeWrapper.get lib found path2
    | Raise e => Raise e
    end
  ∧ (∀ found, NodeWrapper.get lib wrapper path1 = Ok found →
              wrapped_data found = wrapped_data wrapper)
  ∧ (∀ type_name,
       first_of_type type_name (named_children (wrapped_node wrapper)) = None →
       NodeWrapper.get lib wrapper (ByType type_name :: path2)
       = Raise (no_child_of_type lib (wrapped_node wrapper) type_name))
  ∧ (∀ index e,
       named_child lib (wrapped_node wrapper) index = Raise e →
       NodeWrapper.get lib wrapper (ByIndex index :: path2) = Raise e)
  ∧ (∀ index,
       named_child lib (wrapped_node wrapper) index = Ok None →
       NodeWrapper.get lib wrapper (ByIndex index :: path2)
       = Raise (RuntimeError "Expected a value but found None."))
  ∧ (∀ index child,
       named_child lib (wrapped_node wrapper) index = Ok (Some child) →
       NodeWrapper.get lib wrapper (ByIndex index :: path2)
       = NodeWrapper.get lib (Build_NodeWrapper child (wrapped_data wrapper))
                         path2).
Proof.
  unfold NodeWrapper.get. split; [|split; [|split; [|split; [|split]]]].
  - rewrite descend_app.
    by destruct (NodeWrapper.descend lib (wrapped_node wrapper) path1).
  - intros found.
    destruct (NodeWrapper.descend lib (wrapped_node wrapper) path1); [|done].
    by intros [= <-].
  - intros type_name Hnone. cbn [NodeWrapper.descend].
    unfold _get_first_child_of_type. by rewrite Hnone.
  - intros index e Hrefused. cbn [NodeWrapper.descend]. by rewrite Hrefused.
  - intros index Hnone. cbn [NodeWrapper.descend]. by rewrite Hnone.
  - intros index child Hchild. cbn [NodeWrapper.descend]. by rewrite Hchild.
Qed.

(** ** Cropping text *)

(** X4: with room for the ellipsis (a limit of 3 or more) the cropped text
    never exceeds the limit, starts as the text does, and cropping it again
    changes nothing. *)
Theorem ellided_text_fits (text : string) (max : Z) :
  3 ≤ max →
  Py.len (_get_ellided_text text max) ≤ max
  ∧ Py.take (Z.to_nat (max - 3)) (_get_ellided_text text max)
    = Py.take (Z.to_nat (max - 3)) text
  ∧ _get_ellided_text (_get_ellided_text text max) max
    = _get_ellided_text text max.
Proof.
  intros Hmax. destruct (Z.le_gt_cases (Py.len text) max) as [Hle|Hgt].
  - rewrite !ellided_short by (rewrite ?ellided_short; done). done.
  - destruct (ellided_long text max Hmax) as [Heq Hlen]; [lia|].
    split; [lia|]. split.
    + rewrite Heq, take_append, take_take; [done|].
      rewrite length_take; unfold Py.len in *; lia.
    + apply ellided_short. lia.
Qed.

Lemma ellided_text_fits_witness :
  Py.len (_get_ellided_text "some long string" 7) ≤ 7
  ∧ Py.take (Z.to_nat (7 - 3)) (_get_ellided_text "some long string" 7)
    = Py.take (Z.to_nat (7 - 3)) "some long string"
  ∧ _get_ellided_text (_get_ellided_text "some long string" 7) 7
    = _get_ellided_text "some long string" 7.
Proof. apply (ellided_text_fits "some long string" 7). lia. Defined.

(** X5: a limit below 3 leaves no room for the ellipsis: a text longer than
    the limit is cropped by counting from its end and comes out longer than
    the limit, never shorter than the ellipsis itself. *)
Theorem ellided_text_overflows (text : string) (max : Z) :
  max < 3 →
  max < Py.len text →
  Py.len (_get_ellided_text text max)
  = Z.max 0 (Py.len text + (max - 3)) + 3
  ∧ max < Py.len (_get_ellided_text text max).
Proof.
  intros Hmax Hlen. unfold _get_ellided_text.
  destruct (Z.leb_spec (Py.len text) max); [lia|].
  change (Py.len "...") with 3. unfold Py.slice_to.
  destruct (Z.leb_spec 0 (max - 3)); [lia|].
  unfold Py.len in *. rewrite length_append, length_take_le.
  cbn [String.length]. lia.
Qed.

Lemma ellided_text_overflows_witness :
  Py.len (_get_ellided_text "some long string" 2)
  = Z.max 0 (Py.len "some long string" + (2 - 3)) + 3
  ∧ 2 < Py.len (_get_ellided_text "some long string" 2).
Proof.
  apply (ellided_text_overflows "some long string" 2); [lia|].
  vm_compute. reflexivity.
Defined.

(** X6: a description summary, when there is one, has between 1 and 80
    characters, and the second cropping in [_get_github_table_rows] leaves
    it as it is: the row carries the summary itself. *)
Theorem row_carries_the_summary (lib : Collaborators)
    (details : _GitHubRepositoryDetails) (repository : _GitHubRepository)
    (row : _GitHubRow) :
  github_row lib details repository = Ok row →
  row_description row = _get_description_summary details
  ∧ ∀ summary, _get_description_summary details = Some summary →
               1 ≤ Py.len summary ≤ 80.
Proof.
  intros Hrow.
  assert (∀ summary, _get_description_summary details = Some summary →
                     1 ≤ Py.len summary ≤ 80) as Hbounds.
  { intros summary. unfold _get_description_summary, _DESCRIPTION_LENGTH.
    destruct (description details) as [[|c text]|]; [done| |done].
    destruct (Z.leb_spec (Py.len (String c text)) 80) as [Hle|Hgt];
      intros [= <-].
    - split; [|done]. unfold Py.len. cbn. lia.
    - destruct (ellided_long (String c text) 80) as [_ ->]; lia. }
  split; [|done]. unfold github_row in Hrow.
  destruct (_get_last_commit_date lib details); [|done].
  injection Hrow as <-. cbn [row_description].
  destruct (_get_description_summary details) as [summary|] eqn:E; [|done].
  rewrite ellided_short; [done|]. unfold _DESCRIPTION_LENGTH.
  by apply Hbounds.
Qed.

Lemma row_carries_the_summary_witness :
  ∃ row,
    github_row Example.lib Example.foo_bar
      (Build_Repository "/tmp/r/foo/bar" [] "bar" "foo"
                        "https://github.com/foo/bar") = Ok row
    ∧ row_description row = _get_description_summary Example.foo_bar
    ∧ ∀ summary, _get_description_summary Example.foo_bar = Some summary →
                 1 ≤ Py.len summary ≤ 80.
Proof.
  eexists. split; [vm_compute; reflexivity|].
  apply (row_carries_the_summary Example.lib Example.foo_bar
           (Build_Repository "/tmp/r/foo/bar" [] "bar" "foo"
                             "https://github.com/foo/bar")).
  vm_compute. reflexivity.
Defined.

(** ** Detecting models *)

Lemma model_found_iff (documentation : list string) (model : _Model) :
  model ∈ _get_models documentation ↔
  model ∈ _MODELS ∧ ∃ page, page ∈ documentation ∧ mentions page model.
Proof.
  unfold _get_models. rewrite list_elem_of_filter.
  rewrite Is_true_true, existsb_exists. split.
  - intros [(page & Hpage & Hterm) Hmodel]. split; [done|].
    exists page. split; [by apply list_elem_of_In|].
    apply existsb_exists in Hterm as (term & Hterm & Hfound).
    apply andb_prop in Hfound as [Hne Hfound].
    exists term. split; [by apply list_elem_of_In|]. split; [|done].
    intros ->. done.
  - intros [Hmodel (page & Hpage & term & Hterm & Hne & Hfound)].
    split; [|done]. exists page. split; [by apply list_elem_of_In|].
    apply existsb_exists. exists term. split; [by apply list_elem_of_In|].
    rewrite Hfound, andb_true_r.
    by destruct (String.eqb_spec term "").
Qed.

(** X7: the models found are those of [_MODELS] that some page mentions: a
    sublist of [_MODELS], each model at most once; no page, no model; and
    the models of two sets of pages together are those of either. *)
Theorem models_are_found_page_by_page (pages1 pages2 : list string) :
  _get_models pages1 `sublist_of` _MODELS
  ∧ NoDup (_get_models pages1)
  ∧ _get_models [] = []
  ∧ (∀ model, model ∈ _get_models pages1 ↔
              model ∈ _MODELS ∧ ∃ page, page ∈ pages1 ∧ mentions page model)
  ∧ ∀ model, model ∈ _get_models (pages1 ++ pages2) ↔
             model ∈ _get_models pages1 ∨ model ∈ _get_models pages2.
Proof.
  assert (NoDup _MODELS) as Hmodels.
  { apply NoDup_ListNoDup. repeat constructor; cbn; intuition discriminate. }
  split; [apply sublist_filter|].
  split; [by apply NoDup_filter|].
  split; [done|]. split; [apply model_found_iff|].
  intros model. rewrite !model_found_iff. split.
  - intros [Hmodel (page & [Hpage|Hpage]%elem_of_app & Hmentions)];
      [left|right]; (split; [done|]); by exists page.
  - intros [[Hmodel (page & Hpage & Hmentions)]
           |[Hmodel (page & Hpage & Hmentions)]];
      (split; [done|]); exists page; (split; [|done]);
      apply elem_of_app; [by left|by right].
Qed.

Lemma get_models_lowered (pages : list string) :
  _get_models pages =
    filter (fun model =>
              existsb (fun lowered =>
                         existsb (fun term =>
                                    negb (String.eqb term "")
                                    && Py.contains term lowered)
                                 (get_search_terms model))
                      (Py.lower <$> pages))
           _MODELS.
Proof.
  unfold _get_models. apply list_filter_iff. intros model.
  induction pages as [|page rest IH]; [done|].
  cbn [existsb fmap list_fmap]. by rewrite !orb_True, IH.
Qed.

(** X8: letter case does not matter.  Pages that are the same once
    lowercased give the same models; and of such pages, one that contains
    a search term of a model, in any case, has that model found. *)
Theorem models_ignore_letter_case (pages1 pages2 : list string) :
  Py.lower <$> pages1 = Py.lower <$> pages2 →
  _get_models pages1 = _get_models pages2
  ∧ ∀ model term page,
      model ∈ _MODELS → term ∈ get_search_terms model → term ≠ "" →
      page ∈ pages1 → Py.contains term (Py.lower page) = true →
      model ∈ _get_models pages1 ∧ model ∈ _get_models pages2.
Proof.
  intros Hsame.
  assert (_get_models pages1 = _get_models pages2) as Heq.
  { by rewrite (get_models_lowered pages1), (get_models_lowered pages2), Hsame. }
  split; [done|]. intros model term page Hmodel Hterm Hne Hpage Hfound.
  rewrite <-Heq. split; apply model_found_iff;
    (split; [done|]); exists page; (split; [done|]); by exists term.
Qed.

Lemma models_ignore_letter_case_witness :
  _get_models ["Chat with CLAUDE."; "x"] = _get_models ["chat with claude."; "X"]
  ∧ ∀ model term page,
      model ∈ _MODELS → term ∈ get_search_terms model → term ≠ "" →
      page ∈ ["Chat with CLAUDE."; "x"] →
      Py.contains term (Py.lower page) = true →
      model ∈ _get_models ["Chat with CLAUDE."; "x"]
      ∧ model ∈ _get_models ["chat with claude."; "X"].
Proof.
  apply (models_ignore_letter_case ["Chat with CLAUDE."; "x"]
           ["chat with claude."; "X"]).
  vm_compute. reflexivity.
Defined.

(** ** Splitting and joining *)

Lemma split_cons (sep : ascii) (s : string) :
  ∃ part parts, Py.split sep s = part :: parts.
Proof.
  induction s as [|c s (part & parts & IH)]; [by exists "", []|]. cbn.
  destruct (Ascii.eqb c sep); [by eexists _, _|].
  rewrite IH. by eexists _, _.
Qed.

Lemma join_two (sep part : string) (next : string) (parts : list string) :
  Py.join sep (part :: next :: parts)
  = part +:+ sep +:+ Py.join sep (next :: parts).
Proof. reflexivity. Qed.

Lemma join_split (sep : ascii) (s : string) :
  Py.join (String sep "") (Py.split sep s) = s.
Proof.
  induction s as [|c s IH]; [done|]. cbn [Py.split].
  destruct (split_cons sep s) as (part & parts & Hsplit).
  rewrite Hsplit in *. destruct (Ascii.eqb_spec c sep) as [->|Hne].
  - rewrite join_two, IH. done.
  - destruct parts as [|next parts].
    + cbn in *. by rewrite IH.
    + rewrite join_two in *. by rewrite append_cons, IH.
Qed.

Lemma split_app_sep (sep : ascii) (a b : string) :
  Py.split sep (a +:+ String sep b) = Py.split sep a ++ Py.split sep b.
Proof.
  induction a as [|c a IH].
  - change ("" +:+ String sep b) with (String sep b). cbn [Py.split].
    by rewrite Ascii.eqb_refl.
  - rewrite append_cons. cbn [Py.split]. rewrite IH.
    destruct (Ascii.eqb c sep); [done|].
    by destruct (split_cons sep a) as (part & parts & ->).
Qed.

Lemma last_app_split (sep : ascii) (parts : list string) (s : string) :
  List.last (parts ++ Py.split sep s) "" = List.last (Py.split sep s) "".
Proof.
  destruct (split_cons sep s) as (part & rest & ->).
  induction parts as [|p parts IH]; [done|].
  cbn [app]. rewrite <-IH. by destruct parts.
Qed.

Lemma basename_after_slash (directory name : string) :
  Path.basename (directory +:+ "/" +:+ name) = Path.basename name.
Proof.
  unfold Path.basename.
  change (directory +:+ "/" +:+ name) with (directory +:+ String "/" name).
  by rewrite split_app_sep, last_app_split.
Qed.

Lemma basename_plain (name : string) :
  has_char "/" name = false → Path.basename name = name.
Proof. intros Hfree. unfold Path.basename. by rewrite split_single. Qed.

Lemma basename_free (path : string) :
  has_char "/" (Path.basename path) = false.
Proof.
  unfold Path.basename. pose proof (split_free "/" path) as Hfree.
  destruct (split_cons "/" path) as (part & parts & Hsplit).
  rewrite Hsplit in *. clear Hsplit. revert part Hfree.
  induction parts as [|next parts IH]; intros part Hfree.
  - by apply Forall_cons in Hfree as [? _].
  - apply Forall_cons in Hfree as [_ Hfree]. by apply IH.
Qed.

Lemma basename_idemp (path : string) :
  Path.basename (Path.basename path) = Path.basename path.
Proof. apply basename_plain, basename_free. Qed.

Lemma is_readme_basename (path : string) :
  _is_readme (Path.basename path) = _is_readme path.
Proof. unfold _is_readme. by rewrite basename_idemp. Qed.

(** X9: only the file name decides whether a path is a README: the
    directories in front of it do not matter, at any depth. *)
Theorem readme_wherever_it_lies (directory name : string) :
  _is_readme (directory +:+ "/" +:+ name) = _is_readme name
  ∧ _is_readme (Path.basename name) = _is_readme name.
Proof.
  split; [|apply is_readme_basename].
  unfold _is_readme. by rewrite basename_after_slash.
Qed.

Lemma lower_char_keeps (mark c : ascii) :
  mark = "/"%char ∨ mark = "."%char →
  bool_decide (mark = Py.lower_char c) = bool_decide (mark = c).
Proof.
  intros [-> | ->]; by destruct c as [[] [] [] [] [] [] [] []].
Qed.

Lemma has_char_lower (mark : ascii) (s : string) :
  mark = "/"%char ∨ mark = "."%char →
  has_char mark (Py.lower s) = has_char mark s.
Proof.
  intros Hmark. induction s as [|c s IH]; [done|]. cbn.
  by rewrite lower_char_keeps, IH.
Qed.

Lemma splitext_root_plain (stem ext : string) :
  stem ≠ "" → has_char "." stem = false → has_char "." ext = false →
  Path.splitext_root (stem +:+ "." +:+ ext) = stem
  ∧ Path.splitext_root stem = stem.
Proof.
  intros Hne Hstem Hext. unfold Path.splitext_root.
  assert (∀ rest, Path.lstrip_dots (stem +:+ rest) = stem +:+ rest) as Hdots.
  { intros rest. destruct stem as [|c stem]; [done|].
    cbn in Hstem. apply orb_false_elim in Hstem as [Hc _].
    apply bool_decide_eq_false_1 in Hc. rewrite append_cons.
    clear -Hc. by destruct c as [[] [] [] [] [] [] [] []]. }
  split.
  - rewrite Hdots.
    change (stem +:+ "." +:+ ext) with (stem +:+ String "." ext).
    rewrite split_app_sep, !split_single by done. cbn.
    by rewrite Nat.sub_diag.
  - pose proof (Hdots "") as Hdots'. rewrite append_empty_r in Hdots'.
    rewrite Hdots'. by rewrite split_single.
Qed.

(** X10: a file is a README whatever the case of its letters and whatever
    its extension: a name that reads [readme] once lowercased is one, alone
    or followed by a dot and any extension without a dot or a slash. *)
Theorem readme_in_any_case (stem ext : string) :
  Py.lower stem = "readme" →
  has_char "." ext = false →
  has_char "/" ext = false →
  _is_readme stem = true ∧ _is_readme (stem +:+ "." +:+ ext) = true.
Proof.
  intros Hlower Hdot Hslash.
  assert (has_char "/" stem = false) as Hstem_slash.
  { by rewrite <-(has_char_lower "/" stem), Hlower by auto. }
  assert (has_char "." stem = false) as Hstem_dot.
  { by rewrite <-(has_char_lower "." stem), Hlower by auto. }
  assert (stem ≠ "") as Hne by (by intros ->).
  destruct (splitext_root_plain stem ext Hne Hstem_dot Hdot) as [Hext Hplain].
  unfold _is_readme. split.
  - by rewrite basename_plain, Hplain, Hlower.
  - rewrite basename_plain, Hext, Hlower; [done|].
    rewrite !has_char_app, Hstem_slash, Hslash. done.
Qed.

Lemma readme_in_any_case_witness :
  _is_readme "ReadMe" = true ∧ _is_readme ("ReadMe" +:+ "." +:+ "rst") = true.
Proof. apply (readme_in_any_case "ReadMe" "rst"); reflexivity. Defined.

(** ** What a download leaves behind *)

Lemma write_file_names (name content : string)
    (files : list (string * string)) :
  (write_file name content files).*1
  = if bool_decide (name ∈ files.*1) then files.*1 else files.*1 ++ [name].
Proof.
  induction files as [|[n c] files IH].
  { cbn. by rewrite bool_decide_eq_false_2 by (by intros ?%elem_of_nil). }
  cbn [write_file]. destruct (String.eqb_spec n name) as [->|Hne].
  - cbn. by rewrite bool_decide_eq_true_2 by (by left).
  - cbn [fmap list_fmap fst]. rewrite IH. case_bool_decide as Hin.
    + by rewrite bool_decide_eq_true_2 by (by right).
    + rewrite bool_decide_eq_false_2; [done|].
      intros [?|?]%elem_of_cons; done.
Qed.

Lemma write_file_readme (name content : string)
    (files : list (string * string)) :
  _is_readme name = true →
  Forall (fun file => _is_readme file.1 = true) files →
  Forall (fun file => _is_readme file.1 = true) (write_file name content files).
Proof.
  intros Hname. induction 1 as [|[n c] files Hn Hfiles IH];
    [constructor; [done|constructor]|].
  cbn [write_file]. destruct (String.eqb n name); by constructor.
Qed.

Lemma write_file_nodup (name content : string)
    (files : list (string * string)) :
  NoDup files.*1 → NoDup (write_file name content files).*1.
Proof.
  intros Hnodup. rewrite write_file_names. case_bool_decide; [done|].
  apply NoDup_app. split; [done|]. split; [|apply NoDup_singleton].
  by intros n Hn ->%list_elem_of_singleton.
Qed.

Lemma pages_of_readmes (lib : Collaborators) (files : list (string * string)) :
  Forall (fun file => _is_readme file.1 = true) files →
  documentation_pages lib files = read_all lib files.*2.
Proof.
  induction 1 as [|[name content] files Hfile _ IH]; [done|].
  cbn in *. by rewrite Hfile, IH.
Qed.

Section Directory.

Context (lib : Collaborators).

Lemma download_items_invariant (base_url directory : string)
    (items : list _GitHubTreeResult) (w : World)
    (files : list (string * string)) :
  directories w !! directory = Some files →
  NoDup files.*1 →
  Forall (fun file => _is_readme file.1 = true) files →
  ∃ files',
    directories (download_items lib base_url directory items w).2 !! directory
    = Some files'
    ∧ NoDup files'.*1
    ∧ Forall (fun file => _is_readme file.1 = true) files'.
Proof.
  revert w files. induction items as [|item rest IH];
    intros w files Hfiles Hnodup Hreadme; [by exists files|].
  rewrite download_items_step.
  destruct (negb (String.eqb (tree_type item) "blob")); [by eapply IH|].
  destruct (_is_readme (tree_path item)) eqn:Hitem; [|by eapply IH].
  cbn [negb orb].
  destruct (raw_file lib _) as [content|]; [|by exists files].
  rewrite Hfiles. cbn [default from_option id].
  eapply IH.
  - cbn. by rewrite lookup_insert_eq.
  - by apply write_file_nodup.
  - apply write_file_readme; [|done]. by rewrite is_readme_basename.
Qed.

(** X11: a download into a directory that did not exist leaves, whether it
    succeeds or fails, a directory that holds only READMEs, no two under
    the same name (a README deeper in the repository takes the place of
    one with the same file name), so that [_find_documentation] reads
    every file in it, in their order: the pages are the files as text, or
    the error is that of the first file that cannot be decoded. *)
Theorem download_leaves_one_readme_per_name
    (details : _GitHubRepositoryDetails) (base_url directory : string)
    (w : World) :
  directories w !! directory = None →
  ∃ files,
    directories (_download_github_documentation_files
                   lib details base_url directory w).2 !! directory
    = Some files
    ∧ NoDup files.*1
    ∧ Forall (fun file => _is_readme file.1 = true) files
    ∧ documentation_pages lib files = read_all lib files.*2.
Proof.
  intros Hnone. rewrite download_documentation_unfold. cbv zeta.
  rewrite Hnone.
  assert (∃ files,
            directories
              (match repository_file_tree lib details with
               | Ok items =>
                   download_items lib base_url directory items
                     (set_directory directory [] w).2
               | Raise e => (Raise e, (set_directory directory [] w).2)
               end).2 !! directory = Some files
            ∧ NoDup files.*1
            ∧ Forall (fun file => _is_readme file.1 = true) files)
    as (files & Hfiles & Hnodup & Hreadme).
  { assert (directories (set_directory directory [] w).2 !! directory
            = Some []) as Hmade by (cbn; by rewrite lookup_insert_eq).
    destruct (repository_file_tree lib details) as [items|].
    - eapply download_items_invariant; [done|constructor|constructor].
    - exists []. split; [done|]. split; constructor. }
  exists files. split; [|split; [done|split; [done|by apply pages_of_readmes]]].
  by destruct (repository_file_tree lib details).
Qed.

(** X12: a download that fails leaves its directory behind, and the
    directory is all the script looks for next time: from any world that
    has it, [_download_github_files] downloads nothing, changes nothing
    and returns what reading the directory gives, the repository with the
    pages read or the error of a file that cannot be decoded. *)
Theorem failed_download_is_taken_for_done
    (details : _GitHubRepositoryDetails) (root : string) (w : World)
    (e : exception) :
  directories w !! download_directory root details = None →
  (_download_github_files lib details root w).1 = Raise e →
  ∃ files,
    directories (_download_github_files lib details root w).2
    !! download_directory root details = Some files
    ∧ ∀ later,
        directories later !! download_directory root details = Some files →
        _download_github_files lib details root later
        = (match documentation_pages lib files with
           | Ok pages =>
               Ok (Build_Repository (download_directory root details) pages
                                    (name details) (owner_login details)
                                    (html_url details))
           | Raise e => Raise e
           end, later).
Proof.
  intros Hnone Hraise. rewrite download_files_unfold in *. cbv zeta in *.
  rewrite Hnone in *.
  set (recorded := (record_event _ w).2) in *.
  set (base_url := "https://raw.githubusercontent.com/" +:+ _) in *.
  destruct (download_documentation_spec lib details base_url
              (download_directory root details) recorded)
    as (_ & [files Hfiles] & _).
  exists files. split.
  - destruct (_download_github_documentation_files lib details base_url _
                recorded) as [[[]|e'] w1]; cbn [fst snd] in *; [|done].
    rewrite Hfiles in *. by destruct (documentation_pages lib files).
  - intros later Hlater. by apply download_files_cached.
Qed.

End Directory.

Lemma download_leaves_one_readme_per_name_witness :
  ∃ files,
    directories (_download_github_documentation_files Example.lib
                   Example.foo_bar "https://raw.githubusercontent.com/foo/bar/main"
                   "/tmp/r/foo/bar" (Example.world "" "2025-01-01")).2
    !! "/tmp/r/foo/bar" = Some files
    ∧ NoDup files.*1
    ∧ Forall (fun file => _is_readme file.1 = true) files
    ∧ documentation_pages Example.lib files = read_all Example.lib files.*2.
Proof.
  apply (download_leaves_one_readme_per_name Example.lib Example.foo_bar
           "https://raw.githubusercontent.com/foo/bar/main" "/tmp/r/foo/bar"
           (Example.world "" "2025-01-01")).
  reflexivity.
Defined.

Lemma failed_download_is_taken_for_done_witness :
  ∃ files,
    directories (_download_github_files Example.offline Example.foo_bar
                   "/tmp/r" (Example.world "" "2025-01-01")).2
    !! download_directory "/tmp/r" Example.foo_bar = Some files
    ∧ ∀ later,
        directories later !! download_directory "/tmp/r" Example.foo_bar
        = Some files →
        _download_github_files Example.offline Example.foo_bar "/tmp/r" later
        = (match documentation_pages Example.offline files with
           | Ok pages =>
               Ok (Build_Repository
                     (download_directory "/tmp/r" Example.foo_bar) pages
                     (name Example.foo_bar) (owner_login Example.foo_bar)
                     (html_url Example.foo_bar))
           | Raise e => Raise e
           end, later).
Proof.
  apply (failed_download_is_taken_for_done Example.offline Example.foo_bar
           "/tmp/r" (Example.world "" "2025-01-01")
           (HTTPError "503 Server Error")).
  - reflexivity.
  - vm_compute. reflexivity.
Defined.

(** ** The repository a URL asks for *)

Lemma join_app (sep : string) (parts1 parts2 : list string) :
  parts1 ≠ [] → parts2 ≠ [] →
  Py.join sep (parts1 ++ parts2)
  = Py.join sep parts1 +:+ sep +:+ Py.join sep parts2.
Proof.
  intros Hne1 Hne2. induction parts1 as [|part parts1 IH]; [done|].
  destruct parts1 as [|next parts1].
  - destruct parts2; [done|]. reflexivity.
  - cbn [app] in *. rewrite !join_two, IH by done. by rewrite !append_assoc.
Qed.

(** X13: [from_url] takes the two last pieces of the URL's path, cut at
    its slashes: the name is what follows the last slash, the owner what
    lies between the two last slashes (or before the only one).  A path
    without a slash raises [IndexError], and nothing else does. *)
Theorem from_url_takes_the_last_two_pieces (lib : Collaborators)
    (url : string) :
  (from_url lib url = Raise IndexError ↔
   has_char "/" (urlparse_path lib url) = false)
  ∧ ∀ request,
      from_url lib url = Ok request →
      has_char "/" (request_owner request) = false
      ∧ has_char "/" (request_name request) = false
      ∧ ∃ before,
          urlparse_path lib url
          = before +:+ request_owner request +:+ "/" +:+ request_name request
          ∧ (before = "" ∨ ∃ front, before = front +:+ "/").
Proof.
  unfold from_url.
  pose proof (join_split "/" (urlparse_path lib url)) as Hjoin.
  pose proof (split_free "/" (urlparse_path lib url)) as Hfree.
  destruct (List.rev (Py.split "/" (urlparse_path lib url)))
    as [|name [|owner rest]] eqn:Hrev.
  - apply (f_equal (@List.rev _)) in Hrev. rewrite rev_involutive in Hrev.
    destruct (split_cons "/" (urlparse_path lib url)) as (? & ? & ?).
    cbn in Hrev. congruence.
  - apply (f_equal (@List.rev _)) in Hrev. rewrite rev_involutive in Hrev.
    cbn in Hrev. rewrite Hrev in *. cbn in Hjoin.
    apply Forall_cons in Hfree as [Hname _]. rewrite <-Hjoin.
    split; [done|]. intros request [=].
  - apply (f_equal (@List.rev _)) in Hrev. rewrite rev_involutive in Hrev.
    cbn [List.rev] in Hrev. rewrite <-app_assoc in Hrev. cbn [app] in Hrev.
    rewrite Hrev in *.
    apply Forall_app in Hfree as [_ Hfree].
    apply Forall_cons in Hfree as [Howner Hfree].
    apply Forall_cons in Hfree as [Hname _].
    assert (∃ before,
              urlparse_path lib url = before +:+ owner +:+ "/" +:+ name
              ∧ (before = "" ∨ ∃ front, before = front +:+ "/"))
      as (before & Hpath & Hbefore).
    { rewrite <-Hjoin. destruct (List.rev rest) as [|first others] eqn:Hrest.
      - exists "". split; [done|by left].
      - exists (Py.join "/" (first :: others) +:+ "/").
        rewrite join_app by done. rewrite join_two.
        split; [by rewrite !append_assoc|]. right. by eexists. }
    split.
    + split; [done|]. rewrite Hpath, !has_char_app. cbn.
      rewrite !orb_true_r. done.
    + intros request [= <-]. cbn. split; [done|]. split; [done|].
      by exists before.
Qed.

Example from_url_of_two_spellings :
  from_url Example.lib "https://github.com/foo/bar" = Ok (Build_Request "foo" "bar")
  ∧ from_url Example.lib "https://github.com/foo/bar/" = Ok (Build_Request "bar" "")
  ∧ from_url Example.lib "git@github.com:foo/bar"
    = Ok (Build_Request "git@github.com:foo" "bar").
Proof. repeat split; vm_compute; reflexivity. Qed.

(** ** What the tables of a run always hold *)

Section NeverEmpty.

Context (lib : Collaborators).

Lemma loop_resolves (root : string) (plugins : list string)
    (seen : gset string) (unknown : list _UnknownRow)
    (repositories : list (_GitHubRepositoryDetails * _GitHubRepository))
    (w w' : World)
    (found : list _UnknownRow
             * list (_GitHubRepositoryDetails * _GitHubRepository)) :
  table_data_loop lib root plugins seen unknown repositories w = (Ok found, w') →
  ∀ url, url ∈ plugins → is_github_reference url →
         ∃ identity, resolves_to lib url identity.
Proof.
  revert seen unknown repositories w.
  induction plugins as [|first rest IH];
    intros seen unknown repositories w Hloop url Hin Hurl.
  { by apply elem_of_nil in Hin. }
  destruct (_is_github first) eqn:Hfirst.
  2:{ rewrite loop_unknown in Hloop by done.
      apply elem_of_cons in Hin as [->|Hin]; [|by eapply IH].
      unfold is_github_reference in Hurl. congruence. }
  rewrite loop_github in Hloop by done.
  destruct (from_url lib first) as [request|] eqn:Hrequest; [|done].
  destruct (repository_details lib request) as [details|] eqn:Hdetails; [|done].
  apply elem_of_cons in Hin as [->|Hin].
  { exists (html_url details). by exists request, details. }
  case_bool_decide; [by eapply IH|].
  destruct (_download_github_files lib details root _) as [[repository|] w1];
    [by eapply IH|done].
Qed.

(** X14: the tables made from a list that is not empty are never empty, so
    that the branch of [_generate_readme_text] for empty tables is never
    taken: whatever lies between header and footer starts with two line
    breaks, or the run has raised. *)
Theorem tables_of_references_are_not_empty (plugins : list string)
    (root : option string) (w w' : World) (tables : _Tables) :
  plugins ≠ [] →
  _get_table_data lib plugins root w = (Ok tables, w') →
  is_empty tables = false
  ∧ ∀ middle, readme_middle tables = Ok middle →
              ∃ blocks, middle = Py.nl +:+ Py.nl +:+ blocks.
Proof.
  intros Hne Hrun.
  assert (is_empty tables = false) as Hempty.
  { destruct (table_data_unknown lib _ _ _ _ _ Hrun) as [Hunknown _].
    unfold is_empty. apply andb_false_iff.
    destruct plugins as [|url rest]; [done|].
    destruct (_is_github url) eqn:Hurl.
    - left. apply bool_decide_eq_false_2.
      destruct (table_data_ok lib _ _ _ _ _ Hrun)
        as (directory & w0 & found & _ & Hloop & Hout & _).
      apply github_table_rows_spec in Hout as (rows & Hrows & ->).
      destruct (loop_resolves _ _ _ _ _ _ _ _ Hloop url) as [identity Hid];
        [by left|done|].
      destruct (loop_identities lib _ _ _ _ _ _ _ _ nothing_seen NoDup_nil_2
                  Hloop) as (_ & Hids & _).
      assert (identity ∈ identities found.2) as Hin.
      { apply Hids. right. exists url. split; [by left|done]. }
      destruct rows as [|row rows].
      + apply Forall2_nil_inv_r in Hrows. rewrite Hrows in Hin.
        by apply elem_of_nil in Hin.
      + intros Hmap. apply (f_equal (lookup "unknown")) in Hmap.
        by rewrite lookup_singleton_eq, lookup_empty in Hmap.
    - right. apply bool_decide_eq_false_2. rewrite Hunknown.
      by rewrite filter_cons_True. }
  split; [done|]. intros middle. unfold readme_middle. rewrite Hempty.
  destruct (_get_tables_as_lines tables); [|done].
  intros [= <-]. by eexists.
Qed.

(** X15: a run whose document has no block with the marker, or has a
    fenced text without a bullet in it, stops with [RuntimeError] before
    anything is asked of GitHub: no request, no download, the document as
    it was.  A fence with no text in it is another matter: when tree-sitter
    gives the block no content node, the lookup of that node raises
    [ValueError], and the run stops with this error. *)
Theorem empty_list_stops_the_run (args : list string) (w w0 : World)
    (data directory : string) :
  git_installed w = true →
  _parse_arguments lib args w = (Ok directory, w0) →
  readme w = Some data →
  let nodes := _iter_all_nodes (parse_markdown lib data) in
  let no_list :=
    RuntimeError ("Path " +:+ Py.dq +:+ readme_path lib +:+ Py.dq
                  +:+ " has no parseable plugins list.") in
  readme w0 = Some data
  ∧ trace w0 = trace w
  ∧ (∀ urls, _get_plugin_urls lib data = Ok urls → default [] urls = [] →
             _main lib args w = (Raise no_list, w0))
  ∧ (plugins_block lib data nodes = Ok None →
     _main lib args w = (Raise no_list, w0))
  ∧ (∀ wrapper,
       plugins_block lib data nodes = Ok (Some wrapper) →
       first_of_type "code_fence_content"
                     (named_children (wrapped_node wrapper)) = None →
       _main lib args w
       = (Raise (no_child_of_type lib (wrapped_node wrapper)
                                  "code_fence_content"), w0)).
Proof.
  intros Hgit Hargs Hdata nodes no_list.
  assert (readme w0 = Some data) as Hdata0
    by (by rewrite <-Hdata, <-(keeps_parse_arguments lib args w), Hargs).
  assert (trace w0 = trace w) as Htrace
    by (by rewrite <-(keeps_trace_parse_arguments lib args w), Hargs).
  assert (∀ urls, _get_plugin_urls lib data = Ok urls → default [] urls = [] →
                  _main lib args w = (Raise no_list, w0)) as Hempty.
  { intros urls Hurls Hnone. rewrite main_unfold, Hgit, Hargs, Hdata0.
    unfold _generate_readme_text. run. rewrite Hdata0. run.
    by rewrite Hurls, Hnone. }
  split; [done|]. split; [done|]. split; [done|]. split.
  - intros Hblock. apply (Hempty None); [|done].
    unfold _get_plugin_urls, _get_plugins_text, find_code_fence_content.
    fold nodes. by rewrite Hblock.
  - intros wrapper Hblock Hnone.
    rewrite main_unfold, Hgit, Hargs, Hdata0.
    rewrite (generate_stops_at_parser lib (Some directory) w0 data
               (no_child_of_type lib (wrapped_node wrapper)
                                 "code_fence_content")); [done..|].
    unfold _get_plugin_urls, _get_plugins_text, find_code_fence_content.
    fold nodes. rewrite Hblock, try_unfold.
    unfold NodeWrapper.text, NodeWrapper.get. cbn [NodeWrapper.descend].
    unfold _get_first_child_of_type. by rewrite Hnone.
Qed.

End NeverEmpty.

Lemma tables_of_references_are_not_empty_witness :
  ∃ tables w',
    _get_table_data Example.lib Example.spellings (Some "/tmp/r")
                    (Example.world "" "2025-01-01") = (Ok tables, w')
    ∧ is_empty tables = false
    ∧ ∀ middle, readme_middle tables = Ok middle →
                ∃ blocks, middle = Py.nl +:+ Py.nl +:+ blocks.
Proof.
  eexists _, _. split; [vm_compute; reflexivity|].
  eapply (tables_of_references_are_not_empty Example.lib Example.spellings
            (Some "/tmp/r") (Example.world "" "2025-01-01")).
  - discriminate.
  - vm_compute. reflexivity.
Defined.

Lemma empty_list_stops_the_run_witness :
  let data := "# Plugins" +:+ Py.nl +:+ "Nothing is listed yet." +:+ Py.nl in
  let w := Example.world data "2025-01-01" in
  let w0 := (_parse_arguments Example.lib Example.arguments w).2 in
  readme w0 = Some data
  ∧ trace w0 = trace w
  ∧ plugins_block Example.lib data
      (_iter_all_nodes (parse_markdown Example.lib data)) = Ok None
  ∧ _main Example.lib Example.arguments w
    = (Raise (RuntimeError ("Path " +:+ Py.dq +:+ readme_path Example.lib
                            +:+ Py.dq +:+ " has no parseable plugins list.")),
       w0).
Proof.
  intros data w w0.
  destruct (empty_list_stops_the_run Example.lib Example.arguments w w0 data
              "/tmp/r") as (Hdata & Htrace & _ & Hnone & _).
  - reflexivity.
  - vm_compute. reflexivity.
  - reflexivity.
  - split; [exact Hdata|]. split; [exact Htrace|].
    split; [vm_compute; reflexivity|]. apply Hnone. vm_compute. reflexivity.
Defined.

Example empty_fence_raises_another_error :
  (_main Example.lib Example.arguments
         (Example.world (Example.document []) "2025-01-01")).1
  = Raise (ValueError ("Could not find " +:+ Py.dq +:+ "code_fence_content"
                       +:+ Py.dq +:+ " child in " +:+ Py.dq
                       +:+ "(fenced_code_block)" +:+ Py.dq))
  ∧ (_main Example.lib Example.arguments
           (Example.world ("# Plugins" +:+ Py.nl) "2025-01-01")).1
    = Raise (RuntimeError ("Path " +:+ Py.dq
                           +:+ "/work/neovim-ai-plugins/README.md" +:+ Py.dq
                           +:+ " has no parseable plugins list.")).
Proof. split; vm_compute; reflexivity. Qed.

(** ** Serializing, at the edges *)

Lemma serialize_categories_empty (items : list (string * list _GitHubRow))
    (label : string) :
  StronglySorted category_le items →
  (label, []) ∈ items →
  ∃ first,
    (first, []) ∈ items ∧ String.le first label
    ∧ serialize_categories items = Raise (table_not_serialized first).
Proof.
  induction 1 as [|[k rows] items Hsorted IH Hall]; intros Hin.
  { by apply elem_of_nil in Hin. }
  destruct rows as [|row rows].
  - exists k. split; [by left|]. split; [|done].
    apply elem_of_cons in Hin as [[= ->]|Hin]; [done|].
    rewrite Forall_forall in Hall. by apply (Hall (label, [])).
  - apply elem_of_cons in Hin as [[=]|Hin].
    destruct (IH Hin) as (first & Hfirst & Hle & Hraise).
    exists first. split; [by right|]. split; [done|].
    cbn. by rewrite Hraise.
Qed.

(** X16: a category without rows cannot be serialized: the serializer
    raises [RuntimeError] for the first such category in label order,
    whether or not there are unknown entries as well. *)
Theorem empty_category_is_not_serialized (tables : _Tables) (label : string) :
  github tables !! label = Some [] →
  ∃ first,
    github tables !! first = Some []
    ∧ String.le first label
    ∧ _get_tables_as_lines tables = Raise (table_not_serialized first).
Proof.
  intros Hlabel.
  assert (Transitive category_le) as Htrans.
  { intros a b c. unfold category_le. apply (transitivity (R := String.le)). }
  destruct (serialize_categories_empty
              (merge_sort category_le (map_to_list (github tables))) label)
    as (first & Hfirst & Hle & Hraise).
  - by apply (StronglySorted_merge_sort category_le).
  - rewrite merge_sort_Permutation. by apply elem_of_map_to_list.
  - exists first. split; [|split; [done|]].
    + rewrite merge_sort_Permutation in Hfirst.
      by apply elem_of_map_to_list in Hfirst.
    + unfold _get_tables_as_lines. by rewrite Hraise.
Qed.

Lemma empty_category_is_not_serialized_witness :
  ∃ first,
    github (Build_Tables (<["unknown" := []]> {["chat" := []]})
                         [Build_UnknownRow "https://example.com/x"])
    !! first = Some []
    ∧ String.le first "unknown"
    ∧ _get_tables_as_lines
        (Build_Tables (<["unknown" := []]> {["chat" := []]})
                      [Build_UnknownRow "https://example.com/x"])
      = Raise (table_not_serialized first).
Proof.
  apply (empty_category_is_not_serialized
           (Build_Tables (<["unknown" := []]> {["chat" := []]})
                         [Build_UnknownRow "https://example.com/x"])
           "unknown").
  vm_compute. reflexivity.
Defined.

(** X17: the cell of the models does not depend on the order in which the
    set of models is listed, and neither does the line of the row; the
    cells of the description and of the models are never empty. *)
Theorem row_line_ignores_model_order (row : _GitHubRow)
    (models : list _Model) :
  row_models row ≡ₚ models →
  models_cell (with_models row models) = models_cell row
  ∧ row_line (with_models row models) = row_line row
  ∧ description_cell row ≠ ""
  ∧ models_cell row ≠ "".
Proof.
  intros Hperm.
  assert (models_cell (with_models row models) = models_cell row) as Hcell.
  { unfold models_cell. cbn [row_models with_models].
    by rewrite (sorted_permutation
                  (map serialize_to_markdown_tag models)
                  (map serialize_to_markdown_tag (row_models row)))
      by (by apply Permutation_map). }
  split; [done|]. split; [by unfold row_line; rewrite Hcell|]. split.
  - unfold description_cell. by destruct (row_description row) as [[|]|].
  - unfold models_cell. by destruct (Py.join _ _).
Qed.

Lemma row_line_ignores_model_order_witness :
  let claude := Build_Model ["claude"] "Claude" "https://claude.ai" in
  let openai := Build_Model ["openai"] "OpenAI" "https://openai.com" in
  let row := with_models Example.row_bar [claude; openai] in
  models_cell (with_models row [openai; claude]) = models_cell row
  ∧ row_line (with_models row [openai; claude]) = row_line row
  ∧ description_cell row ≠ ""
  ∧ models_cell row ≠ "".
Proof.
  apply (row_line_ignores_model_order
           (with_models Example.row_bar
              [Build_Model ["claude"] "Claude" "https://claude.ai";
               Build_Model ["openai"] "OpenAI" "https://openai.com"])
           [Build_Model ["openai"] "OpenAI" "https://openai.com";
            Build_Model ["claude"] "Claude" "https://claude.ai"]).
  apply perm_swap.
Defined.

(** X18: the text that [_get_reader_header] returns is the opening of the
    header with the day of the run, then the bullets of the references,
    one to a line and sorted by their text, then the closing of the
    header; the world is left as it is.  So two listings of the same
    references give the same header. *)
Theorem header_ignores_the_order (plugins1 plugins2 : list string)
    (w : World) :
  plugins1 ≡ₚ plugins2 →
  ∃ lines,
    Sorted String.le lines
    ∧ lines ≡ₚ map bullet plugins1
    ∧ _get_reader_header plugins1 w
      = (Ok (header_before (today w)
             +:+ (Py.join Py.nl lines +:+ Py.nl)
             +:+ header_after), w)
    ∧ _get_reader_header plugins2 w = _get_reader_header plugins1 w.
Proof.
  intros Hperm. exists (Py.sorted (map bullet plugins1)).
  destruct (sorted_is_sorted (map bullet plugins1)) as [Hsorted Hsame].
  split; [done|]. split; [done|].
  unfold _get_reader_header. run. rewrite !header_split.
  split; [done|]. unfold embedded_list.
  by rewrite (sorted_permutation (map bullet plugins2) (map bullet plugins1))
    by (by apply Permutation_map).
Qed.

Lemma header_ignores_the_order_witness :
  let plugins1 := ["https://github.com/foo/bar"; "https://github.com/a/b"] in
  let plugins2 := ["https://github.com/a/b"; "https://github.com/foo/bar"] in
  let w := Example.world "" "2024-05-01" in
  ∃ lines,
    Sorted String.le lines
    ∧ lines ≡ₚ map bullet plugins1
    ∧ _get_reader_header plugins1 w
      = (Ok (header_before (today w)
             +:+ (Py.join Py.nl lines +:+ Py.nl)
             +:+ header_after), w)
    ∧ _get_reader_header plugins2 w = _get_reader_header plugins1 w.
Proof.
  apply (header_ignores_the_order
           ["https://github.com/foo/bar"; "https://github.com/a/b"]
           ["https://github.com/a/b"; "https://github.com/foo/bar"]
           (Example.world "" "2024-05-01")).
  apply perm_swap.
Defined.

Example header_lists_the_bullets_sorted :
  (_get_reader_header
     ["https://github.com/foo/bar"; "https://github.com/a/b"]
     (Example.world "" "2024-05-01")).1
  = Ok (header_before "2024-05-01"
        +:+ ("- https://github.com/a/b" +:+ Py.nl
             +:+ "- https://github.com/foo/bar" +:+ Py.nl)
        +:+ header_after).
Proof. reflexivity. Qed.

(** ** Reading the list, line by line *)

Lemma parse_bullets_app (lines1 lines2 : list string) :
  parse_bullets (lines1 ++ lines2) =
    match parse_bullets lines1 with
    | Ok first =>
        match parse_bullets lines2 with
        | Ok second => Ok (first ++ second)
        | Raise e => Raise e
        end
    | Raise e => Raise e
    end.
Proof.
  induction lines1 as [|line rest IH]; cbn [app parse_bullets];
    [by destruct (parse_bullets lines2)|].
  destruct (String.eqb (Py.strip line) "" || String.eqb (Py.strip line) _);
    [done|].
  destruct (_BULLETPOINT_EXPRESSION (Py.strip line)); [|done].
  rewrite IH. destruct (parse_bullets rest); [|done].
  by destruct (parse_bullets lines2).
Qed.

Lemma parse_bullets_stripped (lines : list string) :
  parse_bullets (map Py.strip lines) = parse_bullets lines.
Proof.
  induction lines as [|line rest IH]; [done|]. cbn [map parse_bullets].
  destruct (strip_stripped line) as [Hleft Hright].
  rewrite (strip_clean (Py.strip line)) by done. by rewrite IH.
Qed.

(** X19: the parser reads the lines one by one and independently: the
    references of two runs of lines are those of the first followed by
    those of the second, and the error is that of the first line at fault;
    only the stripped lines count, so indentation and trailing blanks
    change nothing; a blank line or a fence delimiter may be put anywhere
    without effect. *)
Theorem list_is_read_line_by_line (lines1 lines2 : list string) :
  parse_bullets (lines1 ++ lines2) =
    match parse_bullets lines1 with
    | Ok first =>
        match parse_bullets lines2 with
        | Ok second => Ok (first ++ second)
        | Raise e => Raise e
        end
    | Raise e => Raise e
    end
  ∧ (map Py.strip lines1 = map Py.strip lines2 →
     parse_bullets lines1 = parse_bullets lines2)
  ∧ ∀ skipped,
      Py.strip skipped = "" ∨ Py.strip skipped = _MARKDOWN_FENCE_MARKER →
      parse_bullets (lines1 ++ skipped :: lines2)
      = parse_bullets (lines1 ++ lines2).
Proof.
  split; [apply parse_bullets_app|]. split.
  - intros Hsame.
    by rewrite <-(parse_bullets_stripped lines1),
               <-(parse_bullets_stripped lines2), Hsame.
  - intros skipped Hskipped. rewrite !parse_bullets_app.
    cbn [parse_bullets]. by destruct Hskipped as [-> | ->].
Qed.

(** X20: what the parser returns is in the form the header writes: every
    reference is non-empty text on one line without whitespace at either
    end, and the bullets of the references parse back to the very same
    references, in the same order. *)
Theorem parsed_references_parse_back (lib : Collaborators) (data : string)
    (urls : option (list string)) :
  _get_plugin_urls lib data = Ok urls →
  Forall is_reference (default [] urls)
  ∧ parse_bullets (map bullet (default [] urls)) = Ok (default [] urls).
Proof.
  intros Hurls.
  assert (Forall is_reference (default [] urls)) as Hall
    by (by eapply plugin_urls_references).
  split; [done|]. by apply parse_bullets_of_bullets.
Qed.

Lemma parsed_references_parse_back_witness :
  Forall is_reference
    (default [] (Some ["https://github.com/foo/bar"; "https://github.com/abc/xyz"]))
  ∧ parse_bullets
      (map bullet
         (default [] (Some ["https://github.com/foo/bar";
                            "https://github.com/abc/xyz"])))
    = Ok (default [] (Some ["https://github.com/foo/bar";
                            "https://github.com/abc/xyz"])).
Proof.
  apply (parsed_references_parse_back Example.lib
           (Example.document ["  - https://github.com/foo/bar  ";
                              "-https://github.com/abc/xyz"])).
  vm_compute. reflexivity.
Defined.

(** ** What a run leaves untouched *)

Section Untouched.

Context (lib : Collaborators).

(** A temporary directory is a new one. *)
Lemma mkdtemp_grows (suffix : string) (w : World) :
  directories w ⊆ directories (mkdtemp lib suffix w).2.
Proof.
  unfold mkdtemp. run.
  destruct (temporary_name lib suffix w) as [name|]; [|done]. run.
  destruct (directories w !! name) eqn:Hname; [done|]. run.
  cbn. by apply insert_subseteq.
Qed.

Lemma download_root_grows (root : option string) (w : World) :
  directories w ⊆ directories (download_root lib root w).2.
Proof. destruct root as [[|c root]|]; try done; apply mkdtemp_grows. Qed.

Lemma parse_arguments_grows (text : list string) (w : World) :
  directories w ⊆ directories (_parse_arguments lib text w).2.
Proof.
  unfold _parse_arguments. run.
  pose proof (mkdtemp_grows "_neovim_ai_plugins" w) as Hgrows.
  by destruct (mkdtemp lib _ w) as [[fallback|] w0].
Qed.

Lemma write_readme_directories (data : string) (w : World) :
  directories (write_readme lib data w).2 = directories w.
Proof. rewrite write_readme_unfold. by destruct (file_write lib w data). Qed.

Lemma table_data_grows (plugins : list string) (root : option string)
    (w : World) :
  directories w ⊆ directories (_get_table_data lib plugins root w).2.
Proof.
  rewrite table_data_unfold.
  pose proof (download_root_grows root w) as Hroot.
  destruct (download_root lib root w) as [[directory|] w0]; [|done].
  pose proof (loop_grows lib directory plugins ∅ [] [] w0) as Hgrows.
  destruct (table_data_loop lib _ plugins ∅ [] [] w0) as [[found|] w1];
    [|by etrans].
  destruct (_get_github_table_rows lib found.2); by etrans.
Qed.

Lemma generate_grows (root : option string) (w : World) :
  directories w ⊆ directories (_generate_readme_text lib root w).2.
Proof.
  destruct (readme w) as [data|] eqn:Hdata.
  2:{ unfold _generate_readme_text. run. by rewrite Hdata. }
  destruct (_get_plugin_urls lib data) as [urls|e] eqn:Hurls.
  2:{ by rewrite (generate_stops_at_parser lib root w data e). }
  destruct (decide (Py.sorted (default [] urls) = [])) as [Hnil|Hne].
  { by destruct (generate_empty lib root w data urls Hdata Hurls Hnil) as [e ->]. }
  rewrite (generate_unfold lib root w data urls) by done.
  pose proof (table_data_grows (Py.sorted (default [] urls)) root w) as Hgrows.
  destruct (_get_table_data lib _ root w) as [[tables|] w1]; [|done].
  by destruct (readme_middle tables).
Qed.

(** X21: a run never removes or rewrites a download directory it found:
    whatever it ends with, every directory that was there is there
    afterwards with the same files.  Downloads only add directories. *)
Theorem run_keeps_the_downloads (args : list string) (w : World) :
  directories w ⊆ directories (_main lib args w).2
  ∧ ∀ directory files,
      directories w !! directory = Some files →
      directories (_main lib args w).2 !! directory = Some files.
Proof.
  assert (directories w ⊆ directories (_main lib args w).2) as Hgrows.
  { rewrite main_unfold. destruct (git_installed w); [|done].
    pose proof (parse_arguments_grows args w) as Hparsed.
    destruct (_parse_arguments lib args w) as [[directory|] w0]; [|done].
    destruct (readme w0); [|done].
    pose proof (generate_grows (Some directory) w0) as Hgrows.
    destruct (_generate_readme_text lib (Some directory) w0) as [[doc|] w1];
      [|by etrans].
    rewrite write_readme_directories. by etrans. }
  split; [done|]. intros directory files Hfiles.
  by eapply lookup_weaken.
Qed.

End Untouched.

(** ** The rows of the repositories *)

Section Rows.

Context (lib : Collaborators).

Lemma github_row_url (details : _GitHubRepositoryDetails)
    (repository : _GitHubRepository) (row : _GitHubRow) :
  github_row lib details repository = Ok row →
  row_url row = repository_url repository
  ∧ row_name row = repository_name repository
  ∧ row_star_count row = stargazers_count details.
Proof.
  unfold github_row. destruct (_get_last_commit_date lib details); [|done].
  by intros [= <-].
Qed.

Lemma rows_from_raise
    (repositories : list (_GitHubRepositoryDetails * _GitHubRepository))
    (output : gmap string (list _GitHubRow)) (e : exception) :
  github_table_rows_from lib output repositories = Raise e →
  ∃ before found after,
    repositories = before ++ found :: after
    ∧ Forall (fun earlier => ∃ date, _get_last_commit_date lib earlier.1 = Ok date)
             before
    ∧ _get_last_commit_date lib found.1 = Raise e.
Proof.
  revert output. induction repositories as [|[details repository] rest IH];
    intros output; [done|].
  cbn [github_table_rows_from]. unfold github_row.
  destruct (_get_last_commit_date lib details) as [date|e'] eqn:Hdate.
  - intros (before & found & after & -> & Hbefore & Hfound)%IH.
    exists ((details, repository) :: before), found, after.
    split; [done|]. split; [|done]. constructor; [by exists date|done].
  - intros [= ->]. by exists [], (details, repository), rest.
Qed.

(** X22: [_get_github_table_rows] makes one row for each repository, in
    the order of the repositories, all under the one category there is, so
    that no category it returns is without rows.  It raises only when the
    date of a last push cannot be read, with the error of the first
    repository for which this happens. *)
Theorem rows_follow_the_repositories
    (repositories : list (_GitHubRepositoryDetails * _GitHubRepository)) :
  match _get_github_table_rows lib repositories with
  | Ok out =>
      (∀ category, category ≠ "unknown" → out !! category = None)
      ∧ map row_url (default [] (out !! "unknown"))
        = map (fun found => repository_url found.2) repositories
      ∧ (∀ category rows, out !! category = Some rows → rows ≠ [])
      ∧ (out = ∅ ↔ repositories = [])
  | Raise e =>
      ∃ before found after,
        repositories = before ++ found :: after
        ∧ Forall (fun earlier =>
                    ∃ date, _get_last_commit_date lib earlier.1 = Ok date)
                 before
        ∧ _get_last_commit_date lib found.1 = Raise e
  end.
Proof.
  destruct (_get_github_table_rows lib repositories) as [out|e] eqn:Hout.
  2:{ by apply rows_from_raise in Hout. }
  apply github_table_rows_spec in Hout as (rows & Hrows & ->).
  assert (map row_url rows
          = map (fun found => repository_url found.2) repositories) as Hurls.
  { induction Hrows as [|[details repository] row rest rows Hrow _ IH];
      [done|].
    cbn [map]. rewrite IH. f_equal. by apply github_row_url in Hrow as [-> _]. }
  destruct rows as [|row rows].
  - apply Forall2_nil_inv_r in Hrows as ->.
    split; [done|]. split; [done|]. split; [|done].
    intros category rows. by rewrite lookup_empty.
  - split; [|split; [|split]].
    + intros category Hcategory. by rewrite lookup_singleton_ne.
    + by rewrite lookup_singleton_eq.
    + intros category rows'.
      destruct (decide (category = "unknown")) as [->|Hne].
      * rewrite lookup_singleton_eq. by intros [= <-].
      * by rewrite lookup_singleton_ne.
    + split.
      * intros Hmap. apply (f_equal (lookup "unknown")) in Hmap.
        by rewrite lookup_singleton_eq, lookup_empty in Hmap.
      * intros ->. by apply Forall2_nil_inv_l in Hrows.
Qed.

End Rows.

(** ** Which references are GitHub's *)

Lemma startswith_spec (start url : string) :
  Py.startswith start url = true ↔ ∃ rest, url = start +:+ rest.
Proof.
  unfold Py.startswith. revert url.
  induction start as [|c start IH]; intros url.
  { rewrite prefix_empty. split; [by exists url|done]. }
  destruct url as [|d url].
  { split; [done|]. by intros [rest [=]]. }
  rewrite prefix_cons, andb_true_iff, bool_decide_eq_true, IH. split.
  - intros [-> [rest ->]]. by exists rest.
  - intros [rest [= -> ->]]. split; [done|]. by exists rest.
Qed.

(** X23: only the start of a reference decides whether it is GitHub's: it
    is exactly when it begins, letter for letter, with one of the four
    known starts; what follows does not matter. *)
Theorem github_is_decided_by_the_start (url : string) :
  (_is_github url = true ↔
   ∃ start rest,
     start ∈ ["http://github.com/"; "https://github.com/";
              "git@github.com:"; "git://github.com/"]
     ∧ url = start +:+ rest)
  ∧ ∀ more, _is_github url = true → _is_github (url +:+ more) = true.
Proof.
  assert (∀ text, _is_github text = true ↔
            ∃ start rest,
              start ∈ ["http://github.com/"; "https://github.com/";
                       "git@github.com:"; "git://github.com/"]
              ∧ text = start +:+ rest) as Hstart.
  { intros text. unfold _is_github, _GITHUB_PATTERNS. cbn [existsb].
    rewrite orb_false_r, !orb_true_iff, !startswith_spec. split.
    - intros [[[rest ->]|[rest ->]]|[[rest ->]|[rest ->]]];
        eexists _, rest; (split; [|done]); set_solver.
    - intros (start & rest & Hin & ->).
      repeat (apply elem_of_cons in Hin as [->|Hin]);
        [left; left|left; right|right; left|right; right|];
        try by exists rest.
      by apply elem_of_nil in Hin. }
  split; [apply Hstart|]. intros more.
  rewrite !Hstart. intros (start & rest & Hin & ->).
  exists start, (rest +:+ more). split; [done|]. by rewrite append_assoc.
Qed.

Example github_host_is_read_letter_for_letter :
  _is_github "https://github.com/foo/bar" = true
  ∧ _is_github "https://GitHub.com/foo/bar" = false
  ∧ _is_github " https://github.com/foo/bar" = false
  ∧ _is_github "https://gitlab.com/foo/bar" = false.
Proof. repeat split. Qed.

(** ** The shape of a written document *)

Section Shape.

Context (lib : Collaborators).

Lemma loop_length (root : string) (plugins : list string)
    (seen : gset string) (unknown : list _UnknownRow)
    (repositories : list (_GitHubRepositoryDetails * _GitHubRepository))
    (w w' : World)
    (found : list _UnknownRow
             * list (_GitHubRepositoryDetails * _GitHubRepository)) :
  table_data_loop lib root plugins seen unknown repositories w = (Ok found, w') →
  (length found.2 ≤ length repositories + length plugins)%nat.
Proof.
  revert seen unknown repositories w.
  induction plugins as [|url rest IH]; intros seen unknown repositories w Hloop.
  { injection Hloop as <- _. cbn. lia. }
  cbn [length]. destruct (_is_github url) eqn:Hurl.
  2:{ rewrite loop_unknown in Hloop by done. apply IH in Hloop. lia. }
  rewrite loop_github in Hloop by done.
  destruct (from_url lib url) as [request|]; [|done].
  destruct (repository_details lib request) as [details|]; [|done].
  case_bool_decide; [apply IH in Hloop; lia|].
  destruct (_download_github_files lib details root _) as [[repository|] w1];
    [|done].
  apply IH in Hloop. rewrite length_app in Hloop. cbn in Hloop. lia.
Qed.

(** X24: a run that ends well has written a document of one shape only:
    the header, one table under the heading [Unknown] with at least one
    row, and the footer.  Every reference of the list it read is GitHub's,
    and every row comes from one of them. *)
Theorem written_document_has_one_table (args : list string) (w w' : World) :
  _main lib args w = (Ok tt, w') →
  ∃ rows,
    rows ≠ []
    ∧ Forall is_github_reference (plugins_of lib w)
    ∧ (length rows ≤ length (plugins_of lib w))%nat
    ∧ table_heading "unknown" = "Unknown" +:+ Py.nl +:+ "======="
    ∧ readme w'
      = Some (reader_header (today w) (plugins_of lib w)
              +:+ (Py.nl +:+ Py.nl
                   +:+ table_heading "unknown" +:+ Py.nl +:+ Py.nl
                   +:+ Py.join Py.nl
                         (table_header ++ Py.sorted (map row_line rows)))
              +:+ readme_footer).
Proof.
  intros Hmain.
  destruct (main_ok lib _ _ _ Hmain)
    as (directory & w0 & doc & wg & _ & Hparsed & Hkept & Hgenerate & _ & ->).
  assert (today w0 = today w) as Hday.
  { pose proof (keeps_today_parse_arguments lib args w) as Htoday.
    by rewrite Hparsed in Htoday. }
  assert (plugins_of lib w0 = plugins_of lib w) as Hsame.
  { unfold plugins_of. by rewrite Hkept. }
  destruct (generate_ok lib _ _ _ _ Hgenerate)
    as (tables & middle & Hne & _ & Htables & Hmiddle & ->).
  rewrite Hday, Hsame in *. clear Hday Hsame Hmain Hgenerate.
  destruct (table_data_unknown lib _ _ _ _ _ Htables) as [Hunknown _].
  destruct (table_data_ok lib _ _ _ _ _ Htables)
    as (root & w1 & found & _ & Hloop & Hout & Hfound).
  destruct tables as [categories unknown_rows]. cbn [github unknown] in *.
  rewrite Hfound in Hunknown, Hmiddle. clear Hfound Htables unknown_rows.
  apply github_table_rows_spec in Hout as (rows & Hrows & ->).
  destruct (plugins_of lib w) as [|url rest] eqn:Hplugins; [done|].
  destruct (decide (found.1 = [])) as [Hnone|Hsome].
  2:{ unfold readme_middle in Hmiddle.
      destruct (is_empty _) eqn:Hempty.
      - unfold is_empty in Hempty. cbn [unknown] in Hempty.
        apply andb_prop in Hempty as [_ Hempty].
        by apply bool_decide_eq_true_1 in Hempty.
      - destruct (unknown_rows_raise (Build_Tables
                    match rows with [] => ∅ | _ => {["unknown" := rows]} end
                    found.1) Hsome) as [e He].
        by rewrite He in Hmiddle. }
  assert (Forall is_github_reference (url :: rest)) as Hgithub.
  { apply Forall_forall. intros reference Hin.
    destruct (_is_github reference) eqn:Hreference; [done|].
    assert (Build_UnknownRow reference ∈ found.1) as Hrow.
    { rewrite Hunknown. apply list_elem_of_fmap_2. by apply list_elem_of_filter. }
    rewrite Hnone in Hrow. by apply elem_of_nil in Hrow. }
  assert (rows ≠ []) as Hsomerows.
  { intros ->. apply Forall2_nil_inv_r in Hrows.
    destruct (loop_resolves lib _ _ _ _ _ _ _ _ Hloop url) as [identity Hid];
      [by left|by apply Forall_cons in Hgithub as [? _]|].
    destruct (loop_identities lib _ _ _ _ _ _ _ _ nothing_seen NoDup_nil_2 Hloop)
      as (_ & Hids & _).
    assert (identity ∈ identities found.2) as Hin.
    { apply Hids. right. exists url. split; [by left|].
      split; [by apply Forall_cons in Hgithub as [? _]|done]. }
    rewrite Hrows in Hin. by apply elem_of_nil in Hin. }
  exists rows. split; [done|]. split; [done|]. split.
  { apply Forall2_length in Hrows. rewrite <-Hrows.
    apply loop_length in Hloop. cbn in Hloop. cbn. lia. }
  split; [done|].
  rewrite Hnone in Hmiddle. unfold readme_middle in Hmiddle.
  destruct rows as [|row rows]; [done|].
  rewrite serialize_one_category in Hmiddle by done.
  unfold is_empty in Hmiddle. cbn [github unknown] in Hmiddle.
  rewrite bool_decide_eq_false_2 in Hmiddle.
  - cbn [andb] in Hmiddle. by injection Hmiddle as <-.
  - intros Hmap. apply (f_equal (lookup "unknown")) in Hmap.
    by rewrite lookup_singleton_eq, lookup_empty in Hmap.
Qed.

End Shape.

Lemma written_document_has_one_table_witness :
  let w := Example.world Example.first_document "2025-01-01" in
  ∃ rows,
    rows ≠ []
    ∧ Forall is_github_reference (plugins_of Example.lib w)
    ∧ (length rows ≤ length (plugins_of Example.lib w))%nat
    ∧ table_heading "unknown" = "Unknown" +:+ Py.nl +:+ "======="
    ∧ readme Example.after_first_run
      = Some (reader_header (today w) (plugins_of Example.lib w)
              +:+ (Py.nl +:+ Py.nl
                   +:+ table_heading "unknown" +:+ Py.nl +:+ Py.nl
                   +:+ Py.join Py.nl
                         (table_header ++ Py.sorted (map row_line rows)))
              +:+ readme_footer).
Proof.
  apply (written_document_has_one_table Example.lib Example.arguments
           (Example.world Example.first_document "2025-01-01")
           Example.after_first_run).
  vm_compute. reflexivity.
Defined.
